(** * gtfstk: service activity, route/stop statistics and time series

    A shallow embedding of the parts of [gtfstk/calculator.py] that decide
    which trips run on a date, aggregate trip statistics into route and stop
    statistics, and bin trips into per-minute time series.

    Conventions of the embedding:
    - a Pandas data frame is a list of row records, in row order;
    - a raised Python exception is a value [Raise e] of the [result] monad;
    - times of day are integer seconds past midnight ([Z]);
    - NumPy floats are exact rationals extended with infinities and [NaN]
      (binary64 rounding is not modelled);
    - a call [feed.name(...)] is a lookup of the name on the feed, and a
      feed has the attributes of [Feed.__init__] and no method. *)

From Stdlib Require Import ZArith QArith Qcanon String Ascii List Lia.
From stdpp Require Import base option numbers list sorting strings pretty gmap.

Local Open Scope string_scope.
Local Open Scope list_scope.
Local Open Scope Z_scope.

(** ** Exceptions *)

Inductive exn :=
  KeyError | IndexError | ValueError | TypeError | AttributeError.

Inductive result (A : Type) :=
  | Ok (a : A)
  | Raise (e : exn).
Arguments Ok {A} a.
Arguments Raise {A} e.

#[global] Instance result_ret : MRet result := fun A a => Ok a.
#[global] Instance result_bind : MBind result := fun A B k m =>
  match m with
  | Ok a => k a
  | Raise e => Raise e
  end.

(** ** Dates

    Date strings have the form YYYYMMDD.  [datetime.date] is the Python
    standard library's proleptic Gregorian date; [weekday] follows its
    definition through the ordinal of the date (Monday is 0). *)

Record date := { year : Z; month : Z; day : Z }.

Definition is_digit (c : ascii) : bool :=
  (48 <=? Z.of_N (N_of_ascii c)) && (Z.of_N (N_of_ascii c) <=? 57).

Definition digit_val (c : ascii) : Z := Z.of_N (N_of_ascii c) - 48.

Fixpoint digits_val (acc : Z) (s : string) : option Z :=
  match s with
  | EmptyString => Some acc
  | String c s' =>
      if is_digit c then digits_val (10 * acc + digit_val c) s' else None
  end.

Definition is_leap (y : Z) : bool :=
  (y mod 4 =? 0) && (negb (y mod 100 =? 0) || (y mod 400 =? 0)).

Definition days_in_month (y m : Z) : Z :=
  if m =? 2 then (if is_leap y then 29 else 28)
  else if (m =? 4) || (m =? 6) || (m =? 9) || (m =? 11) then 30
  else 31.

Definition days_before_year (y : Z) : Z :=
  let y1 := y - 1 in y1 * 365 + y1 / 4 - y1 / 100 + y1 / 400.

Definition days_before_month (y m : Z) : Z :=
  fold_right Z.add 0
    (map (days_in_month y) (map Z.of_nat (seq 1 (Z.to_nat (m - 1))))).

Definition toordinal (d : date) : Z :=
  days_before_year (year d) + days_before_month (year d) (month d) + day d.

Definition weekday (d : date) : Z := (toordinal d + 6) mod 7.

(** Modelled from the spec: [utils.datestr_to_date] is not among the
    sources.  The spec fixes the format of date strings as YYYYMMDD and has
    an unparseable date surface as an error. *)
Definition datestr_to_date (x : string) : result date :=
  if (String.length x =? 8)%nat then
    match digits_val 0 (substring 0 4 x), digits_val 0 (substring 4 2 x),
          digits_val 0 (substring 6 2 x) with
    | Some y, Some m, Some d =>
        if (1 <=? y) && (1 <=? m) && (m <=? 12) && (1 <=? d)
           && (d <=? days_in_month y m)
        then Ok {| year := y; month := m; day := d |}
        else Raise ValueError
    | _, _, _ => Raise ValueError
    end
  else Raise ValueError.

(** Modelled from the spec: [utils.weekday_to_str] is not among the sources.
    It names the calendar column of a weekday number, Monday being 0. *)
Definition weekday_to_str (w : Z) : string :=
  nth (Z.to_nat w)
    ["monday"; "tuesday"; "wednesday"; "thursday"; "friday"; "saturday";
     "sunday"] "".

(** ** Python values that meet in a comparison

    A cell of a column of strings holds a string or, when the value is
    missing, the float [nan] (such a cell is an [option string] below); a
    caller may also pass a number. *)

Inductive pyval :=
  | PyStr (s : string)
  | PyInt (n : Z)
  | PyNaN.

(** [a <= b]: strings compare by code point, numbers numerically, [nan]
    compares false with every number, and a string against a number is a
    [TypeError]. *)
Definition py_le (a b : pyval) : result bool :=
  match a, b with
  | PyStr s, PyStr t => Ok (String.leb s t)
  | PyInt m, PyInt n => Ok (m <=? n)
  | PyInt _, PyNaN | PyNaN, PyInt _ | PyNaN, PyNaN => Ok false
  | _, _ => Raise TypeError
  end.

(** The chained comparison [a <= b <= c]: the second test runs only when
    the first one holds. *)
Definition py_le_chain (a b c : pyval) : result bool :=
  x ← py_le a b;
  if x : bool then py_le b c else Ok false.

(** ** Feed tables *)

Record Trip := {
  trip_id : string;
  route_id : string;
  service_id : string;
  direction_id : option Z;
  shape_id : option string
}.

Record CalendarRow := {
  cal_service_id : string;
  monday : Z; tuesday : Z; wednesday : Z; thursday : Z; friday : Z;
  saturday : Z; sunday : Z;
  start_date : string;
  end_date : string
}.

Record CalendarDate := {
  cd_service_id : string;
  cd_date : string;
  exception_type : Z
}.

Record StopTime := {
  st_trip_id : string;
  st_stop_id : string;
  stop_sequence : Z;
  departure_time : option string
}.

Record Route := {
  r_route_id : string;
  r_route_short_name : string
}.

Record Stop := {
  s_stop_id : string;
  s_parent_station : option string
}.

Record Feed := {
  routes : option (list Route);
  stops : option (list Stop);
  trips : option (list Trip);
  stop_times : option (list StopTime);
  calendar : option (list CalendarRow);
  calendar_dates : option (list CalendarDate)
}.

(** The extra frames built by [Feed.__init__] for fast searching: each is
    [None] when its table is absent or empty. *)
Definition index_of {A} (table : option (list A)) : option (list A) :=
  match table with
  | Some (r :: rows) => Some (r :: rows)
  | _ => None
  end.

Definition trips_i (feed : Feed) := index_of (trips feed).
Definition calendar_i (feed : Feed) := index_of (calendar feed).
Definition calendar_dates_g (feed : Feed) := index_of (calendar_dates feed).

(** [frame.at[key, column]] on an index whose keys are unique. *)
Definition at_key {A} (key : A -> string) (k : string) (frame : list A)
  : result A :=
  match List.find (fun r => bool_decide (key r = k)) frame with
  | Some r => Ok r
  | None => Raise KeyError
  end.

Definition in_index {A} (key : A -> string) (k : string) (frame : list A)
  : bool :=
  existsb (fun r => bool_decide (key r = k)) frame.

(** A group-by object on (service_id, date): its groups are the non-empty
    classes of rows that share a key, each in row order. *)
Definition get_group (caldg : list CalendarDate) (k : string * string)
  : list CalendarDate :=
  List.filter
    (fun r => bool_decide (cd_service_id r = k.1 /\ cd_date r = k.2)) caldg.

Definition in_groups (caldg : list CalendarDate) (k : string * string)
  : bool :=
  match get_group caldg k with
  | [] => false
  | _ :: _ => true
  end.

(** [group[column].iat[0]] *)
Definition iat0 {A B} (col : A -> B) (group : list A) : result B :=
  match group with
  | r :: _ => Ok (col r)
  | [] => Raise IndexError
  end.

Definition calendar_at (row : CalendarRow) (col : string) : result Z :=
  if bool_decide (col = "monday") then Ok (monday row)
  else if bool_decide (col = "tuesday") then Ok (tuesday row)
  else if bool_decide (col = "wednesday") then Ok (wednesday row)
  else if bool_decide (col = "thursday") then Ok (thursday row)
  else if bool_decide (col = "friday") then Ok (friday row)
  else if bool_decide (col = "saturday") then Ok (saturday row)
  else if bool_decide (col = "sunday") then Ok (sunday row)
  else Raise KeyError.

(** ** Methods of a feed

    [class Feed] defines [__init__] and nothing else, and no statement of
    the module binds one of its functions to the class: a feed has the
    attributes that [__init__] sets and no method.  The functions of the
    module nevertheless call some of their siblings as methods,
    [feed.get_trips(date)] for one.  Such a call looks the name up on the
    feed before it evaluates an argument, and the lookup of a name that the
    class does not have raises [AttributeError]. *)

Definition Feed_methods : list string := [].

(** [feed.name(...)], where [call] is what the function of this name
    does. *)
Definition method_call {A} (name : string) (call : result A) : result A :=
  if bool_decide (name ∈ Feed_methods) then call else Raise AttributeError.

(** ** Functions about trips *)

Definition service_of (feed : Feed) (trip : string) : result string :=
  match trips_i feed with
  | None => Raise AttributeError
  | Some ti => tr ← at_key trip_id trip ti; Ok (service_id tr)
  end.

(** The part of [is_active_trip] that checks [feed.calendar_i]. *)
Definition check_calendar (feed : Feed) (service date : string)
  : result bool :=
  match calendar_i feed with
  | Some cali =>
      if in_index cal_service_id service cali then
        d ← datestr_to_date date;
        let weekday_str := weekday_to_str (weekday d) in
        row ← at_key cal_service_id service cali;
        if String.leb (start_date row) date && String.leb date (end_date row)
        then flag ← calendar_at row weekday_str; Ok (flag =? 1)
        else Ok false
      else Ok false
  | None => Ok false
  end.

Definition is_active_trip (feed : Feed) (trip date : string) : result bool :=
  service ← service_of feed trip;
  match calendar_dates_g feed with
  | Some caldg =>
      if in_groups caldg (service, date) then
        et ← iat0 exception_type (get_group caldg (service, date));
        if et =? 1 then Ok true else Ok false
      else check_calendar feed service date
  | None => check_calendar feed service date
  end.

(** ** NumPy floats

    [Fin q] is a finite value, [Inf b] an infinity ([b] is true for the
    negative one) and [NaN] the undefined value [np.nan].  A finite value
    is a rational number: the rounding of binary floating point is not
    modelled.  What is stated below of a computed value therefore says
    which operations yield it from which operands; an equation between two
    sums taken in different orders is stated for whole numbers only, which
    floating point adds exactly. *)

Inductive np_float :=
  | Fin (q : Qc)
  | Inf (negative : bool)
  | NaN.

#[global] Instance np_float_eq_dec : EqDecision np_float.
Proof. solve_decision. Defined.

Definition of_int (n : Z) : np_float := Fin (Qc_of_Z n).

Definition isnan (x : np_float) : bool :=
  match x with NaN => true | _ => false end.

Definition Qc_neg (q : Qc) : bool := bool_decide (q < 0)%Qc.

Definition fadd (x y : np_float) : np_float :=
  match x, y with
  | NaN, _ | _, NaN => NaN
  | Fin a, Fin b => Fin (a + b)
  | Fin _, Inf s | Inf s, Fin _ => Inf s
  | Inf s, Inf t => if bool_decide (s = t) then Inf s else NaN
  end.

(** Division the NumPy way: a zero divisor gives an infinity, or [NaN] for
    [0/0], instead of raising. *)
Definition fdiv (x y : np_float) : np_float :=
  match x, y with
  | NaN, _ | _, NaN => NaN
  | Fin a, Fin b =>
      if bool_decide (b = 0%Qc)
      then (if bool_decide (a = 0%Qc) then NaN else Inf (Qc_neg a))
      else Fin (a / b)
  | Fin _, Inf _ => Fin 0
  | Inf s, Fin b => Inf (xorb s (Qc_neg b))
  | Inf _, Inf _ => NaN
  end.

(** [np.sum]: a plain sum, through which [nan] propagates; of rationals,
    as said above. *)
Definition np_sum (l : list np_float) : np_float := foldr fadd (of_int 0) l.

Definition dropna (l : list np_float) : list np_float :=
  filter (fun x => x <> NaN) l.

(** [Series.sum()] and [Series.mean()] skip missing values; over no value
    at all they are [nan] (the Pandas for which the module was written). *)
Definition series_sum (l : list np_float) : np_float :=
  match dropna l with
  | [] => NaN
  | xs => np_sum xs
  end.

Definition series_mean (l : list np_float) : np_float :=
  match dropna l with
  | [] => NaN
  | xs => fdiv (np_sum xs) (of_int (Z.of_nat (length xs)))
  end.

(** ** Times of day *)

Fixpoint split_on (sep : ascii) (cur : string) (s : string) : list string :=
  match s with
  | EmptyString => [cur]
  | String c s' =>
      if bool_decide (c = sep) then cur :: split_on sep "" s'
      else split_on sep (cur +:+ String c "") s'
  end.

Definition parse_int (s : string) : option Z :=
  match s with
  | EmptyString => None
  | _ => digits_val 0 s
  end.

(** Modelled from the spec: [utils.timestr_to_seconds] is not among the
    sources.  A time string HH:MM:SS, whose hour may exceed 24, stands for
    that many seconds past midnight; a string of another form is an error
    surfaced to the caller. *)
Definition timestr_to_seconds (x : string) : result Z :=
  match split_on ":" "" x with
  | [h; m; sec] =>
      match parse_int h, parse_int m, parse_int sec with
      | Some hours, Some mins, Some seconds =>
          Ok (hours * 3600 + mins * 60 + seconds)
      | _, _, _ => Raise ValueError
      end
  | _ => Raise ValueError
  end.

(** ** Functions about trips *)

Definition str_min (a b : string) : string := if String.leb a b then a else b.
Definition str_max (a b : string) : string := if String.leb a b then b else a.

(** [Series.min()] and [Series.max()] of a column of time strings with
    missing values.  The missing cells are replaced by an infinite float
    before the values are compared: a column of strings gives its least or
    greatest string, a column without any string gives [nan], and a column
    that holds both strings and missing values makes the comparison of a
    string with a float raise [TypeError]. *)
Definition series_min_str (col : list (option string)) : result pyval :=
  match omap id col with
  | [] => Ok PyNaN
  | s :: l =>
      if bool_decide (None ∈ col) then Raise TypeError
      else Ok (PyStr (fold_left str_min l s))
  end.

Definition series_max_str (col : list (option string)) : result pyval :=
  match omap id col with
  | [] => Ok PyNaN
  | s :: l =>
      if bool_decide (None ∈ col) then Raise TypeError
      else Ok (PyStr (fold_left str_max l s))
  end.

Definition str_le (a b : string) : Prop := String.leb a b = true.

#[global] Instance str_le_dec : RelDecision str_le.
Proof. intros a b. unfold str_le. apply _. Defined.

(** Order of the keys (id, direction). *)
Definition key_le (a b : string * Z) : Prop :=
  String.ltb a.1 b.1 = true \/ (a.1 = b.1 /\ a.2 <= b.2).

#[global] Instance key_le_dec : RelDecision key_le.
Proof. intros a b. unfold key_le. apply _. Defined.

(** [frame.groupby(key)]: the groups, by increasing key, each in row order.
    A row whose key is missing belongs to no group. *)
Definition groupby {A K} `{EqDecision K} (le : relation K) `{!RelDecision le}
    (key : A -> option K) (rows : list A) : list (K * list A) :=
  (fun k => (k, filter (fun r => key r = Some k) rows))
    <$> merge_sort le (remove_dups (omap key rows)).

(** [f.merge(feed.stop_times[['trip_id', 'departure_time']])] *)
Definition merge_departures (f : list Trip) (st : list StopTime)
  : list (string * option string) :=
  flat_map (fun t =>
    (fun s => (trip_id t, departure_time s))
      <$> filter (fun s => st_trip_id s = trip_id t) st) f.

(** The function [F] applied by [get_trips] to each group of departures:
    only the comparison is inside the [try]. *)
Definition get_trips_F (time : pyval) (group : list (string * option string))
  : result bool :=
  start ← series_min_str (snd <$> group);
  end_ ← series_max_str (snd <$> group);
  match py_le_chain start time end_ with
  | Ok result => Ok result
  | Raise TypeError => Ok false
  | Raise e => Raise e
  end.

Definition require {A} (x : option A) (e : exn) : result A :=
  match x with
  | Some a => Ok a
  | None => Raise e
  end.

(** [get_trips].  The frame [h] of the results of [F] has the column
    [is_active] only when there is a group: on an empty join
    [h[h['is_active']]] raises [KeyError]. *)
Definition get_trips (feed : Feed) (date : option string)
    (time : option pyval) : result (list Trip) :=
  f ← require (trips feed) AttributeError;
  match date with
  | None => Ok f
  | Some date =>
      is_active ← mapM (fun t =>
                          method_call "is_active_trip"
                            (is_active_trip feed (trip_id t) date)) f;
      let f := fst <$> filter (fun p => p.2 = true) (zip f is_active) in
      match time with
      | None => Ok f
      | Some time =>
          st ← require (stop_times feed) TypeError;
          let g := merge_departures f st in
          h ← mapM (fun kg => b ← get_trips_F time kg.2; Ok (kg.1, b))
                 (groupby str_le (fun r => Some r.1) g);
          match h with
          | [] => Raise KeyError
          | _ :: _ =>
              let active := fst <$> filter (fun p => p.2 = true) h in
              Ok (filter (fun t => trip_id t ∈ active) f)
          end
      end
  end.

(** The frame returned by [compute_trips_activity]: the column of trip IDs
    and one 0/1 column per date. *)
Record ActivityFrame := {
  act_columns : list string;
  act_trip_id : list string;
  act_dates : list (string * list Z)
}.

Definition compute_trips_activity (feed : Feed) (dates : option (list string))
  : result ActivityFrame :=
  match dates with
  | None | Some [] =>
      Ok {| act_columns := ["trip_id"]; act_trip_id := []; act_dates := [] |}
  | Some dates =>
      f ← require (trips feed) AttributeError;
      cols ← mapM (fun date =>
                col ← mapM (fun t =>
                              b ← method_call "is_active_trip"
                                    (is_active_trip feed (trip_id t) date);
                              Ok (Z.b2z b)) f;
                Ok (date, col)) dates;
      Ok {| act_columns := "trip_id" :: dates;
            act_trip_id := trip_id <$> f;
            act_dates := cols |}
  end.

(** [f[date].sum()]: the sum of the column of the date, and, when the
    frame has several columns of this name (a date listed twice), the
    series of their sums. *)
Inductive ColumnSum :=
  | OneSum (n : Z)
  | SeveralSums (sums : list Z).

Definition column_sum (f : ActivityFrame) (date : string)
  : result ColumnSum :=
  match filter (fun c : string * list Z => c.1 = date) (act_dates f) with
  | [] => Raise KeyError
  | [c] => Ok (OneSum (foldr Z.add 0 c.2))
  | cs => Ok (SeveralSums ((fun c => foldr Z.add 0 c.2) <$> cs))
  end.

(** Order of the pairs (count, date): by count, then by date string. *)
Definition tuple_lt (a b : Z * string) : bool :=
  (a.1 <? b.1) || ((a.1 =? b.1) && String.ltb a.2 b.2).

(** [a < b] for two of the tuples of [get_busiest_date]: the comparison of
    a series of sums yields a series, whose truth value is a
    [ValueError]. *)
Definition sums_lt (a b : ColumnSum * string) : result bool :=
  match a.1, b.1 with
  | OneSum m, OneSum n => Ok (tuple_lt (m, a.2) (n, b.2))
  | _, _ => Raise ValueError
  end.

(** The builtin [max] of a list: the first of its greatest items. *)
Definition py_max (s : list (ColumnSum * string))
  : result (ColumnSum * string) :=
  match s with
  | [] => Raise ValueError
  | x :: l =>
      foldl (fun acc y =>
               m ← acc;
               lt ← sums_lt m y;
               Ok (if lt : bool then y else m)) (Ok x) l
  end.

(** The last two lines of [get_busiest_date], on the activity frame. *)
Definition busiest_of (f : ActivityFrame) (dates : list string)
  : result string :=
  s ← mapM (fun date => n ← column_sum f date; Ok (n, date)) dates;
  m ← py_max s;
  Ok m.2.

Definition get_busiest_date (feed : Feed) (dates : option (list string))
  : result string :=
  f ← compute_trips_activity feed dates;
  dates ← require dates TypeError;
  busiest_of f dates.

(** ** Peak windows *)

Definition list_max (l : list Z) : option Z :=
  match l with
  | [] => None
  | x :: l' => Some (fold_left Z.max l' x)
  end.

Definition list_min (l : list Z) : option Z :=
  match l with
  | [] => None
  | x :: l' => Some (fold_left Z.min l' x)
  end.

(** Length of the run of [m] at the head of [counts]. *)
Fixpoint run_len (m : Z) (counts : list Z) : nat :=
  match counts with
  | c :: counts' => if bool_decide (c = m) then S (run_len m counts') else 0
  | [] => 0
  end.

Definition is_run_start (m : Z) (counts : list Z) (i : nat) : Prop :=
  counts !! i = Some m /\ (i = 0%nat \/ counts !! pred i <> Some m).

#[global] Instance is_run_start_dec m counts i :
  Decision (is_run_start m counts i).
Proof. unfold is_run_start. apply _. Defined.

(** The maximal runs of the greatest count, as pairs (first index, last
    index), by increasing first index. *)
Definition max_runs (counts : list Z) : list (nat * nat) :=
  match list_max counts with
  | None => []
  | Some m =>
      (fun i => (i, pred (i + run_len m (drop i counts)))%nat)
        <$> filter (is_run_start m counts) (seq 0 (length counts))
  end.

Definition run_duration (times : list Z) (run : nat * nat) : Z :=
  times !!! run.2 - times !!! run.1.

(** The first of the items of [l] on which [f] is greatest. *)
Definition argmax_first {A} (f : A -> Z) (l : list A) : option A :=
  match l with
  | [] => None
  | x :: l' =>
      Some (fold_left (fun best y => if f best <? f y then y else best) l' x)
  end.

(** Modelled from the spec: [utils.get_peak_indices] is not among the
    sources.  Given the sampled times, increasing, and the counts at those
    times, the peak window is the first, longest contiguous run of
    consecutive sampled times at which the greatest count holds: the result
    is the pair of the indices of the first and of the last time of that
    run, the longest run being the one that spans the most time. *)
Definition get_peak_indices (times counts : list Z) : result (nat * nat) :=
  require (argmax_first (run_duration times) (max_runs counts)) ValueError.

(** ** Trip statistics

    A row of the output of [compute_trips_stats].  [T] is the type of the
    two time columns: [string] in the frames passed between functions, [Z]
    (seconds past midnight) once a function has converted them. *)

Record TripStats {T : Type} := {
  ts_trip_id : string;
  ts_route_id : string;
  ts_route_short_name : string;
  ts_direction_id : option Z;
  ts_shape_id : option string;
  ts_start_time : T;
  ts_end_time : T;
  ts_is_loop : Z;
  ts_distance : np_float;
  ts_duration : np_float
}.
Arguments TripStats : clear implicits.

Definition with_times {T U} (r : TripStats T) (s e : U) : TripStats U :=
  {| ts_trip_id := ts_trip_id r; ts_route_id := ts_route_id r;
     ts_route_short_name := ts_route_short_name r;
     ts_direction_id := ts_direction_id r; ts_shape_id := ts_shape_id r;
     ts_start_time := s; ts_end_time := e; ts_is_loop := ts_is_loop r;
     ts_distance := ts_distance r; ts_duration := ts_duration r |}.

(** [f[['start_time', 'end_time']].applymap(utils.timestr_to_seconds)] *)
Definition times_to_seconds (r : TripStats string) : result (TripStats Z) :=
  s ← timestr_to_seconds (ts_start_time r);
  e ← timestr_to_seconds (ts_end_time r);
  Ok (with_times r s e).

Definition pad2 (n : Z) : string :=
  if (0 <=? n) && (n <? 10) then "0" +:+ pretty n else pretty n.

(** Modelled from the spec: the inverse direction of
    [utils.timestr_to_seconds], from seconds past midnight to HH:MM:SS with
    an hour that may exceed 24. *)
Definition seconds_to_timestr (x : Z) : string :=
  pad2 (x / 3600) +:+ ":" +:+ pad2 ((x mod 3600) / 60) +:+ ":"
    +:+ pad2 ((x mod 3600) mod 60).

(** ** Functions about routes *)

Definition count_active_trips (trips : list (TripStats Z)) (time : Z) : Z :=
  Z.of_nat (length (filter
    (fun r => ts_start_time r <= time /\ ts_end_time r > time) trips)).

(** [sorted] of a list of numbers. *)
Definition sorted (l : list Z) : list Z := merge_sort Z.le l.

(** [np.unique]: the distinct values, increasing. *)
Definition np_unique (l : list Z) : list Z := sorted (remove_dups l).

(** [np.diff]: the differences of consecutive items. *)
Fixpoint np_diff (l : list Z) : list Z :=
  match l with
  | a :: (b :: _) as l' => (b - a) :: np_diff l'
  | _ => []
  end.

(** The times of the group that lie in the headway window, sorted. *)
Definition headway_times (headway_start headway_end : Z) (times : list Z)
  : list Z :=
  sorted (filter (fun t => headway_start <= t <= headway_end) times).

Record HeadwayStats := {
  max_headway : np_float;
  min_headway : np_float;
  mean_headway : np_float
}.

(** Maximum, minimum and mean of the headways, in minutes; all three are
    [nan] when there is no headway. *)
Definition headway_stats (headways : list Z) : HeadwayStats :=
  match list_max headways, list_min headways with
  | Some mx, Some mn =>
      {| max_headway := fdiv (of_int mx) (of_int 60);
         min_headway := fdiv (of_int mn) (of_int 60);
         mean_headway :=
           fdiv (fdiv (of_int (foldr Z.add 0 headways))
                      (of_int (Z.of_nat (length headways))))
                (of_int 60) |}
  | _, _ => {| max_headway := NaN; min_headway := NaN; mean_headway := NaN |}
  end.

(** The peak of a group: number of trips, start time and end time. *)
Definition peak_stats (group : list (TripStats Z)) : result (Z * Z * Z) :=
  let times :=
    np_unique (flat_map (fun r => [ts_start_time r; ts_end_time r]) group) in
  let counts := count_active_trips group <$> times in
  '(start, end_) ← get_peak_indices times counts;
  num ← require (counts !! start) IndexError;
  t0 ← require (times !! start) IndexError;
  t1 ← require (times !! end_) IndexError;
  Ok (num, t0, t1).

(** The series built by the two functions applied to a group of trips of
    one route. [d_is_bidirectional] is set by [compute_route_stats] only. *)
Record RouteGroupStats := {
  d_route_short_name : string;
  d_num_trips : Z;
  d_is_loop : Z;
  d_is_bidirectional : option Z;
  d_start_time : Z;
  d_end_time : Z;
  d_headway : HeadwayStats;
  d_peak_num_trips : Z;
  d_peak_start_time : Z;
  d_peak_end_time : Z;
  d_service_distance : np_float;
  d_service_duration : np_float
}.

Definition any_nonzero (l : list Z) : bool :=
  existsb (fun x => negb (x =? 0)) l.

Section route_stats.
Variables headway_start headway_end : Z.

Definition compute_route_stats_split_directions
    (group : list (TripStats Z)) : result RouteGroupStats :=
  match group with
  | [] => Raise IndexError
  | r :: rest =>
      let stimes :=
        headway_times headway_start headway_end (ts_start_time <$> group) in
      let headways := np_diff stimes in
      '(num, t0, t1) ← peak_stats group;
      Ok {| d_route_short_name := ts_route_short_name r;
            d_num_trips := Z.of_nat (length group);
            d_is_loop := Z.b2z (any_nonzero (ts_is_loop <$> group));
            d_is_bidirectional := None;
            d_start_time :=
              fold_left Z.min (ts_start_time <$> rest) (ts_start_time r);
            d_end_time :=
              fold_left Z.max (ts_end_time <$> rest) (ts_end_time r);
            d_headway := headway_stats headways;
            d_peak_num_trips := num;
            d_peak_start_time := t0;
            d_peak_end_time := t1;
            d_service_distance := series_sum (ts_distance <$> group);
            d_service_duration := series_sum (ts_duration <$> group) |}
  end.

(** The headways of the trips of the group that run in [direction]. *)
Definition direction_headways (group : list (TripStats Z)) (direction : Z)
  : list Z :=
  let stimes :=
    ts_start_time
      <$> filter (fun r => ts_direction_id r = Some direction) group in
  np_diff (headway_times headway_start headway_end stimes).

Definition compute_route_stats (group : list (TripStats Z))
  : result RouteGroupStats :=
  match group with
  | [] => Raise IndexError
  | r :: rest =>
      let headways :=
        fold_left (fun headways direction =>
                     headways ++ direction_headways group direction)
          [0; 1] [] in
      '(num, t0, t1) ← peak_stats group;
      Ok {| d_route_short_name := ts_route_short_name r;
            d_num_trips := Z.of_nat (length group);
            d_is_loop := Z.b2z (any_nonzero (ts_is_loop <$> group));
            d_is_bidirectional :=
              Some (Z.b2z (bool_decide
                (1 < length (remove_dups (ts_direction_id <$> group)))%nat));
            d_start_time :=
              fold_left Z.min (ts_start_time <$> rest) (ts_start_time r);
            d_end_time :=
              fold_left Z.max (ts_end_time <$> rest) (ts_end_time r);
            d_headway := headway_stats headways;
            d_peak_num_trips := num;
            d_peak_start_time := t0;
            d_peak_end_time := t1;
            d_service_distance := series_sum (ts_distance <$> group);
            d_service_duration := series_sum (ts_duration <$> group) |}
  end.
End route_stats.

(** A data frame: its column names and its rows. *)
Record Frame {R : Type} := {
  columns : list string;
  rows : list R
}.
Arguments Frame : clear implicits.

Record RouteStats := {
  rs_route_id : string;
  rs_direction_id : option Z;
  rs_route_short_name : string;
  rs_num_trips : Z;
  rs_is_loop : Z;
  rs_is_bidirectional : Z;
  rs_start_time : string;
  rs_end_time : string;
  rs_headway : HeadwayStats;
  rs_peak_num_trips : Z;
  rs_peak_start_time : string;
  rs_peak_end_time : string;
  rs_service_distance : np_float;
  rs_service_duration : np_float;
  rs_service_speed : np_float;
  rs_mean_trip_distance : np_float;
  rs_mean_trip_duration : np_float
}.

(** The last steps of [compute_routes_stats_base] on a row: the three
    derived columns, and the four times back as time strings. *)
Definition finish_route_row (route : string) (direction : option Z)
    (is_bidirectional : Z) (d : RouteGroupStats) : RouteStats :=
  {| rs_route_id := route;
     rs_direction_id := direction;
     rs_route_short_name := d_route_short_name d;
     rs_num_trips := d_num_trips d;
     rs_is_loop := d_is_loop d;
     rs_is_bidirectional := is_bidirectional;
     rs_start_time := seconds_to_timestr (d_start_time d);
     rs_end_time := seconds_to_timestr (d_end_time d);
     rs_headway := d_headway d;
     rs_peak_num_trips := d_peak_num_trips d;
     rs_peak_start_time := seconds_to_timestr (d_peak_start_time d);
     rs_peak_end_time := seconds_to_timestr (d_peak_end_time d);
     rs_service_distance := d_service_distance d;
     rs_service_duration := d_service_duration d;
     rs_service_speed := fdiv (d_service_distance d) (d_service_duration d);
     rs_mean_trip_distance :=
       fdiv (d_service_distance d) (of_int (d_num_trips d));
     rs_mean_trip_duration :=
       fdiv (d_service_duration d) (of_int (d_num_trips d)) |}.

Definition default_headway_start_time : string := "07:00:00".
Definition default_headway_end_time : string := "19:00:00".

Definition routes_stats_cols (split_directions : bool) : list string :=
  ["route_id"; "route_short_name"; "num_trips"; "is_loop";
   "is_bidirectional"; "start_time"; "end_time"; "max_headway";
   "min_headway"; "mean_headway"; "peak_num_trips"; "peak_start_time";
   "peak_end_time"; "service_duration"; "service_distance"; "service_speed";
   "mean_trip_distance"; "mean_trip_duration"]
  ++ (if split_directions then ["direction_id"] else []).

(** The columns written by the group functions, in the order of writing. *)
Definition route_group_cols (split_directions : bool) : list string :=
  ["route_short_name"; "num_trips"; "is_loop"]
  ++ (if split_directions then [] else ["is_bidirectional"])
  ++ ["start_time"; "end_time"; "max_headway"; "min_headway";
      "mean_headway"; "peak_num_trips"; "peak_start_time"; "peak_end_time";
      "service_distance"; "service_duration"].

Definition compute_routes_stats_base
    (trips_stats_subset : list (TripStats string)) (split_directions : bool)
    (headway_start_time headway_end_time : string)
  : result (Frame RouteStats) :=
  let cols := routes_stats_cols split_directions in
  match trips_stats_subset with
  | [] => Ok {| columns := cols; rows := [] |}
  | _ :: _ =>
      f ← mapM times_to_seconds trips_stats_subset;
      headway_start ← timestr_to_seconds headway_start_time;
      headway_end ← timestr_to_seconds headway_end_time;
      let more := ["service_speed"; "mean_trip_distance";
                   "mean_trip_duration"] in
      if split_directions then
        g ← mapM (fun kg =>
                    d ← compute_route_stats_split_directions
                          headway_start headway_end kg.2;
                    Ok (kg.1, d))
               (groupby key_le
                  (fun r => d ← ts_direction_id r; Some (ts_route_id r, d)) f);
        let is_bidirectional (route : string) : Z :=
          Z.b2z (bool_decide (1 < length (remove_dups
            (snd <$> filter (fun k => k.1 = route) (fst <$> g))))%nat) in
        Ok {| columns :=
                ["route_id"; "direction_id"] ++ route_group_cols true
                ++ ["is_bidirectional"] ++ more;
              rows :=
                (fun kd : string * Z * RouteGroupStats =>
                   finish_route_row kd.1.1 (Some kd.1.2)
                     (is_bidirectional kd.1.1) kd.2) <$> g |}
      else
        g ← mapM (fun kg =>
                    d ← compute_route_stats headway_start headway_end kg.2;
                    Ok (kg.1, d))
               (groupby str_le (fun r => Some (ts_route_id r)) f);
        Ok {| columns := ["route_id"] ++ route_group_cols false ++ more;
              rows :=
                (fun kd : string * RouteGroupStats =>
                   finish_route_row kd.1 None
                     (default 0 (d_is_bidirectional kd.2)) kd.2) <$> g |}
  end.

(** [feed.routes[feed.routes['route_id'].isin(R)]] for the routes [R] of
    the trips active on the date. *)
Definition get_routes (feed : Feed) (date : option string)
    (time : option pyval) : result (list Route) :=
  match date with
  | None => require (routes feed) AttributeError
  | Some date =>
      trips ← method_call "get_trips" (get_trips feed (Some date) time);
      let R := remove_dups (route_id <$> trips) in
      all ← require (routes feed) TypeError;
      Ok (filter (fun r => r_route_id r ∈ R) all)
  end.

(** ** Functions about stops *)

Definition get_stop_times (feed : Feed) (date : option string)
  : result (list StopTime) :=
  f ← require (stop_times feed) AttributeError;
  match date with
  | None => Ok f
  | Some date =>
      g ← method_call "get_trips" (get_trips feed (Some date) None);
      let ids : list string := trip_id <$> g in
      Ok (filter (fun s : StopTime => st_trip_id s ∈ ids) f)
  end.

Definition get_stops (feed : Feed) (date : option string)
  : result (list Stop) :=
  match date with
  | None => require (stops feed) AttributeError
  | Some date =>
      active ← method_call "get_stop_times" (get_stop_times feed (Some date));
      let S := remove_dups (st_stop_id <$> active) in
      all ← require (stops feed) TypeError;
      Ok (filter (fun s => s_stop_id s ∈ S) all)
  end.

(** The frame returned by [compute_stops_activity]: the column of stop IDs
    and one 0/1 column per date. *)
Record StopsActivityFrame := {
  sact_columns : list string;
  sact_stop_id : list string;
  sact_dates : list (string * list Z)
}.

(** [compute_stops_activity]: the rows of the trips activity are joined
    with the stop times on the trip ID and grouped by stop, and each date
    column holds the greatest value of a group. *)
Definition compute_stops_activity (feed : Feed) (dates : option (list string))
  : result StopsActivityFrame :=
  match dates with
  | None | Some [] =>
      Ok {| sact_columns := ["stop_id"]; sact_stop_id := [];
            sact_dates := [] |}
  | Some dates =>
      trips_activity ← method_call "compute_trips_activity"
                         (compute_trips_activity feed (Some dates));
      st ← require (stop_times feed) TypeError;
      let merged :=
        flat_map (fun it : nat * string =>
                    (fun s => (st_stop_id s, it.1))
                      <$> filter (fun s => st_trip_id s = it.2) st)
          (imap pair (act_trip_id trips_activity)) in
      let g := groupby str_le (fun r : string * nat => Some r.1) merged in
      Ok {| sact_columns := "stop_id" :: dates;
            sact_stop_id := fst <$> g;
            sact_dates :=
              (fun c : string * list Z =>
                 (c.1,
                  (fun kg : string * list (string * nat) =>
                     default 0
                       (list_max
                          ((fun r : string * nat => c.2 !!! r.2) <$> kg.2)))
                    <$> g))
                <$> act_dates trips_activity |}
  end.

(** A row of the join of the stop times with the trips, its departure time
    in seconds ([None] is a missing time). *)
Record StopVisit := {
  sv_stop_id : string;
  sv_route_id : string;
  sv_direction_id : option Z;
  sv_departure_time : option Z
}.

Record StopGroupStats := {
  sd_num_routes : Z;
  sd_num_trips : Z;
  sd_start_time : option Z;
  sd_end_time : option Z;
  sd_headway : HeadwayStats
}.

Definition compute_stop_stats (headway_start headway_end : Z)
    (group : list StopVisit) : StopGroupStats :=
  let dtimes :=
    sorted (filter (fun dtime => headway_start <= dtime <= headway_end)
              (omap sv_departure_time group)) in
  let headways := np_diff dtimes in
  {| sd_num_routes := Z.of_nat (length (remove_dups (sv_route_id <$> group)));
     sd_num_trips := Z.of_nat (length group);
     sd_start_time := list_min (omap sv_departure_time group);
     sd_end_time := list_max (omap sv_departure_time group);
     sd_headway := headway_stats headways |}.

Record StopStats := {
  ss_stop_id : string;
  ss_direction_id : option Z;
  ss_num_routes : Z;
  ss_num_trips : Z;
  ss_headway : HeadwayStats;
  ss_start_time : option string;
  ss_end_time : option string
}.

Definition finish_stop_row (stop : string) (direction : option Z)
    (d : StopGroupStats) : StopStats :=
  {| ss_stop_id := stop;
     ss_direction_id := direction;
     ss_num_routes := sd_num_routes d;
     ss_num_trips := sd_num_trips d;
     ss_headway := sd_headway d;
     ss_start_time := seconds_to_timestr <$> sd_start_time d;
     ss_end_time := seconds_to_timestr <$> sd_end_time d |}.

Definition stops_stats_cols (split_directions : bool) : list string :=
  ["stop_id"; "num_routes"; "num_trips"; "max_headway"; "min_headway";
   "mean_headway"; "start_time"; "end_time"]
  ++ (if split_directions then ["direction_id"] else []).

(** [stop_times.merge(trips_subset)], with the departure times converted. *)
Definition merge_visits (stop_times : list StopTime) (trips_subset : list Trip)
  : result (list StopVisit) :=
  mapM (fun st : StopTime * Trip =>
          dep ← match departure_time st.1 with
                | None => Ok None
                | Some x => s ← timestr_to_seconds x; Ok (Some s)
                end;
          Ok {| sv_stop_id := st_stop_id st.1; sv_route_id := route_id st.2;
                sv_direction_id := direction_id st.2;
                sv_departure_time := dep |})
    (flat_map (fun s =>
       (fun t => (s, t)) <$> filter (fun t => trip_id t = st_trip_id s)
                               trips_subset) stop_times).

Definition compute_stops_stats_base (stop_times : list StopTime)
    (trips_subset : list Trip) (split_directions : bool)
    (headway_start_time headway_end_time : string)
  : result (Frame StopStats) :=
  let cols := stops_stats_cols split_directions in
  match trips_subset with
  | [] => Ok {| columns := cols; rows := [] |}
  | _ :: _ =>
      f ← merge_visits stop_times trips_subset;
      headway_start ← timestr_to_seconds headway_start_time;
      headway_end ← timestr_to_seconds headway_end_time;
      let group_cols := ["num_routes"; "num_trips"; "start_time"; "end_time";
                         "max_headway"; "min_headway"; "mean_headway"] in
      if split_directions then
        Ok {| columns := ["stop_id"; "direction_id"] ++ group_cols;
              rows :=
                (fun kg : string * Z * list StopVisit =>
                   finish_stop_row kg.1.1 (Some kg.1.2)
                     (compute_stop_stats headway_start headway_end kg.2))
                <$> groupby key_le
                      (fun r => d ← sv_direction_id r; Some (sv_stop_id r, d))
                      f |}
      else
        Ok {| columns := ["stop_id"] ++ group_cols;
              rows :=
                (fun kg : string * list StopVisit =>
                   finish_stop_row kg.1 None
                     (compute_stop_stats headway_start headway_end kg.2))
                <$> groupby str_le (fun r => Some (sv_stop_id r)) f |}
  end.

(** ** Functions about feeds *)

Record FeedStats := {
  fs_num_trips : Z;
  fs_num_routes : Z;
  fs_num_stops : Z;
  fs_peak_num_trips : Z;
  fs_peak_start_time : string;
  fs_peak_end_time : string;
  fs_service_distance : np_float;
  fs_service_duration : np_float;
  fs_service_speed : np_float
}.

Definition feed_stats_cols : list string :=
  ["num_trips"; "num_routes"; "num_stops"; "peak_num_trips";
   "peak_start_time"; "peak_end_time"; "service_distance";
   "service_duration"; "service_speed"].

(** [trips.merge(trips_stats)]: the join on the columns the two frames
    share. *)
Definition merge_trips_stats {T} (trips : list Trip)
    (trips_stats : list (TripStats T)) : list (TripStats T) :=
  flat_map (fun t =>
    filter (fun r => ts_trip_id r = trip_id t /\ ts_route_id r = route_id t
                     /\ ts_direction_id r = direction_id t
                     /\ ts_shape_id r = shape_id t) trips_stats) trips.

Definition compute_feed_stats (feed : Feed)
    (trips_stats : list (TripStats string)) (date : string)
  : result (Frame FeedStats) :=
  let cols := feed_stats_cols in
  trips ← method_call "get_trips" (get_trips feed (Some date) None);
  match trips with
  | [] => Ok {| columns := cols; rows := [] |}
  | _ :: _ =>
      active_routes ← method_call "get_routes"
                        (get_routes feed (Some date) None);
      active_stops ← method_call "get_stops" (get_stops feed (Some date));
      f ← mapM times_to_seconds (merge_trips_stats trips trips_stats);
      '(num, t0, t1) ← peak_stats f;
      let service_distance := series_sum (ts_distance <$> f) in
      let service_duration := series_sum (ts_duration <$> f) in
      Ok {| columns := cols;
            rows :=
              [ {| fs_num_trips := Z.of_nat (length trips);
                   fs_num_routes := Z.of_nat (length active_routes);
                   fs_num_stops := Z.of_nat (length active_stops);
                   fs_peak_num_trips := num;
                   fs_peak_start_time := seconds_to_timestr t0;
                   fs_peak_end_time := seconds_to_timestr t1;
                   fs_service_distance := service_distance;
                   fs_service_duration := service_duration;
                   fs_service_speed :=
                     fdiv service_distance service_duration |} ] |}
  end.

(** ** Time series

    A time series is a frame indexed by equally spaced timestamps that start
    at midnight.  [ts_names] holds the names of the levels of its columns,
    [ts_freq] the spacing of its index in minutes ([None] for a frame
    without a time index) and each column its key and its values, one per
    timestamp. *)

Record ColKey := {
  indicator : string;
  entity : option string;
  direction : option string
}.

#[global] Instance ColKey_eq_dec : EqDecision ColKey.
Proof. solve_decision. Defined.

Record TimeSeries := {
  ts_names : list string;
  ts_freq : option Z;
  ts_columns : list (ColKey * list np_float)
}.

(** [DataFrame.empty]: no column, or no row. *)
Definition ts_empty (time_series : TimeSeries) : bool :=
  match ts_columns time_series with
  | [] => true
  | c :: _ => bool_decide (c.2 = [])
  end.

Definition opt_str_le (a b : option string) : Prop :=
  match a, b with
  | None, _ => True
  | Some _, None => False
  | Some x, Some y => str_le x y
  end.

#[global] Instance opt_str_le_dec : RelDecision opt_str_le.
Proof. intros [a|] [b|]; simpl; apply _. Defined.

(** Order of the column keys: by indicator, then entity, then direction. *)
Definition colkey_le (a b : ColKey) : Prop :=
  String.ltb (indicator a) (indicator b) = true
  \/ (indicator a = indicator b
      /\ ((entity a <> entity b /\ opt_str_le (entity a) (entity b))
          \/ (entity a = entity b
              /\ opt_str_le (direction a) (direction b)))).

#[global] Instance colkey_le_dec : RelDecision colkey_le.
Proof. intros a b. unfold colkey_le. apply _. Defined.

(** [frame.sortlevel(axis=1)] *)
Definition sortlevel (cols : list (ColKey * list np_float))
  : list (ColKey * list np_float) :=
  merge_sort (fun a b => colkey_le a.1 b.1) cols.

(** [enumerate(values, i)] *)
Fixpoint enumerate {A} (i : Z) (values : list A) : list (Z * A) :=
  match values with
  | [] => []
  | x :: values' => (i, x) :: enumerate (i + 1) values'
  end.

(** The values of the samples that fall in window [j] when a series spaced
    [native] minutes apart is cut into windows of [freq] minutes: sample
    [i] is taken at minute [i * native], and window [j] starts at minute
    [j * freq]. *)
Definition window (native freq : Z) (values : list np_float) (j : Z)
  : list np_float :=
  snd <$> filter (fun p : Z * np_float => p.1 * native / freq = j)
            (enumerate 0 values).

Definition num_windows (native freq : Z) (n : nat) : Z :=
  match n with
  | O => 0
  | S m => Z.of_nat m * native / freq + 1
  end.

(** [series.resample(freq, how)] *)
Definition resample (native freq : Z) (how : list np_float -> np_float)
    (values : list np_float) : list np_float :=
  (fun j => how (window native freq values j))
    <$> seqZ 0 (num_windows native freq (length values)).

Definition sum_indicators : list string :=
  ["num_trip_starts"; "service_distance"; "service_duration"].

Definition mean_indicators : list string := ["num_trips"].

Definition select (ind : string) (cols : list (ColKey * list np_float))
  : list (ColKey * list np_float) :=
  filter (fun c => indicator c.1 = ind) cols.

Definition same_entity (a b : ColKey) : Prop :=
  entity a = entity b /\ direction a = direction b.

Definition nan_like (values : list np_float) : list np_float :=
  (fun _ => NaN) <$> values.

(** The key of the speed column of the route and direction of [k]. *)
Definition speed_key (k : ColKey) : ColKey :=
  {| indicator := "service_speed"; entity := entity k;
     direction := direction k |}.

(** [f['service_distance']/f['service_duration']] under the key
    'service_speed': the columns are matched by route and direction, and a
    column without a partner gives [nan]s. *)
Definition speed_columns (f : list (ColKey * list np_float))
  : list (ColKey * list np_float) :=
  let dist := select "service_distance" f in
  let dur := select "service_duration" f in
  ((fun c : ColKey * list np_float =>
      (speed_key c.1,
       match List.find (fun d => bool_decide (same_entity c.1 d.1)) dur with
       | Some d => zip_with fdiv c.2 d.2
       | None => nan_like c.2
       end)) <$> dist)
  ++ ((fun d : ColKey * list np_float => (speed_key d.1, nan_like d.2))
        <$> filter (fun d => Forall (fun c => ~ same_entity c.1 d.1) dist)
              dur).

(** The resampling of a route or feed series: sums, then means. *)
Definition resample_sum_mean (native freq : Z)
    (cols : list (ColKey * list np_float)) : list (ColKey * list np_float) :=
  ((fun c : ColKey * list np_float =>
      (c.1, resample native freq series_sum c.2))
     <$> filter (fun c => indicator c.1 ∈ sum_indicators) cols)
  ++ ((fun c : ColKey * list np_float =>
         (c.1, resample native freq series_mean c.2))
        <$> filter (fun c => indicator c.1 ∈ mean_indicators) cols).

Definition downsample (time_series : TimeSeries) (freq : Z)
  : result TimeSeries :=
  if ts_empty time_series then Ok time_series
  else
    native ← require (ts_freq time_series) TypeError;
    if freq <? native then Ok time_series
    else
      let cols := ts_columns time_series in
      let result :=
        if bool_decide ("route_id" ∈ ts_names time_series) then
          let f := resample_sum_mean native freq cols in
          sortlevel (f ++ speed_columns f)
        else if bool_decide ("stop_id" ∈ ts_names time_series) then
          sortlevel ((fun c : ColKey * list np_float =>
                        (c.1, resample native freq series_sum c.2)) <$> cols)
        else
          let f := resample_sum_mean native freq cols in
          f ++ speed_columns f in
      Ok {| ts_names := ts_names time_series;
            ts_freq := Some freq;
            ts_columns := result |}.

Definition indicators : list string :=
  ["num_trip_starts"; "num_trips"; "service_duration"; "service_distance"].

Definition num_bins : nat := 24 * 60.

Definition bins : list nat := seq 0 num_bins.

(** The function [F] that bins a time of day. *)
Definition bin_of (seconds : Z) : nat := Z.to_nat ((seconds / 60) mod (24 * 60)).

(** [l[a:b]] for indices that are not negative. *)
Definition py_slice {A} (l : list A) (a b : nat) : list A :=
  take (b - a) (drop a l).

Definition bins_to_fill (start end_ : nat) : list nat :=
  if bool_decide (start <= end_)%nat then py_slice bins start end_
  else drop start bins ++ take end_ bins.

(** [series_by_route_by_indicator[indicator][route][bin] += weight]; the
    indicator and the route are keys of the dictionaries and the bin is an
    index of the list wherever the function does this. *)
Definition add_weight (indicator route : string) (bin : nat)
    (weight : np_float) (series : gmap string (gmap string (list np_float)))
  : gmap string (gmap string (list np_float)) :=
  alter (alter (alter (fun x => fadd x weight) bin) route) indicator series.

Definition weight_of (indicator : string) (distance : np_float)
    (filled : list nat) : np_float :=
  if bool_decide (indicator = "num_trips") then of_int 1
  else if bool_decide (indicator = "service_duration")
       then fdiv (of_int 1) (of_int 60)
  else fdiv distance (of_int (Z.of_nat (length filled))).

(** The body of the loop over the rows of the trip stats. *)
Definition bin_trip (row : TripStats Z)
    (series : gmap string (gmap string (list np_float)))
  : gmap string (gmap string (list np_float)) :=
  let route := ts_route_id row in
  let start := bin_of (ts_start_time row) in
  let end_ := bin_of (ts_end_time row) in
  if bool_decide (start = end_) then series
  else
    let filled := bins_to_fill start end_ in
    let series := add_weight "num_trip_starts" route start (of_int 1) series in
    fold_left (fun series indicator =>
                 let weight := weight_of indicator (ts_distance row) filled in
                 fold_left (fun series bin =>
                              add_weight indicator route bin weight series)
                   filled series)
      (drop 1 indicators) series.

Definition zero_series (routes : list string)
  : gmap string (gmap string (list np_float)) :=
  list_to_map ((fun indicator =>
    (indicator,
     list_to_map ((fun route => (route, (fun _ => of_int 0) <$> bins))
                    <$> routes))) <$> indicators).

(** [str] of a direction: an integer when the column has no missing value,
    a float otherwise. *)
Definition direction_str (float_column : bool) (d : option Z) : string :=
  match d with
  | None => "nan"
  | Some n => if float_column then pretty n +:+ ".0" else pretty n
  end.

(** [k.rsplit(sep, 1)], when [sep] occurs in [k]. *)
Fixpoint rsplit1 (sep : ascii) (k : string) : option (string * string) :=
  match k with
  | EmptyString => None
  | String c k' =>
      match rsplit1 sep k' with
      | Some (a, b) => Some (String c a, b)
      | None => if bool_decide (c = sep) then Some ("", k') else None
      end
  end.

Definition fillna0 (values : list np_float) : list np_float :=
  (fun x => if isnan x then of_int 0 else x) <$> values.

(** Order of the columns of a frame built from a dictionary: by key. *)
Definition by_route (a b : string * list np_float) : Prop := str_le a.1 b.1.

#[global] Instance by_route_dec : RelDecision by_route.
Proof. intros a b. unfold by_route. apply _. Defined.

(** [combine_time_series(series_by_indicator, kind='route', ...)] *)
Definition combine_time_series (series : gmap string (gmap string (list np_float)))
    (split_directions : bool) : TimeSeries :=
  let process_index (k : string) : option string * option string :=
    if split_directions then
      match rsplit1 "-" k with
      | Some (a, b) => (Some a, Some b)
      | None => (Some k, None)
      end
    else (Some k, None) in
  {| ts_names :=
       ["indicator"; "route_id"]
       ++ (if split_directions then ["direction_id"] else []);
     ts_freq := Some 1;
     ts_columns :=
       flat_map (fun ind =>
         (fun rv : string * list np_float =>
            ({| indicator := ind; entity := (process_index rv.1).1;
                direction := (process_index rv.1).2 |}, fillna0 rv.2))
         <$> merge_sort by_route
               (map_to_list (default ∅ (series !! ind)))) indicators |}.

Definition time_series_cols : list string :=
  ["service_distance"; "service_duration"; "num_trip_starts"; "num_trips";
   "service_speed"].

Definition compute_routes_time_series_base
    (trips_stats_subset : list (TripStats string)) (split_directions : bool)
    (freq : Z) : result TimeSeries :=
  match trips_stats_subset with
  | [] =>
      Ok {| ts_names := []; ts_freq := None;
            ts_columns :=
              (fun c => ({| indicator := c; entity := None;
                            direction := None |}, []))
                <$> time_series_cols |}
  | _ :: _ =>
      let float_column :=
        existsb (fun r => bool_decide (ts_direction_id r = None))
          trips_stats_subset in
      let rename (r : TripStats string) : TripStats string :=
        if split_directions then
          {| ts_trip_id := ts_trip_id r;
             ts_route_id :=
               ts_route_id r +:+ "-"
                 +:+ direction_str float_column (ts_direction_id r);
             ts_route_short_name := ts_route_short_name r;
             ts_direction_id := ts_direction_id r;
             ts_shape_id := ts_shape_id r;
             ts_start_time := ts_start_time r; ts_end_time := ts_end_time r;
             ts_is_loop := ts_is_loop r; ts_distance := ts_distance r;
             ts_duration := ts_duration r |}
        else r in
      tss ← mapM times_to_seconds (rename <$> trips_stats_subset);
      let routes := remove_dups (ts_route_id <$> tss) in
      let series := fold_left (fun s row => bin_trip row s) tss
                      (zero_series routes) in
      downsample (combine_time_series series split_directions) freq
  end.

(** ** What the claims speak of, stated on the tables themselves *)

(** The exception row of a service on a date: the first one in the table. *)
Definition exception_for (feed : Feed) (service date : string)
  : option CalendarDate :=
  rows ← calendar_dates feed;
  List.find
    (fun r => bool_decide (cd_service_id r = service /\ cd_date r = date))
    rows.

(** The calendar entry of a service. *)
Definition calendar_entry (feed : Feed) (service : string)
  : option CalendarRow :=
  rows ← calendar feed;
  List.find (fun r => bool_decide (cal_service_id r = service)) rows.

(** The flag of a calendar entry for a weekday number, Monday being 0. *)
Definition weekday_flag (row : CalendarRow) (w : Z) : Z :=
  nth (Z.to_nat w)
    [monday row; tuesday row; wednesday row; thursday row; friday row;
     saturday row; sunday row] 0.

Definition date_in_range (row : CalendarRow) (date : string) : bool :=
  String.leb (start_date row) date && String.leb date (end_date row).

(** ** Example feed: one service that runs Monday to Friday in January
    2020, added on Saturday the 4th and removed on Monday the 6th. *)

Definition weekdays_cal : CalendarRow :=
  {| cal_service_id := "wk"; monday := 1; tuesday := 1; wednesday := 1;
     thursday := 1; friday := 1; saturday := 0; sunday := 0;
     start_date := "20200101"; end_date := "20200131" |}.

Definition trip_of (id route service : string) (d : Z) : Trip :=
  {| trip_id := id; route_id := route; service_id := service;
     direction_id := Some d; shape_id := None |}.

Definition stop_time_of (trip stop : string) (seq : Z) (dep : option string)
  : StopTime :=
  {| st_trip_id := trip; st_stop_id := stop; stop_sequence := seq;
     departure_time := dep |}.

Definition sample_feed : Feed :=
  {| routes := Some [ {| r_route_id := "r1"; r_route_short_name := "1" |} ];
     stops := Some [ {| s_stop_id := "a"; s_parent_station := None |};
                     {| s_stop_id := "b"; s_parent_station := None |} ];
     trips := Some [ trip_of "t1" "r1" "wk" 0; trip_of "t2" "r1" "wk" 1;
                     trip_of "t3" "r1" "sat" 0 ];
     stop_times :=
       Some [ stop_time_of "t1" "a" 1 (Some "07:00:00");
              stop_time_of "t1" "b" 2 (Some "08:00:00");
              stop_time_of "t2" "b" 1 None;
              stop_time_of "t2" "a" 2 None ];
     calendar := Some [weekdays_cal];
     calendar_dates :=
       Some [ {| cd_service_id := "wk"; cd_date := "20200104";
                 exception_type := 1 |};
              {| cd_service_id := "wk"; cd_date := "20200106";
                 exception_type := 2 |} ] |}.

#[global] Instance exn_eq_dec : EqDecision exn.
Proof. solve_decision. Defined.

#[global] Instance result_eq_dec {A} `{EqDecision A} : EqDecision (result A).
Proof. solve_decision. Defined.

(** The activity frame that the docstring of [compute_trips_activity]
    describes for the sample feed on Tuesday 7 and Wednesday 8 January: the
    trips t1 and t2 are active on both dates, the trip t3 on none. *)
Definition tie_activity : ActivityFrame :=
  {| act_columns := ["trip_id"; "20200107"; "20200108"];
     act_trip_id := ["t1"; "t2"; "t3"];
     act_dates := [("20200107", [1; 1; 0]); ("20200108", [1; 1; 0])] |}.

(** The frame of [compute_trips_activity] for no date at all. *)
Definition no_activity : ActivityFrame :=
  {| act_columns := ["trip_id"]; act_trip_id := []; act_dates := [] |}.

(** The frame of [compute_stops_activity] for no date at all. *)
Definition no_stops_activity : StopsActivityFrame :=
  {| sact_columns := ["stop_id"]; sact_stop_id := []; sact_dates := [] |}.

(** A maximal run of the greatest count: the counts at the indices [i] to
    [j] are the greatest count, and the run can be extended on no side. *)
Definition is_max_run (counts : list Z) (i j : nat) : Prop :=
  exists m, list_max counts = Some m
    /\ (i <= j)%nat
    /\ (forall k, (i <= k <= j)%nat -> counts !! k = Some m)
    /\ (i = 0%nat \/ counts !! pred i <> Some m)
    /\ counts !! S j <> Some m.

(** The start and end times of the trips of a group. *)
Definition start_end_times (group : list (TripStats Z)) : list Z :=
  flat_map (fun r => [ts_start_time r; ts_end_time r]) group.

(** ** Example group: four trips of one route, two in each direction *)

Definition trip_stats_of {T} (id route : string) (d : option Z) (s e : T)
    (dist : np_float) : TripStats T :=
  {| ts_trip_id := id; ts_route_id := route; ts_route_short_name := route;
     ts_direction_id := d; ts_shape_id := None; ts_start_time := s;
     ts_end_time := e; ts_is_loop := 0; ts_distance := dist;
     ts_duration := fdiv (of_int 1) (of_int 2) |}.

Definition sample_group : list (TripStats Z) :=
  [ trip_stats_of "a" "r" (Some 0) 25200 27000 (of_int 5);
    trip_stats_of "b" "r" (Some 0) 26100 27900 (of_int 5);
    trip_stats_of "c" "r" (Some 1) 25500 27300 (of_int 5);
    trip_stats_of "d" "r" (Some 1) 68400 70200 (of_int 5) ].

(** Headway statistics that are all undefined. *)
Definition nan_headway : HeadwayStats :=
  {| max_headway := NaN; min_headway := NaN; mean_headway := NaN |}.

(** Headway statistics that all equal the gap between two times, in
    minutes. *)
Definition single_headway (t1 t2 : Z) : HeadwayStats :=
  let minutes := Fin (Qc_of_Z (t2 - t1) / Qc_of_Z 60)%Qc in
  {| max_headway := minutes; min_headway := minutes;
     mean_headway := minutes |}.

(** The times of a list that lie in the headway window, ends included. *)
Definition qualifying (headway_start headway_end : Z) (times : list Z)
  : list Z :=
  filter (fun t => headway_start <= t <= headway_end) times.

(** The trips of a group that run in a direction. *)
Definition direction_group (group : list (TripStats Z)) (d : Z)
  : list (TripStats Z) :=
  filter (fun r => ts_direction_id r = Some d) group.

(** Two trips of one route that start in the default window, 15 minutes
    apart, one in each direction. *)
Definition opposite_pair : list (TripStats Z) :=
  [ trip_stats_of "a" "r" (Some 0) 25200 27000 (of_int 5);
    trip_stats_of "b" "r" (Some 1) 26100 27900 (of_int 5) ].

(** Six trips of one route: two in direction 0, 10 minutes apart, and four
    in direction 1, 20 minutes apart. *)
Definition uneven_group : list (TripStats Z) :=
  [ trip_stats_of "a" "r" (Some 0) 25200 26000 (of_int 5);
    trip_stats_of "b" "r" (Some 0) 25800 27000 (of_int 5);
    trip_stats_of "c" "r" (Some 1) 25200 26000 (of_int 5);
    trip_stats_of "d" "r" (Some 1) 26400 28000 (of_int 5);
    trip_stats_of "e" "r" (Some 1) 27600 29000 (of_int 5);
    trip_stats_of "f" "r" (Some 1) 28800 30000 (of_int 5) ].

Definition stop_visit_of (stop route : string) (d : Z) (dep : option Z)
  : StopVisit :=
  {| sv_stop_id := stop; sv_route_id := route; sv_direction_id := Some d;
     sv_departure_time := dep |}.

(** Three visits of one stop: at 07:00:00, at 07:15:00 and at 06:00:00,
    the last one before the window. *)
Definition sample_visits : list StopVisit :=
  [ stop_visit_of "s" "r" 0 (Some 25200); stop_visit_of "s" "r" 0 (Some 26100);
    stop_visit_of "s" "r" 1 (Some 21600) ].

(** The greater of two floats ([np.max] of the two). *)
Definition fmax (x y : np_float) : np_float :=
  match x, y with
  | NaN, _ | _, NaN => NaN
  | Fin a, Fin b => Fin (if bool_decide (a <= b)%Qc then b else a)
  | Inf false, _ | _, Inf false => Inf false
  | Inf true, z | z, Inf true => z
  end.

(** The mean of two values with integer weights. *)
Definition weighted_mean (w0 w1 : Z) (x0 x1 : np_float) : np_float :=
  match x0, x1 with
  | Fin a, Fin b =>
      fdiv (Fin (Qc_of_Z w0 * a + Qc_of_Z w1 * b)%Qc) (of_int (w0 + w1))
  | _, _ => NaN
  end.

(** Number of the headways of a direction. *)
Definition num_headways (headway_start headway_end : Z)
    (group : list (TripStats Z)) (direction : Z) : Z :=
  Z.of_nat (length (direction_headways headway_start headway_end group
                      direction)).

(** An empty frame with the given columns. *)
Definition empty_frame {R} (cols : list string) : Frame R :=
  {| columns := cols; rows := [] |}.

(** Two lists of column names name the same columns. *)
Definition same_columns (l1 l2 : list string) : Prop :=
  forall c, c ∈ l1 <-> c ∈ l2.

(** The value of an indicator for a route in a bin. *)
Definition cell (series : gmap string (gmap string (list np_float)))
    (ind route : string) (bin : nat) : option np_float :=
  by_route ← series !! ind;
  values ← (by_route : gmap string (list np_float)) !! route;
  (values : list np_float) !! bin.

(** A bin lies in the range filled for a trip that starts in bin [start]
    and ends in bin [end_]: from [start] up to but without [end_], around
    midnight when [end_] comes before [start]. *)
Definition in_fill (start end_ bin : nat) : Prop :=
  if bool_decide (start <= end_)%nat then (start <= bin < end_)%nat
  else (start <= bin < num_bins)%nat \/ (bin < end_)%nat.

(** Number of the bins of that range. *)
Definition fill_size (start end_ : nat) : nat :=
  if bool_decide (start <= end_)%nat then (end_ - start)%nat
  else (num_bins - start + end_)%nat.

#[global] Instance in_fill_dec start end_ bin : Decision (in_fill start end_ bin).
Proof. unfold in_fill. case_bool_decide; apply _. Defined.

(** A cell after [w] was added to it where [P] holds. *)
Definition add_where (P : Prop) `{!Decision P} (w : np_float)
    (x : option np_float) : option np_float :=
  if decide P then (fun v => fadd v w) <$> x else x.

Definition sample_trip_stats : TripStats Z :=
  trip_stats_of "a" "r" (Some 0) 86100 86700 (of_int 5).

(** A route series or a feed series, by the names of its column levels. *)
Definition route_or_feed (time_series : TimeSeries) : Prop :=
  "route_id" ∈ ts_names time_series \/ "stop_id" ∉ ts_names time_series.

Definition route_key (ind route : string) : ColKey :=
  {| indicator := ind; entity := Some route; direction := None |}.

(** The samples of a window: sample [i] of a series is taken at minute
    [i * native], and window [j] runs from minute [j * freq] up to, without,
    minute [(j + 1) * freq]. *)
Definition samples_in (native freq : Z) (values : list np_float) (j : Z)
  : list np_float :=
  snd <$> filter (fun p : Z * np_float =>
                    j * freq <= p.1 * native < (j + 1) * freq)
            (enumerate 0 values).

(** [coarse] is [fine] resampled with [how]: it holds one value for every
    window that starts no later than the last sample of [fine], and the
    value of a window is [how] of its samples. *)
Definition resampled (native freq : Z) (how : list np_float -> np_float)
    (fine coarse : list np_float) : Prop :=
  (forall j : nat,
     (j < length coarse)%nat
     <-> Z.of_nat j * freq <= (Z.of_nat (length fine) - 1) * native)
  /\ (forall (j : nat) v,
        coarse !! j = Some v ->
        v = how (samples_in native freq fine (Z.of_nat j))).

(** A route series of six minutes for one route. *)
Definition sample_series : TimeSeries :=
  {| ts_names := ["indicator"; "route_id"];
     ts_freq := Some 1;
     ts_columns :=
       [ (route_key "num_trip_starts" "r", of_int <$> [1; 0; 0; 1; 0; 0]);
         (route_key "num_trips" "r", of_int <$> [1; 1; 1; 2; 2; 1]);
         (route_key "service_duration" "r",
          (fun n => fdiv (of_int n) (of_int 60)) <$> [1; 1; 1; 2; 2; 1]);
         (route_key "service_distance" "r", of_int <$> [3; 3; 3; 5; 5; 2]) ] |}.


(** * Further definitions

    What the further properties speak of, and the remaining functions of
    the module that they cover. *)

(** ** Dates as numbers *)

(** The number written by a string of digits. *)
Fixpoint digits_number (s : string) : Z :=
  match s with
  | EmptyString => 0
  | String c s' =>
      digit_val c * 10 ^ Z.of_nat (String.length s') + digits_number s'
  end.

Fixpoint all_digits (s : string) : bool :=
  match s with
  | EmptyString => true
  | String c s' => is_digit c && all_digits s'
  end.

(** Chronological order of dates. *)
Definition date_le (a b : date) : Prop :=
  year a < year b
  \/ (year a = year b
      /\ (month a < month b \/ (month a = month b /\ day a <= day b))).

(** ** Headway statistics *)

(** Headway statistics that are undefined, or else finite and in order:
    zero, minimum, mean, maximum. *)
Definition headways_ordered (h : HeadwayStats) : Prop :=
  h = nan_headway
  \/ exists mn mean mx : Qc,
       h = {| max_headway := Fin mx; min_headway := Fin mn;
              mean_headway := Fin mean |}
       /\ (0 <= mn)%Qc /\ (mn <= mean)%Qc /\ (mean <= mx)%Qc.

(** The series of a group with its [is_bidirectional] entry set. *)
Definition with_bidirectional (b : option Z) (d : RouteGroupStats)
  : RouteGroupStats :=
  {| d_route_short_name := d_route_short_name d;
     d_num_trips := d_num_trips d;
     d_is_loop := d_is_loop d;
     d_is_bidirectional := b;
     d_start_time := d_start_time d;
     d_end_time := d_end_time d;
     d_headway := d_headway d;
     d_peak_num_trips := d_peak_num_trips d;
     d_peak_start_time := d_peak_start_time d;
     d_peak_end_time := d_peak_end_time d;
     d_service_distance := d_service_distance d;
     d_service_duration := d_service_duration d |}.

(** Three trips of one route, 10 and 20 minutes apart, of which none has a
    direction. *)
Definition undirected_group : list (TripStats Z) :=
  [ trip_stats_of "a" "r" None 25200 27000 (of_int 5);
    trip_stats_of "b" "r" None 25800 27900 (of_int 5);
    trip_stats_of "c" "r" None 27000 28000 (of_int 5) ].

(** ** Example trip statistics: two trips of route r1, one in each
    direction, and a trip of route r2 without a direction *)

Definition sample_trips_stats : list (TripStats string) :=
  [ trip_stats_of "t1" "r1" (Some 0) "07:00:00" "08:00:00" (of_int 5);
    trip_stats_of "t2" "r1" (Some 1) "07:30:00" "08:30:00" (of_int 5);
    trip_stats_of "t4" "r2" None "09:00:00" "09:30:00" (of_int 5) ].

(** ** Totals of the binned series *)

(** The list of the values of an indicator for a route in the dictionary
    of series; empty when the dictionary has no such entry. *)
Definition series_values (series : gmap string (gmap string (list np_float)))
    (ind route : string) : list np_float :=
  default []
    (by_route ← series !! ind;
     (by_route : gmap string (list np_float)) !! route).

Definition is_fin (x : np_float) : Prop := exists q, x = Fin q.

(** A value that is a whole number: a count. *)
Definition is_whole (x : np_float) : Prop := exists n : Z, x = of_int n.

Definition fin_value (x : np_float) : Qc :=
  match x with
  | Fin q => q
  | _ => 0%Qc
  end.

Definition qsum (l : list Qc) : Qc := foldr Qcplus 0%Qc l.

(** A trip that the binning loop does not skip: its start and end bins
    differ. *)
Definition binned (row : TripStats Z) : Prop :=
  bin_of (ts_start_time row) <> bin_of (ts_end_time row).

#[global] Instance binned_dec row : Decision (binned row).
Proof. unfold binned. apply _. Defined.

(** The trips of a route that are binned. *)
Definition binned_trips (tss : list (TripStats Z)) (route : string)
  : list (TripStats Z) :=
  filter (fun r => ts_route_id r = route /\ binned r) tss.

(** Number of the bins, that is minutes, filled for a trip. *)
Definition minutes_filled (row : TripStats Z) : Z :=
  Z.of_nat (fill_size (bin_of (ts_start_time row)) (bin_of (ts_end_time row))).

(** What a binned trip adds to the day's total of an indicator. *)
Definition contribution (ind : string) (row : TripStats Z) : Qc :=
  if bool_decide (ind = "num_trip_starts") then 1%Qc
  else if bool_decide (ind = "num_trips") then Qc_of_Z (minutes_filled row)
  else if bool_decide (ind = "service_duration")
       then (Qc_of_Z (minutes_filled row) / Qc_of_Z 60)%Qc
  else fin_value (ts_distance row).

(** ** Paths of archives

    [write_gtfs] and [read_gtfs] compute the name of the archive, and of
    the directory it is extracted to, with [str.rstrip].  Only these names
    are modelled here, not the files. *)

Definition in_chars (c : ascii) (chars : string) : bool :=
  existsb (fun x => bool_decide (x = c)) (list_ascii_of_string chars).

(** [s.rstrip(chars)]: [s] without its trailing characters that occur in
    [chars]. *)
Fixpoint rstrip (chars : string) (s : string) : string :=
  match s with
  | EmptyString => EmptyString
  | String c s' =>
      match rstrip chars s' with
      | EmptyString =>
          if in_chars c chars then EmptyString else String c EmptyString
      | r => String c r
      end
  end.

(** The archive that [write_gtfs] writes: [shutil.make_archive] appends the
    extension of the format to [path.rstrip('.zip')]. *)
Definition write_gtfs_archive (path : string) : string :=
  rstrip ".zip" path +:+ ".zip".

(** The directory to which [read_gtfs] extracts a zip archive. *)
Definition read_gtfs_extract_dir (path : string) : string :=
  rstrip ".zip" path +:+ "/".

(** All characters of [s] occur in [chars]. *)
Fixpoint all_in_chars (chars : string) (s : string) : bool :=
  match s with
  | EmptyString => true
  | String c s' => in_chars c chars && all_in_chars chars s'
  end.

(** The last character of [s] occurs in [chars]. *)
Fixpoint ends_in_chars (chars : string) (s : string) : bool :=
  match s with
  | EmptyString => false
  | String c EmptyString => in_chars c chars
  | String _ s' => ends_in_chars chars s'
  end.

(** ** Calls

    How a call binds its arguments to a function whose parameters are
    [params], of which the first [required] have no default: [npos]
    arguments are given by position and [keywords] by name.  A call that
    cannot be bound raises [TypeError] before the body runs. *)
Definition bind_arguments (params : list string) (required npos : nat)
    (keywords : list string) : result unit :=
  if bool_decide
       ((npos <= length params)%nat
        /\ Forall (fun k => k ∈ drop npos params) keywords
        /\ NoDup keywords
        /\ Forall (fun p => p ∈ take npos params \/ p ∈ keywords)
             (take required params))
  then Ok tt else Raise TypeError.

Definition compute_stops_time_series_params : list string :=
  ["feed"; "date"; "split_directions"; "freq"].

(** [compute_stops_time_series] calls itself, not
    [compute_stops_time_series_base]: with the stop times frame and the
    trips of the date by position, and with the keywords [split_directions],
    [freq] and [date_label].  Were the call bound, the body would run with
    a data frame as [feed] and fail on [feed.stop_times]. *)
Definition compute_stops_time_series (feed : Feed) (date : string)
    (split_directions : bool) (freq : Z) : result TimeSeries :=
  _ ← method_call "get_trips" (get_trips feed (Some date) None);
  _ ← bind_arguments compute_stops_time_series_params 2 2
        ["split_directions"; "freq"; "date_label"];
  Raise AttributeError.

(** ** Functions about calendars

    A [datetime.date] object is modelled by its proleptic Gregorian
    ordinal, through which the standard library defines the arithmetic of
    dates: adding days adds to the ordinal, the days between two dates are
    the difference of their ordinals, and the weekday is [(ordinal + 6) mod
    7], Monday being 0.  The two functions are modelled with
    [as_date_obj=True]. *)

Definition date_weekday (d : Z) : Z := (d + 6) mod 7.

(** The date object of a cell of a column of date strings; a missing value
    is no string to parse. *)
Definition date_of_cell (x : pyval) : result Z :=
  match x with
  | PyStr s => d ← datestr_to_date s; Ok (toordinal d)
  | _ => Raise TypeError
  end.

Definition get_dates (feed : Feed) : result (list Z) :=
  bounds ←
    match calendar feed with
    | Some cal =>
        start_date ← series_min_str ((fun r => Some (start_date r)) <$> cal);
        end_date ← series_max_str ((fun r => Some (end_date r)) <$> cal);
        Ok (start_date, end_date)
    | None =>
        cd ← require (calendar_dates feed) TypeError;
        start_date ← series_min_str ((fun r => Some (cd_date r)) <$> cd);
        end_date ← series_max_str ((fun r => Some (cd_date r)) <$> cd);
        Ok (start_date, end_date)
    end;
  start_date ← date_of_cell bounds.1;
  end_date ← date_of_cell bounds.2;
  let num_days := end_date - start_date in
  Ok ((fun d => start_date + d) <$> seqZ 0 (num_days + 1)).

(** The loop of [get_first_week] over [range(7)]: it stops at the first
    error, which is the [TypeError] of [None + j] when there is no Monday
    and the [IndexError] of an index past the end of the dates. *)
Fixpoint week_loop (dates : list Z) (monday_index : option nat)
    (js : list nat) : list Z :=
  match js with
  | [] => []
  | j :: js' =>
      match monday_index with
      | None => []
      | Some i =>
          match dates !! (i + j)%nat with
          | Some date => date :: week_loop dates monday_index js'
          | None => []
          end
      end
  end.

Definition get_first_week (feed : Feed) : result (list Z) :=
  dates ← get_dates feed;
  let monday_index :=
    fst <$> list_find (fun date => date_weekday date = 0) dates in
  Ok (week_loop dates monday_index (seq 0 7)).

(** ** Statistics of a date *)

(** A row of the trip stats and a trip agree on the columns that the two
    frames share. *)
Definition same_trip {T} (r : TripStats T) (t : Trip) : Prop :=
  trip_id t = ts_trip_id r /\ route_id t = ts_route_id r
  /\ direction_id t = ts_direction_id r /\ shape_id t = ts_shape_id r.

#[global] Instance same_trip_dec {T} (r : TripStats T) (t : Trip) :
  Decision (same_trip r t).
Proof. unfold same_trip. apply _. Defined.

(** [trips_stats.merge(feed.get_trips(date))]: the join on the shared
    columns, in the order of the rows of the trip stats. *)
Definition merge_stats_trips {T} (trips_stats : list (TripStats T))
    (trips : list Trip) : list (TripStats T) :=
  flat_map (fun r => (fun _ => r) <$> filter (same_trip r) trips) trips_stats.

Definition compute_routes_stats (feed : Feed)
    (trips_stats : list (TripStats string)) (date : string)
    (split_directions : bool) (headway_start_time headway_end_time : string)
  : result (Frame RouteStats) :=
  trips ← method_call "get_trips" (get_trips feed (Some date) None);
  let trips_stats_subset := merge_stats_trips trips_stats trips in
  compute_routes_stats_base trips_stats_subset split_directions
    headway_start_time headway_end_time.

Definition compute_routes_time_series (feed : Feed)
    (trips_stats : list (TripStats string)) (date : string)
    (split_directions : bool) (freq : Z) : result TimeSeries :=
  trips ← method_call "get_trips" (get_trips feed (Some date) None);
  let trips_stats_subset := merge_stats_trips trips_stats trips in
  compute_routes_time_series_base trips_stats_subset split_directions freq.

(** [compute_stops_stats]: the base function looks at the stop times only
    when the subset of trips is not empty. *)
Definition compute_stops_stats (feed : Feed) (date : string)
    (split_directions : bool) (headway_start_time headway_end_time : string)
  : result (Frame StopStats) :=
  trips ← method_call "get_trips" (get_trips feed (Some date) None);
  match stop_times feed, trips with
  | Some st, _ =>
      compute_stops_stats_base st trips split_directions headway_start_time
        headway_end_time
  | None, [] =>
      compute_stops_stats_base [] [] split_directions headway_start_time
        headway_end_time
  | None, _ :: _ => Raise AttributeError
  end.
(** * Properties *)

(** ** Service activity *)

Lemma find_head_filter {A} (p : A -> bool) (l : list A) :
  List.find p l = head (List.filter p l).
Proof.
  induction l as [|x l IH]; simpl; [reflexivity|].
  destruct (p x); simpl; auto.
Qed.

Lemma in_index_find {A} (key : A -> string) (k : string) (frame : list A) :
  in_index key k frame
  = bool_decide (is_Some (List.find (fun r => bool_decide (key r = k)) frame)).
Proof.
  unfold in_index. induction frame as [|x l IH]; simpl; [reflexivity|].
  destruct (bool_decide (key x = k)); simpl; [reflexivity|exact IH].
Qed.

Lemma weekday_range (d : date) : 0 <= weekday d < 7.
Proof. unfold weekday. apply Z.mod_pos_bound. lia. Qed.

Lemma calendar_at_weekday (row : CalendarRow) (w : Z) :
  0 <= w < 7 ->
  calendar_at row (weekday_to_str w) = Ok (weekday_flag row w).
Proof.
  intros Hw.
  assert (w = 0 \/ w = 1 \/ w = 2 \/ w = 3 \/ w = 4 \/ w = 5 \/ w = 6)
    as Hcases by lia.
  repeat (destruct Hcases as [->|Hcases]; [reflexivity|]).
  subst w. reflexivity.
Qed.

(** The calendar check agrees with the calendar entry of the service. *)
Lemma check_calendar_entry (feed : Feed) (service date : string) :
  check_calendar feed service date =
  match calendar_entry feed service with
  | Some row =>
      d ← datestr_to_date date;
      Ok (date_in_range row date
          && bool_decide (weekday_flag row (weekday d) = 1))
  | None => Ok false
  end.
Proof.
  unfold check_calendar, calendar_entry, calendar_i.
  destruct (calendar feed) as [[|r rows]|]; try reflexivity.
  change (index_of (Some (r :: rows))) with (Some (r :: rows)).
  remember (r :: rows) as cali eqn:Hc. clear Hc r rows. simpl.
  rewrite in_index_find. unfold at_key.
  destruct (List.find _ cali) as [row|]; simpl; [|reflexivity].
  destruct (datestr_to_date date) as [d|e]; simpl; [|reflexivity].
  unfold date_in_range.
  destruct (String.leb (start_date row) date && String.leb date (end_date row));
    simpl; [|reflexivity].
  rewrite calendar_at_weekday by apply weekday_range. simpl.
  f_equal. destruct (Z.eqb_spec (weekday_flag row (weekday d)) 1).
  - rewrite bool_decide_eq_true_2; auto.
  - rewrite bool_decide_eq_false_2; auto.
Qed.

(** The exception check finds the exception row of the service and date. *)
Lemma is_active_trip_exception (feed : Feed) (trip date service : string) :
  service_of feed trip = Ok service ->
  is_active_trip feed trip date =
  match exception_for feed service date with
  | Some r => Ok (bool_decide (exception_type r = 1))
  | None => check_calendar feed service date
  end.
Proof.
  intros Hs. unfold is_active_trip. rewrite Hs. simpl.
  unfold exception_for, calendar_dates_g.
  destruct (calendar_dates feed) as [[|r rows]|]; try reflexivity.
  change (index_of (Some (r :: rows))) with (Some (r :: rows)).
  remember (r :: rows) as caldg eqn:Hc. clear Hc r rows. simpl.
  unfold in_groups, get_group. simpl fst. simpl snd.
  rewrite find_head_filter.
  destruct (List.filter _ caldg) as [|r0 grp]; simpl; [reflexivity|].
  destruct (Z.eqb_spec (exception_type r0) 1).
  - rewrite bool_decide_eq_true_2; auto.
  - rewrite bool_decide_eq_false_2; auto.
Qed.

(** C1: the service-activity decision follows the strict priority order.
    An exception row for (service, date) decides alone: true when its type
    is 1 (added), false when it is 2 (removed), whatever the weekly pattern
    and the date range.  Otherwise a calendar entry decides: true exactly
    when the date lies between its start and end dates and the flag of the
    date's weekday is set.  Otherwise the result is false. *)
Theorem is_active_trip_priority (feed : Feed) (trip date service : string) :
  service_of feed trip = Ok service ->
  (forall r, exception_for feed service date = Some r ->
     is_active_trip feed trip date = Ok (bool_decide (exception_type r = 1))
     /\ (exception_type r = 1 -> is_active_trip feed trip date = Ok true)
     /\ (exception_type r = 2 -> is_active_trip feed trip date = Ok false))
  /\ (exception_for feed service date = None ->
      forall row d,
        calendar_entry feed service = Some row ->
        datestr_to_date date = Ok d ->
        is_active_trip feed trip date
        = Ok (date_in_range row date
              && bool_decide (weekday_flag row (weekday d) = 1)))
  /\ (exception_for feed service date = None ->
      calendar_entry feed service = None ->
      is_active_trip feed trip date = Ok false).
Proof.
  intros Hs. pose proof (is_active_trip_exception feed trip date service Hs) as H.
  split; [|split].
  - intros r Hr. rewrite Hr in H. split; [exact H|]. split; intros Het.
    + rewrite H. rewrite bool_decide_eq_true_2; auto.
    + rewrite H. rewrite bool_decide_eq_false_2; auto. lia.
  - intros Hnone row d Hrow Hd. rewrite Hnone in H. rewrite H.
    rewrite check_calendar_entry, Hrow, Hd. reflexivity.
  - intros Hnone Hcal. rewrite Hnone in H. rewrite H.
    rewrite check_calendar_entry, Hcal. reflexivity.
Qed.

(** The scenario of the sample feed: added on Saturday 4 January, removed
    on Monday 6 January, running on Tuesday 7 January. *)
Lemma is_active_trip_priority_witness :
  service_of sample_feed "t1" = Ok "wk"
  /\ is_active_trip sample_feed "t1" "20200104" = Ok true
  /\ is_active_trip sample_feed "t1" "20200106" = Ok false
  /\ is_active_trip sample_feed "t1" "20200107" = Ok true
  /\ is_active_trip sample_feed "t3" "20200107" = Ok false.
Proof.
  split; [reflexivity|].
  split; [|split; [|split]].
  - apply (is_active_trip_priority sample_feed "t1" "20200104" "wk" eq_refl)
      with (r := {| cd_service_id := "wk"; cd_date := "20200104";
                    exception_type := 1 |}); reflexivity.
  - apply (is_active_trip_priority sample_feed "t1" "20200106" "wk" eq_refl)
      with (r := {| cd_service_id := "wk"; cd_date := "20200106";
                    exception_type := 2 |}); reflexivity.
  - apply (proj1 (proj2
      (is_active_trip_priority sample_feed "t1" "20200107" "wk" eq_refl))
      eq_refl weekdays_cal {| year := 2020; month := 1; day := 7 |});
      reflexivity.
  - apply (proj2 (proj2
      (is_active_trip_priority sample_feed "t3" "20200107" "sat" eq_refl)));
      reflexivity.
Defined.

(** ** The result monad *)

Lemma mapM_Ok_inv {A B} (f : A -> result B) (l : list A) (k : list B) :
  mapM f l = Ok k -> Forall2 (fun x y => f x = Ok y) l k.
Proof.
  revert k. induction l as [|x l IH]; intros k H; simpl in H.
  - inversion H. constructor.
  - destruct (f x) as [y|e] eqn:Hx; simpl in H; [|discriminate].
    destruct (mapM f l) as [k'|e] eqn:Hl; simpl in H; [|discriminate].
    inversion H; subst. constructor; auto.
Qed.

Lemma Forall2_elem_of_r {A B} (R : A -> B -> Prop) (l : list A) (k : list B)
    (y : B) :
  Forall2 R l k -> y ∈ k -> exists x, x ∈ l /\ R x y.
Proof.
  induction 1 as [|x y' l k Hxy HF IH]; intros Hy.
  - inversion Hy.
  - apply elem_of_cons in Hy as [->|Hy].
    + exists x. split; [left|exact Hxy].
    + destruct (IH Hy) as (x' & Hx' & HR). exists x'. split; [right|]; auto.
Qed.

(** ** Trips at a date and time *)

(** C10 fails on the code.  On the sample feed trip t2 runs on Tuesday 7
    January and has no departure time at all, yet the call with a date and
    a time raises: the activity of a trip is asked of the feed as a method,
    which no feed has, and so it is for every feed with a trip.  The
    function applied to a group of departures does catch the failed
    comparison of a group without any time, but the first and last
    departure are taken before the [try], where a group that misses only
    some of its times raises. *)
Lemma get_trips_comparison_failure :
  get_trips sample_feed (Some "20200107") (Some (PyStr "07:30:00"))
  = Raise AttributeError
  /\ (forall r s t l st c cd date time,
        get_trips {| routes := r; stops := s; trips := Some (t :: l);
                     stop_times := st; calendar := c;
                     calendar_dates := cd |} (Some date) time
        = Raise AttributeError)
  /\ get_trips_F (PyStr "07:30:00") [("t2", None); ("t2", None)] = Ok false
  /\ get_trips_F (PyStr "07:30:00") [("t1", Some "07:00:00"); ("t1", None)]
     = Raise TypeError.
Proof. repeat split. Qed.

(** ** Activity over a list of dates *)

(** C9, as amended: for the two activity matrices, of the trips and of the
    stops, an empty list of dates, or no list at all, gives the empty frame
    whose only column is trip_id, respectively stop_id, for every feed,
    and raises nothing. *)
Theorem activity_no_dates (feed : Feed) :
  compute_trips_activity feed None = Ok no_activity
  /\ compute_trips_activity feed (Some []) = Ok no_activity
  /\ act_columns no_activity = ["trip_id"]
  /\ act_trip_id no_activity = []
  /\ compute_stops_activity feed None = Ok no_stops_activity
  /\ compute_stops_activity feed (Some []) = Ok no_stops_activity
  /\ sact_columns no_stops_activity = ["stop_id"]
  /\ sact_stop_id no_stops_activity = [].
Proof. repeat split. Qed.

(** C9 fails for the busiest-date query: without dates it raises. *)
Lemma get_busiest_date_no_dates_raises :
  get_busiest_date sample_feed (Some []) = Raise ValueError
  /\ get_busiest_date sample_feed None = Raise TypeError.
Proof. split; reflexivity. Qed.

(** C3 fails on the code.  On Tuesday 7 and Wednesday 8 January the same
    two trips of the sample feed run.  The query raises, because the
    activity frame asks the feed for a method it does not have; and on the
    frame of these activities, the one its docstring describes, the last
    two lines return the later date although both dates count two trips and
    the earlier one comes first in the list. *)
Lemma get_busiest_date_tie :
  get_busiest_date sample_feed (Some ["20200107"; "20200108"])
  = Raise AttributeError
  /\ mapM (fun date =>
             col ← mapM (fun t =>
                           b ← is_active_trip sample_feed (trip_id t) date;
                           Ok (Z.b2z b))
                     (default [] (trips sample_feed));
             Ok (date, col)) ["20200107"; "20200108"]
     = Ok (act_dates tie_activity)
  /\ column_sum tie_activity "20200107" = Ok (OneSum 2)
  /\ column_sum tie_activity "20200108" = Ok (OneSum 2)
  /\ busiest_of tie_activity ["20200107"; "20200108"] = Ok "20200108".
Proof. repeat split. Qed.

(** ** Sorting *)

Lemma sorted_Permutation (l : list Z) : sorted l ≡ₚ l.
Proof. apply merge_sort_Permutation. Qed.

Lemma sorted_StronglySorted (l : list Z) : StronglySorted Z.le (sorted l).
Proof. apply StronglySorted_merge_sort; apply _. Qed.

Lemma elem_of_sorted (l : list Z) (x : Z) : x ∈ sorted l <-> x ∈ l.
Proof. rewrite sorted_Permutation. reflexivity. Qed.

Lemma StronglySorted_le_lt (l : list Z) :
  StronglySorted Z.le l -> NoDup l -> StronglySorted Z.lt l.
Proof.
  induction 1 as [|x l HS IH HF]; intros Hnd; [constructor|].
  apply NoDup_cons in Hnd as [Hx Hnd]. constructor; [auto|].
  rewrite Forall_forall in HF |- *. intros y Hy.
  assert (x <> y) by (intros ->; apply Hx, Hy).
  specialize (HF y Hy). lia.
Qed.

(** [np.unique] gives the distinct values in increasing order. *)
Lemma np_unique_spec (l : list Z) :
  StronglySorted Z.lt (np_unique l) /\ forall x, x ∈ np_unique l <-> x ∈ l.
Proof.
  unfold np_unique. split.
  - apply StronglySorted_le_lt; [apply sorted_StronglySorted|].
    rewrite sorted_Permutation. apply NoDup_remove_dups.
  - intros x. rewrite elem_of_sorted. apply elem_of_remove_dups.
Qed.

(** ** Greatest item and runs *)

Lemma fold_left_max_spec (l : list Z) (x : Z) :
  let m := fold_left Z.max l x in
  (m = x \/ m ∈ l) /\ x <= m /\ forall y, y ∈ l -> y <= m.
Proof.
  revert x. induction l as [|a l IH]; intros x; simpl.
  - split; [auto|]. split; [lia|]. intros y Hy. inversion Hy.
  - destruct (IH (Z.max x a)) as (Hin & Hle & Hall).
    split; [|split].
    + destruct Hin as [Hm|Hm]; [|right; right; exact Hm].
      destruct (Z.max_spec x a) as [[_ Hx]|[_ Hx]]; rewrite Hx in Hm |- *.
      * right. rewrite Hm. left.
      * left. exact Hm.
    + lia.
    + intros y Hy. apply elem_of_cons in Hy as [->|Hy]; [lia|auto].
Qed.

Lemma list_max_spec (l : list Z) (m : Z) :
  list_max l = Some m -> m ∈ l /\ forall y, y ∈ l -> y <= m.
Proof.
  destruct l as [|x l]; simpl; [discriminate|]. intros [= <-].
  destruct (fold_left_max_spec l x) as (Hin & Hle & Hall). split.
  - destruct Hin as [->|Hin]; [left|right; exact Hin].
  - intros y Hy. apply elem_of_cons in Hy as [->|Hy]; auto.
Qed.

Lemma list_max_is_Some (l : list Z) : l <> [] -> is_Some (list_max l).
Proof. destruct l; [congruence|]. simpl. eauto. Qed.

Lemma run_len_spec (m : Z) (l : list Z) :
  (forall k, (k < run_len m l)%nat -> l !! k = Some m)
  /\ l !! run_len m l <> Some m.
Proof.
  induction l as [|c l [IH1 IH2]]; simpl.
  - split; [lia|]. discriminate.
  - case_bool_decide as Hc; simpl.
    + split; [|exact IH2]. intros [|k] Hk; simpl; [congruence|].
      apply IH1. lia.
    + split; [lia|]. simpl. congruence.
Qed.

Lemma run_len_unique (m : Z) (l : list Z) (n : nat) :
  (forall k, (k < n)%nat -> l !! k = Some m) ->
  l !! n <> Some m ->
  n = run_len m l.
Proof.
  intros H1 H2. destruct (run_len_spec m l) as [R1 R2].
  destruct (Nat.lt_trichotomy n (run_len m l)) as [Hlt|[Heq|Hgt]]; [|auto|].
  - exfalso. apply H2, R1, Hlt.
  - exfalso. apply R2, H1, Hgt.
Qed.

(** The runs listed by [max_runs] are the maximal runs of the greatest
    count, and all of them. *)
Lemma elem_of_max_runs (counts : list Z) (i j : nat) :
  (i, j) ∈ max_runs counts <-> is_max_run counts i j.
Proof.
  unfold max_runs, is_max_run.
  destruct (list_max counts) as [m|] eqn:Hm.
  - rewrite list_elem_of_fmap. split.
    + intros (i' & [= -> ->] & Hi).
      apply list_elem_of_filter in Hi as [[Hi Hstart] _].
      destruct (run_len_spec m (drop i' counts)) as [R1 R2].
      assert (0 < run_len m (drop i' counts))%nat as Hpos.
      { destruct (run_len m (drop i' counts)) eqn:Hn; [|lia].
        exfalso. apply R2. rewrite lookup_drop, Nat.add_0_r. exact Hi. }
      exists m. split; [reflexivity|]. split; [lia|]. split; [|split].
      * intros k Hk. replace k with (i' + (k - i'))%nat by lia.
        rewrite <- lookup_drop. apply R1. lia.
      * exact Hstart.
      * rewrite lookup_drop in R2.
        replace (S (pred (i' + run_len m (drop i' counts))))
          with (i' + run_len m (drop i' counts))%nat by lia.
        exact R2.
    + intros (m' & [= <-] & Hij & Hrun & Hstart & Hend).
      exists i. split.
      * f_equal.
        assert (S j - i = run_len m (drop i counts))%nat as <-; [|lia].
        apply run_len_unique.
        -- intros k Hk. rewrite lookup_drop. apply Hrun. lia.
        -- rewrite lookup_drop. replace (i + (S j - i))%nat with (S j) by lia.
           exact Hend.
      * apply list_elem_of_filter. split.
        -- split; [apply Hrun; lia|exact Hstart].
        -- apply elem_of_seq. split; [lia|]. simpl.
           apply lookup_lt_is_Some. rewrite (Hrun i) by lia. eauto.
  - split; [intros H; inversion H|]. intros (m & Hm' & _). discriminate.
Qed.

Lemma max_runs_starts (counts : list Z) :
  StronglySorted lt (fst <$> max_runs counts).
Proof.
  unfold max_runs. destruct (list_max counts) as [m|]; [|constructor].
  assert (forall l : list nat,
    fst <$> ((fun i => (i, pred (i + run_len m (drop i counts)))%nat) <$> l)
    = l) as ->.
  { induction l as [|a l IHl]; [reflexivity|].
    rewrite !fmap_cons, IHl. reflexivity. }
  generalize 0%nat. generalize (length counts) as n.
  induction n as [|n IH]; intros s; simpl; [constructor|].
  rewrite filter_cons. case_decide.
  - constructor; [apply IH|]. apply Forall_forall. intros x Hx.
    apply list_elem_of_filter in Hx as [_ Hx]. apply elem_of_seq in Hx. lia.
  - apply IH.
Qed.

Lemma max_runs_nonempty (counts : list Z) :
  counts <> [] -> max_runs counts <> [].
Proof.
  intros Hne. destruct (list_max_is_Some counts Hne) as [m Hm].
  destruct (list_max_spec counts m Hm) as [Hin _].
  (* the first index at which the greatest count stands starts a run *)
  assert (exists i, counts !! i = Some m
                    /\ forall k, (k < i)%nat -> counts !! k <> Some m)
    as (i & Hi & Hfirst).
  { clear Hm Hne. induction counts as [|c counts IH]; [inversion Hin|].
    destruct (decide (c = m)) as [->|Hc].
    - exists 0%nat. split; [reflexivity|]. lia.
    - apply elem_of_cons in Hin as [Heq|Hin]; [congruence|].
      destruct (IH Hin) as (i & Hi & Hfirst). exists (S i). split; [exact Hi|].
      intros [|k] Hk; simpl; [congruence|]. apply Hfirst. lia. }
  unfold max_runs. rewrite Hm. intros Hnil.
  apply fmap_nil_inv in Hnil.
  assert (i ∈ filter (is_run_start m counts) (seq 0 (length counts))) as Hmem.
  { apply list_elem_of_filter. split.
    - split; [exact Hi|]. destruct i as [|i]; [left; reflexivity|right].
      apply Hfirst. simpl. lia.
    - apply elem_of_seq. split; [lia|]. simpl.
      apply lookup_lt_is_Some. eauto. }
  rewrite Hnil in Hmem. inversion Hmem.
Qed.

(** ** The first of the greatest *)

Lemma argmax_fold {A} (f : A -> Z) (l : list A) (b : A) :
  let r := fold_left (fun best y => if f best <? f y then y else best) l b in
  exists l1 l2,
    b :: l = l1 ++ r :: l2
    /\ (forall y, y ∈ l1 -> f y < f r)
    /\ (forall y, y ∈ l2 -> f y <= f r).
Proof.
  revert b. induction l as [|y l IH]; intros b; simpl.
  - exists [], []. split; [reflexivity|]. split; intros y Hy; inversion Hy.
  - destruct (Z.ltb_spec (f b) (f y)) as [Hlt|Hge].
    + destruct (IH y) as (l1 & l2 & Heq & H1 & H2).
      remember (fold_left _ l y) as r eqn:Hr. clear Hr.
      exists (b :: l1), l2. split; [simpl; rewrite <- Heq; reflexivity|].
      split; [|exact H2].
      intros z Hz. apply elem_of_cons in Hz as [->|Hz]; [|auto].
      destruct l1 as [|x l1]; simpl in Heq.
      * injection Heq as Hr _. rewrite <- Hr. exact Hlt.
      * injection Heq as Hx _. subst x.
        assert (f y < f r) by (apply H1; left). lia.
    + destruct (IH b) as (l1 & l2 & Heq & H1 & H2).
      remember (fold_left _ l b) as r eqn:Hr. clear Hr.
      destruct l1 as [|x l1]; simpl in Heq.
      * injection Heq as Hr Hl. exists [], (y :: l). subst r.
        split; [reflexivity|]. split; [intros z Hz; inversion Hz|].
        intros z Hz. apply elem_of_cons in Hz as [->|Hz]; [lia|].
        apply H2. rewrite <- Hl. exact Hz.
      * injection Heq as Hx Hl. subst x.
        exists (b :: y :: l1), l2. split; [simpl; rewrite Hl; reflexivity|].
        split; [|exact H2].
        assert (f b < f r) by (apply H1; left).
        intros z Hz. apply elem_of_cons in Hz as [->|Hz]; [assumption|].
        apply elem_of_cons in Hz as [->|Hz]; [lia|].
        apply H1. right. exact Hz.
Qed.

Lemma argmax_first_spec {A} (f : A -> Z) (l : list A) :
  l <> [] ->
  exists r l1 l2,
    argmax_first f l = Some r
    /\ l = l1 ++ r :: l2
    /\ (forall y, y ∈ l1 -> f y < f r)
    /\ (forall y, y ∈ l2 -> f y <= f r).
Proof.
  destruct l as [|b l]; [congruence|]. intros _. simpl.
  destruct (argmax_fold f l b) as (l1 & l2 & H). eauto.
Qed.

(** ** The peak window *)

(** The indices chosen for non-empty counts: a maximal run of the greatest
    count that spans at least as much time as every other one, and the
    first of those that span as much. *)
Lemma get_peak_indices_spec (times counts : list Z) :
  counts <> [] ->
  exists i j,
    get_peak_indices times counts = Ok (i, j)
    /\ is_max_run counts i j
    /\ forall i' j', is_max_run counts i' j' ->
         run_duration times (i', j') <= run_duration times (i, j)
         /\ (run_duration times (i', j') = run_duration times (i, j) ->
             (i <= i')%nat).
Proof.
  intros Hne.
  destruct (argmax_first_spec (run_duration times) (max_runs counts)
              (max_runs_nonempty counts Hne))
    as ([i j] & l1 & l2 & Harg & Hsplit & H1 & H2).
  exists i, j. unfold get_peak_indices. rewrite Harg. simpl.
  split; [reflexivity|].
  assert ((i, j) ∈ max_runs counts) as Hin
    by (rewrite Hsplit; apply elem_of_app; right; left).
  split; [apply elem_of_max_runs, Hin|].
  intros i' j' Hrun. apply elem_of_max_runs in Hrun.
  pose proof (max_runs_starts counts) as Hsorted.
  rewrite Hsplit in Hrun, Hsorted.
  apply elem_of_app in Hrun as [Hrun|Hrun].
  - specialize (H1 _ Hrun). split; lia.
  - apply elem_of_cons in Hrun as [[= -> ->]|Hrun]; [split; lia|].
    split; [apply H2, Hrun|]. intros _.
    rewrite fmap_app, fmap_cons in Hsorted.
    apply StronglySorted_app_1_r, StronglySorted_cons in Hsorted
      as [Hall _].
    rewrite Forall_forall in Hall.
    assert ((i < i')%nat); [|lia].
    apply (Hall i'). apply list_elem_of_fmap. exists (i', j'). auto.
Qed.

Lemma is_max_run_lookup (counts : list Z) (i j : nat) :
  is_max_run counts i j ->
  exists m, list_max counts = Some m
            /\ counts !! i = Some m /\ counts !! j = Some m.
Proof.
  intros (m & Hm & Hij & Hrun & _). exists m.
  split; [exact Hm|]. split; apply Hrun; lia.
Qed.

(** The peak of a non-empty group is found, and it is the window chosen
    by [get_peak_indices] with the count at its start. *)
Lemma peak_stats_spec (group : list (TripStats Z)) :
  group <> [] ->
  let times := np_unique (start_end_times group) in
  let counts := count_active_trips group <$> times in
  exists i j num t0 t1,
    get_peak_indices times counts = Ok (i, j)
    /\ peak_stats group = Ok (num, t0, t1)
    /\ counts !! i = Some num
    /\ times !! i = Some t0
    /\ times !! j = Some t1.
Proof.
  intros Hne times counts.
  assert (counts <> []) as Hc.
  { destruct group as [|r group]; [congruence|].
    assert (ts_start_time r ∈ times) as Hin.
    { apply np_unique_spec. unfold start_end_times. simpl. left. }
    intros Hnil. apply fmap_nil_inv in Hnil. rewrite Hnil in Hin.
    inversion Hin. }
  destruct (get_peak_indices_spec times counts Hc) as (i & j & Hg & Hrun & _).
  destruct (is_max_run_lookup counts i j Hrun) as (m & _ & Hi & Hj).
  assert (is_Some (times !! i)) as [t0 Ht0].
  { apply lookup_lt_is_Some. rewrite <- (length_fmap (count_active_trips group)).
    apply lookup_lt_is_Some. eauto. }
  assert (is_Some (times !! j)) as [t1 Ht1].
  { apply lookup_lt_is_Some. rewrite <- (length_fmap (count_active_trips group)).
    apply lookup_lt_is_Some. eauto. }
  exists i, j, m, t0, t1. split; [exact Hg|].
  split; [|auto].
  unfold peak_stats. fold (start_end_times group). fold times. fold counts.
  rewrite Hg. simpl. rewrite Hi. simpl. rewrite Ht0. simpl. rewrite Ht1.
  reflexivity.
Qed.

(** C6: peak detection on a non-empty group.  The sampled times are the
    distinct start and end times of the group in increasing order; the
    count at a sampled time t is the number of trips with start <= t <
    end; the peak count reported by [compute_route_stats] is the greatest
    of these counts; and the peak window runs from the first to the last
    time of a maximal run of the greatest count that spans at least as
    much time as every other such run, and that starts first among the
    runs that span as much.  In particular the counts 1, 2, 2, 1 at the
    times 0, 10, 20, 30 give the peak count 2 and the window from 10 to
    20. *)
Theorem peak_window (headway_start headway_end : Z)
    (group : list (TripStats Z)) :
  group <> [] ->
  let times := np_unique (start_end_times group) in
  let counts := count_active_trips group <$> times in
  (StronglySorted Z.lt times
   /\ forall t, t ∈ times <->
        exists r, r ∈ group /\ (t = ts_start_time r \/ t = ts_end_time r))
  /\ (forall k t, times !! k = Some t ->
        counts !! k
        = Some (Z.of_nat (length (filter
            (fun r => ts_start_time r <= t < ts_end_time r) group))))
  /\ (exists i j d t0 t1,
        get_peak_indices times counts = Ok (i, j)
        /\ compute_route_stats headway_start headway_end group = Ok d
        /\ times !! i = Some t0 /\ times !! j = Some t1
        /\ d_peak_start_time d = t0 /\ d_peak_end_time d = t1
        /\ list_max counts = Some (d_peak_num_trips d)
        /\ is_max_run counts i j
        /\ forall i' j', is_max_run counts i' j' ->
             run_duration times (i', j') <= run_duration times (i, j)
             /\ (run_duration times (i', j') = run_duration times (i, j) ->
                 (i <= i')%nat))
  /\ (get_peak_indices [0; 10; 20; 30] [1; 2; 2; 1] = Ok (1%nat, 2%nat)
      /\ list_max [1; 2; 2; 1] = Some 2
      /\ [0; 10; 20; 30] !! 1%nat = Some 10
      /\ [0; 10; 20; 30] !! 2%nat = Some 20).
Proof.
  intros Hne times counts. split; [|split; [|split]].
  - destruct (np_unique_spec (start_end_times group)) as [Hs Hm].
    split; [exact Hs|]. intros t. fold times in Hm. rewrite Hm.
    unfold start_end_times. rewrite list_elem_of_In, in_flat_map.
    split.
    + intros (r & Hr & Ht). exists r. rewrite list_elem_of_In.
      split; [exact Hr|]. simpl in Ht. destruct Ht as [ <- | [ <- | [] ] ]; auto.
    + intros (r & Hr & Ht). exists r. rewrite <- list_elem_of_In.
      split; [exact Hr|]. simpl. destruct Ht as [ -> | -> ]; auto.
  - intros k t Hk. unfold counts. rewrite list_lookup_fmap, Hk. simpl.
    unfold count_active_trips. do 3 f_equal.
    apply list_filter_iff. intros r. lia.
  - destruct (peak_stats_spec group Hne)
      as (i & j & num & t0 & t1 & Hg & Hp & Hi & Ht0 & Ht1).
    change (np_unique (start_end_times group)) with times in Hg, Hi, Ht0, Ht1.
    change (count_active_trips group <$> times) with counts in Hg, Hi.
    assert (counts <> []) as Hc by (intros Hnil; rewrite Hnil in Hi; discriminate).
    destruct (get_peak_indices_spec times counts Hc)
      as (i2 & j2 & Hg2 & Hrun & Hbest).
    rewrite Hg in Hg2. injection Hg2 as <- <-.
    destruct (is_max_run_lookup counts i j Hrun) as (m & Hm & Hmi & _).
    rewrite Hi in Hmi. injection Hmi as ->.
    destruct group as [|r rest]; [congruence|].
    eexists i, j, _, t0, t1. split; [exact Hg|].
    split; [unfold compute_route_stats; rewrite Hp; reflexivity|].
    simpl. auto 10.
  - repeat split.
Qed.

(** The sample group is not empty: its sampled times are increasing. *)
Lemma peak_window_witness :
  sample_group <> []
  /\ StronglySorted Z.lt (np_unique (start_end_times sample_group)).
Proof.
  assert (sample_group <> []) as Hne by discriminate.
  split; [exact Hne|].
  apply (peak_window 25200 68400 sample_group Hne).
Defined.

(** ** Headways *)

Lemma Qc_of_Z_nonzero (n : Z) : n <> 0 -> Qc_of_Z n <> 0%Qc.
Proof. intros Hn H. apply Hn, Z2Qc_inj. rewrite H, Z2Qc_inj_0. reflexivity. Qed.

Lemma fdiv_of_int (a b : Z) :
  b <> 0 -> fdiv (of_int a) (of_int b) = Fin (Qc_of_Z a / Qc_of_Z b)%Qc.
Proof.
  intros Hb. unfold fdiv, of_int.
  rewrite bool_decide_eq_false_2 by (apply Qc_of_Z_nonzero, Hb). reflexivity.
Qed.

Lemma fdiv_Fin_of_int (a : Qc) (b : Z) :
  b <> 0 -> fdiv (Fin a) (of_int b) = Fin (a / Qc_of_Z b)%Qc.
Proof.
  intros Hb. unfold fdiv, of_int.
  rewrite bool_decide_eq_false_2 by (apply Qc_of_Z_nonzero, Hb). reflexivity.
Qed.

Lemma headway_stats_nil : headway_stats [] = nan_headway.
Proof. reflexivity. Qed.

Lemma np_diff_short (l : list Z) : (length l < 2)%nat -> np_diff l = [].
Proof. destruct l as [|a [|b l]]; simpl; [reflexivity..|lia]. Qed.

Lemma headway_stats_single (t1 t2 : Z) :
  headway_stats (np_diff [t1; t2]) = single_headway t1 t2.
Proof.
  unfold headway_stats, single_headway.
  cbn [np_diff list_max list_min fold_left foldr length].
  change (Z.of_nat 1) with 1. rewrite Z.add_0_r.
  rewrite !fdiv_of_int by lia. rewrite fdiv_Fin_of_int by lia.
  rewrite Z2Qc_inj_1.
  replace (Qc_of_Z (t2 - t1) / 1)%Qc with (Qc_of_Z (t2 - t1))
    by (symmetry; apply (right_id 1%Qc Qcdiv)).
  reflexivity.
Qed.

Lemma sorted_short (l : list Z) : (length (sorted l) < 2)%nat <-> (length l < 2)%nat.
Proof. rewrite (Permutation_length (sorted_Permutation l)). reflexivity. Qed.

Lemma sorted_pair (l : list Z) (t1 t2 : Z) :
  l ≡ₚ [t1; t2] -> t1 < t2 -> sorted l = [t1; t2].
Proof.
  intros Hp Hlt. apply (StronglySorted_unique Z.le).
  - apply sorted_StronglySorted.
  - repeat constructor. lia.
  - rewrite sorted_Permutation. exact Hp.
Qed.

(** What the headway statistics of the times of a group are, by the number
    of the times that lie in the window. *)
Lemma headway_of_times (headway_start headway_end : Z) (times : list Z) :
  let q := qualifying headway_start headway_end times in
  let h := headway_stats (np_diff (headway_times headway_start headway_end times)) in
  ((length q < 2)%nat -> h = nan_headway)
  /\ (forall t1 t2, q ≡ₚ [t1; t2] -> t1 < t2 -> h = single_headway t1 t2).
Proof.
  unfold headway_times. fold (qualifying headway_start headway_end times).
  simpl. split.
  - intros Hq. rewrite np_diff_short by (apply sorted_short, Hq).
    apply headway_stats_nil.
  - intros t1 t2 Hp Hlt. rewrite (sorted_pair _ t1 t2 Hp Hlt).
    apply headway_stats_single.
Qed.

Lemma compute_route_stats_split_directions_Ok (headway_start headway_end : Z)
    (group : list (TripStats Z)) :
  group <> [] ->
  exists d,
    compute_route_stats_split_directions headway_start headway_end group = Ok d
    /\ d_headway d
       = headway_stats (np_diff (headway_times headway_start headway_end
                                   (ts_start_time <$> group))).
Proof.
  intros Hne.
  destruct (peak_stats_spec group Hne) as (i & j & num & t0 & t1 & _ & Hp & _).
  destruct group as [|r rest]; [congruence|].
  unfold compute_route_stats_split_directions. rewrite Hp. simpl.
  eexists. split; reflexivity.
Qed.

Lemma compute_route_stats_Ok (headway_start headway_end : Z)
    (group : list (TripStats Z)) :
  group <> [] ->
  exists d,
    compute_route_stats headway_start headway_end group = Ok d
    /\ d_headway d
       = headway_stats (direction_headways headway_start headway_end group 0
                        ++ direction_headways headway_start headway_end
                             group 1).
Proof.
  intros Hne.
  destruct (peak_stats_spec group Hne) as (i & j & num & t0 & t1 & _ & Hp & _).
  destruct group as [|r rest]; [congruence|].
  unfold compute_route_stats. rewrite Hp. simpl.
  eexists. split; reflexivity.
Qed.

(** C7, as amended: the headway statistics use only the times that lie in
    the window, ends included, whose default is 07:00:00 to 19:00:00.  For
    the trips of a route in one direction and for the visits of a stop
    alike: with fewer than two such times the maximum, minimum and mean
    headway are all undefined, and with exactly two of them, t1 < t2, all
    three equal (t2 - t1)/60 minutes.  For the trips of a route without
    direction-splitting the times are taken within each of the directions 0
    and 1: the three headways are undefined when each direction has fewer
    than two such times, and equal (t2 - t1)/60 minutes when one direction
    has exactly two of them, t1 < t2, and the other fewer than two. *)
Theorem headway_few_times (headway_start headway_end : Z) :
  (forall group : list (TripStats Z),
     group <> [] ->
     let q := qualifying headway_start headway_end (ts_start_time <$> group) in
     exists d,
       compute_route_stats_split_directions headway_start headway_end group
       = Ok d
       /\ d_headway d = headway_stats (np_diff (sorted q))
       /\ ((length q < 2)%nat -> d_headway d = nan_headway)
       /\ (forall t1 t2, q ≡ₚ [t1; t2] -> t1 < t2 ->
             d_headway d = single_headway t1 t2))
  /\ (forall group : list StopVisit,
        let q := qualifying headway_start headway_end
                   (omap sv_departure_time group) in
        let d := compute_stop_stats headway_start headway_end group in
        sd_headway d = headway_stats (np_diff (sorted q))
        /\ ((length q < 2)%nat -> sd_headway d = nan_headway)
        /\ (forall t1 t2, q ≡ₚ [t1; t2] -> t1 < t2 ->
              sd_headway d = single_headway t1 t2))
  /\ (forall group : list (TripStats Z),
        group <> [] ->
        let q direction :=
          qualifying headway_start headway_end
            (ts_start_time <$> direction_group group direction) in
        exists d,
          compute_route_stats headway_start headway_end group = Ok d
          /\ d_headway d
             = headway_stats (np_diff (sorted (q 0)) ++ np_diff (sorted (q 1)))
          /\ ((length (q 0%Z) < 2)%nat -> (length (q 1%Z) < 2)%nat ->
              d_headway d = nan_headway)
          /\ (forall t1 t2,
                q 0 ≡ₚ [t1; t2] -> (length (q 1%Z) < 2)%nat -> t1 < t2 ->
                d_headway d = single_headway t1 t2)
          /\ (forall t1 t2,
                (length (q 0%Z) < 2)%nat -> q 1 ≡ₚ [t1; t2] -> t1 < t2 ->
                d_headway d = single_headway t1 t2))
  /\ timestr_to_seconds default_headway_start_time = Ok (7 * 3600)
  /\ timestr_to_seconds default_headway_end_time = Ok (19 * 3600).
Proof.
  split; [|split; [|split; [|split; reflexivity]]].
  - intros group Hne q.
    destruct (compute_route_stats_split_directions_Ok
                headway_start headway_end group Hne) as (d & Hd & Hh).
    exists d. split; [exact Hd|]. split; [exact Hh|].
    rewrite Hh. apply headway_of_times.
  - intros group q d. split; [reflexivity|].
    apply (headway_of_times headway_start headway_end
             (omap sv_departure_time group)).
  - intros group Hne q.
    destruct (compute_route_stats_Ok headway_start headway_end group Hne)
      as (d & Hd & Hh).
    exists d. split; [exact Hd|].
    assert (d_headway d
            = headway_stats (np_diff (sorted (q 0)) ++ np_diff (sorted (q 1))))
      as Hq by exact Hh.
    split; [exact Hq|]. rewrite Hq. clear Hd Hh Hq.
    split; [|split].
    + intros H0 H1.
      rewrite !np_diff_short by (apply sorted_short; assumption).
      apply headway_stats_nil.
    + intros t1 t2 Hp H1 Hlt.
      rewrite (np_diff_short (sorted (q 1))) by (apply sorted_short, H1).
      rewrite app_nil_r, (sorted_pair _ t1 t2 Hp Hlt).
      apply headway_stats_single.
    + intros t1 t2 H0 Hp Hlt.
      rewrite (np_diff_short (sorted (q 0))) by (apply sorted_short, H0).
      rewrite app_nil_l, (sorted_pair _ t1 t2 Hp Hlt).
      apply headway_stats_single.
Qed.

(** Two trips of direction 0 of the sample group start in the default
    window, at 07:00:00 and 07:15:00; two visits of the sample stop lie in
    it, at the same times: the three headways are 15 minutes.  So they are
    for the route of the trips a and b of direction 0 and the trip c of
    direction 1. *)
Lemma headway_few_times_witness :
  (exists d,
     compute_route_stats_split_directions 25200 68400
       (direction_group sample_group 0) = Ok d
     /\ d_headway d = single_headway 25200 26100)
  /\ sd_headway (compute_stop_stats 25200 68400 sample_visits)
     = single_headway 25200 26100
  /\ (exists d,
        compute_route_stats 25200 68400 (take 3 sample_group) = Ok d
        /\ d_headway d = single_headway 25200 26100).
Proof.
  split; [|split].
  - destruct (proj1 (headway_few_times 25200 68400)
                (direction_group sample_group 0))
      as (d & Hd & _ & _ & Hpair); [discriminate|].
    exists d. split; [exact Hd|]. apply Hpair; [reflexivity|lia].
  - apply (proj1 (proj2 (headway_few_times 25200 68400)) sample_visits);
      [reflexivity|lia].
  - destruct (proj1 (proj2 (proj2 (headway_few_times 25200 68400)))
                (take 3 sample_group))
      as (d & Hd & _ & _ & Hpair & _); [discriminate|].
    exists d. split; [exact Hd|]. apply Hpair; [reflexivity|simpl; lia|lia].
Defined.

(** C7 fails for the trips of a route without direction-splitting: two
    trips that start in the window 15 minutes apart, one in each
    direction, are two qualifying times of the group, and the three
    headways are undefined. *)
Lemma unsplit_two_times_no_headway :
  qualifying 25200 68400 (ts_start_time <$> opposite_pair) = [25200; 26100]
  /\ exists d,
       compute_route_stats 25200 68400 opposite_pair = Ok d
       /\ d_headway d = nan_headway
       /\ d_headway d <> single_headway 25200 26100.
Proof.
  split; [reflexivity|]. eexists. split; [vm_compute; reflexivity|].
  split; [reflexivity|discriminate].
Qed.

(** ** Headways of a route over both directions *)

Lemma fold_left_max_assoc (l : list Z) (a y : Z) :
  fold_left Z.max l (Z.max a y) = Z.max a (fold_left Z.max l y).
Proof.
  revert y. induction l as [|x l IH]; intros y; simpl; [reflexivity|].
  rewrite <- Z.max_assoc. apply IH.
Qed.

Lemma list_max_app (h0 h1 : list Z) (a0 a1 : Z) :
  list_max h0 = Some a0 -> list_max h1 = Some a1 ->
  list_max (h0 ++ h1) = Some (Z.max a0 a1).
Proof.
  destruct h0 as [|x l0]; [discriminate|].
  destruct h1 as [|y l1]; [discriminate|].
  simpl. intros [= <-] [= <-]. f_equal.
  rewrite fold_left_app. simpl. apply fold_left_max_assoc.
Qed.

Lemma foldr_add_app (h0 h1 : list Z) :
  foldr Z.add 0 (h0 ++ h1) = foldr Z.add 0 h0 + foldr Z.add 0 h1.
Proof. induction h0 as [|x h0 IH]; simpl; [reflexivity|]. rewrite IH. lia. Qed.

Lemma sixty_pos : (0 < / Qc_of_Z 60)%Qc.
Proof.
  apply Qcinv_pos. rewrite <- Z2Qc_inj_0. apply (proj1 (Z2Qc_inj_lt 0 60)). lia.
Qed.

(** Minutes grow with seconds: the greater headway is the greater one in
    minutes too. *)
Lemma minutes_max (a b : Z) :
  fdiv (of_int (Z.max a b)) (of_int 60)
  = fmax (fdiv (of_int a) (of_int 60)) (fdiv (of_int b) (of_int 60)).
Proof.
  rewrite !fdiv_of_int by lia. unfold fmax, Qcdiv. f_equal.
  destruct (Z.max_spec a b) as [[Hlt ->]|[Hle ->]].
  - rewrite bool_decide_eq_true_2; [reflexivity|].
    apply (proj1 (Qcmult_le_mono_pos_r _ _ _ sixty_pos)).
    apply (proj1 (Z2Qc_inj_le a b)). lia.
  - destruct (decide (a = b)) as [->|Hne].
    + case_bool_decide; reflexivity.
    + rewrite bool_decide_eq_false_2; [reflexivity|].
      apply Qclt_not_le.
      apply (proj1 (Qcmult_lt_mono_pos_r _ _ _ sixty_pos)).
      apply (proj1 (Z2Qc_inj_lt b a)). lia.
Qed.

Lemma headway_stats_nonempty (h : list Z) :
  h <> [] ->
  exists mx mn,
    list_max h = Some mx /\ list_min h = Some mn
    /\ headway_stats h
       = {| max_headway := fdiv (of_int mx) (of_int 60);
            min_headway := fdiv (of_int mn) (of_int 60);
            mean_headway :=
              Fin (Qc_of_Z (foldr Z.add 0%Z h) / Qc_of_Z (Z.of_nat (length h))
                   / Qc_of_Z 60)%Qc |}.
Proof.
  destruct h as [|x h]; [congruence|]. intros _.
  eexists _, _. split; [reflexivity|]. split; [reflexivity|].
  unfold headway_stats. cbn [list_max list_min].
  rewrite (fdiv_of_int _ (Z.of_nat _)) by (cbn [length]; lia).
  rewrite fdiv_Fin_of_int by lia. reflexivity.
Qed.

(** The mean over the headways of both directions is the mean of the two
    means, each weighted by the number of headways of its direction. *)
Lemma mean_headway_app (h0 h1 : list Z) :
  h0 <> [] -> h1 <> [] ->
  mean_headway (headway_stats (h0 ++ h1))
  = weighted_mean (Z.of_nat (length h0)) (Z.of_nat (length h1))
      (mean_headway (headway_stats h0)) (mean_headway (headway_stats h1)).
Proof.
  intros H0 H1.
  destruct (headway_stats_nonempty h0 H0) as (? & ? & _ & _ & ->).
  destruct (headway_stats_nonempty h1 H1) as (? & ? & _ & _ & ->).
  destruct (headway_stats_nonempty (h0 ++ h1)) as (? & ? & _ & _ & ->).
  { destruct h0; [congruence|discriminate]. }
  cbn [mean_headway]. unfold weighted_mean.
  assert (Z.of_nat (length h0) <> 0) as Hn0 by (destruct h0; [congruence|cbn [length]; lia]).
  assert (Z.of_nat (length h1) <> 0) as Hn1 by (destruct h1; [congruence|cbn [length]; lia]).
  rewrite fdiv_Fin_of_int by lia. f_equal.
  rewrite length_app, Nat2Z.inj_add, foldr_add_app, !Z2Qc_inj_add.
  pose proof (Qc_of_Z_nonzero _ Hn0) as Q0.
  pose proof (Qc_of_Z_nonzero _ Hn1) as Q1.
  assert (Qc_of_Z (Z.of_nat (length h0)) + Qc_of_Z (Z.of_nat (length h1))
          <> 0)%Qc as Q01.
  { rewrite <- Z2Qc_inj_add. apply Qc_of_Z_nonzero. lia. }
  assert (Qc_of_Z 60 <> 0%Qc) as Q60 by (apply Qc_of_Z_nonzero; lia).
  field. auto.
Qed.




(** ** Empty input *)

Lemma same_columns_check (l1 l2 : list string) :
  forallb (fun c => bool_decide (c ∈ l2)) l1 = true ->
  forallb (fun c => bool_decide (c ∈ l1)) l2 = true ->
  same_columns l1 l2.
Proof.
  intros H1 H2 c. rewrite forallb_forall in H1, H2. split; intros Hc.
  - apply list_elem_of_In, H1, bool_decide_eq_true_1 in Hc. exact Hc.
  - apply list_elem_of_In, H2, bool_decide_eq_true_1 in Hc. exact Hc.
Qed.

(** Whatever the route-level function returns, its frame has the columns
    of [routes_stats_cols]. *)
Lemma compute_routes_stats_base_columns
    (trips_stats_subset : list (TripStats string)) (split_directions : bool)
    (headway_start_time headway_end_time : string) (fr : Frame RouteStats) :
  compute_routes_stats_base trips_stats_subset split_directions
    headway_start_time headway_end_time = Ok fr ->
  same_columns (columns fr) (routes_stats_cols split_directions).
Proof.
  unfold compute_routes_stats_base.
  destruct trips_stats_subset as [|r rest].
  - intros [= <-]. intros c. reflexivity.
  - destruct (mapM times_to_seconds (r :: rest)) as [f|]; simpl; [|intros [=]].
    destruct (timestr_to_seconds headway_start_time) as [hs|]; simpl; [|intros [=]].
    destruct (timestr_to_seconds headway_end_time) as [he|]; simpl; [|intros [=]].
    destruct split_directions; destruct (mapM _ _) as [g|]; simpl;
      intros H; inversion H; subst; simpl;
      apply same_columns_check; reflexivity.
Qed.

Lemma compute_stops_stats_base_columns (stop_times : list StopTime)
    (trips_subset : list Trip) (split_directions : bool)
    (headway_start_time headway_end_time : string) (fr : Frame StopStats) :
  compute_stops_stats_base stop_times trips_subset split_directions
    headway_start_time headway_end_time = Ok fr ->
  same_columns (columns fr) (stops_stats_cols split_directions).
Proof.
  unfold compute_stops_stats_base.
  destruct trips_subset as [|t rest].
  - intros [= <-]. intros c. reflexivity.
  - destruct (merge_visits stop_times (t :: rest)) as [f|]; simpl; [|intros [=]].
    destruct (timestr_to_seconds headway_start_time) as [hs|]; simpl; [|intros [=]].
    destruct (timestr_to_seconds headway_end_time) as [he|]; simpl; [|intros [=]].
    destruct split_directions; intros H; inversion H; subst; simpl;
      apply same_columns_check; reflexivity.
Qed.

(** C8 fails on the code for the feed statistics.  On an empty subset of
    trips the route and stop statistics are an empty frame with the full
    column set of the function: the columns listed in its docstring, with
    direction_id exactly when direction-splitting is requested.  The feed
    statistics have such a guard too, but they ask the feed for the trips
    of the date as a method, which no feed has: they raise on every input,
    so on Monday 6 January, when no trip of the sample feed runs, with
    trip stats that are empty. *)
Lemma empty_input_full_columns :
  (forall split_directions hs he,
     compute_routes_stats_base [] split_directions hs he
     = Ok (empty_frame (routes_stats_cols split_directions)))
  /\ (forall stop_times split_directions hs he,
        compute_stops_stats_base stop_times [] split_directions hs he
        = Ok (empty_frame (stops_stats_cols split_directions)))
  /\ (forall split_directions,
        length (routes_stats_cols split_directions)
        = (if split_directions then 19%nat else 18%nat)
        /\ length (stops_stats_cols split_directions)
           = (if split_directions then 9%nat else 8%nat)
        /\ ("direction_id" ∈ routes_stats_cols split_directions
            <-> split_directions = true)
        /\ ("direction_id" ∈ stops_stats_cols split_directions
            <-> split_directions = true))
  /\ compute_feed_stats sample_feed [] "20200106" = Raise AttributeError
  /\ (forall feed trips_stats date,
        compute_feed_stats feed trips_stats date = Raise AttributeError).
Proof.
  split; [reflexivity|]. split; [reflexivity|].
  split; [|split; reflexivity].
  intros [|]; repeat split; try reflexivity; try discriminate;
    try (intros _; compute_done); intros H; exfalso; revert H; compute_done.
Qed.

(** ** Binning trips *)

Lemma bin_of_lt (seconds : Z) : (bin_of seconds < num_bins)%nat.
Proof.
  unfold bin_of, num_bins.
  pose proof (Z.mod_pos_bound (seconds / 60) (24 * 60)). lia.
Qed.

Lemma bins_to_fill_eq (start end_ : nat) :
  (start < num_bins)%nat -> (end_ < num_bins)%nat ->
  bins_to_fill start end_
  = if bool_decide (start <= end_)%nat then seq start (end_ - start)
    else seq start (num_bins - start) ++ seq 0 end_.
Proof.
  intros Hs He. unfold bins_to_fill, py_slice, bins.
  case_bool_decide.
  - rewrite drop_seq, take_seq. f_equal. lia.
  - rewrite drop_seq, take_seq. f_equal. f_equal. lia.
Qed.

Lemma elem_of_bins_to_fill (start end_ bin : nat) :
  (start < num_bins)%nat -> (end_ < num_bins)%nat ->
  bin ∈ bins_to_fill start end_ <-> in_fill start end_ bin.
Proof.
  intros Hs He. rewrite bins_to_fill_eq by assumption. unfold in_fill.
  case_bool_decide.
  - rewrite elem_of_seq. lia.
  - rewrite elem_of_app, !elem_of_seq. lia.
Qed.

Lemma NoDup_bins_to_fill (start end_ : nat) :
  (start < num_bins)%nat -> (end_ < num_bins)%nat ->
  NoDup (bins_to_fill start end_).
Proof.
  intros Hs He. rewrite bins_to_fill_eq by assumption.
  case_bool_decide; [apply NoDup_seq|].
  apply NoDup_app. split; [apply NoDup_seq|]. split; [|apply NoDup_seq].
  intros x. rewrite !elem_of_seq. lia.
Qed.

Lemma length_bins_to_fill (start end_ : nat) :
  (start < num_bins)%nat -> (end_ < num_bins)%nat ->
  length (bins_to_fill start end_) = fill_size start end_.
Proof.
  intros Hs He. rewrite bins_to_fill_eq by assumption. unfold fill_size.
  case_bool_decide; [apply length_seq|].
  rewrite length_app, !length_seq. reflexivity.
Qed.

Section cells.
Variable series : gmap string (gmap string (list np_float)).
Variables (ind route : string) (w : np_float).

Lemma cell_add_weight_ind (bin : nat) (ind' route' : string) (bin' : nat) :
  ind <> ind' ->
  cell (add_weight ind route bin w series) ind' route' bin'
  = cell series ind' route' bin'.
Proof.
  intros Hne. unfold cell, add_weight.
  rewrite lookup_alter_ne by exact Hne. reflexivity.
Qed.

Lemma cell_add_weight_route (bin : nat) (ind' route' : string)
    (bin' : nat) :
  route <> route' ->
  cell (add_weight ind route bin w series) ind' route' bin'
  = cell series ind' route' bin'.
Proof.
  intros Hne. unfold cell, add_weight. rewrite lookup_alter.
  case_decide as Hi; [|reflexivity]. subst ind'.
  destruct (series !! ind) as [by_route|]; simpl; [|reflexivity].
  rewrite lookup_alter_ne by exact Hne. reflexivity.
Qed.

Lemma cell_add_weight_eq (bin bin' : nat) :
  cell (add_weight ind route bin w series) ind route bin'
  = add_where (bin = bin') w (cell series ind route bin').
Proof.
  unfold cell, add_weight, add_where. rewrite lookup_alter_eq.
  destruct (series !! ind) as [by_route|]; simpl;
    [|case_decide; reflexivity].
  rewrite lookup_alter_eq.
  destruct (by_route !! route) as [values|]; simpl;
    [|case_decide; reflexivity].
  rewrite list_lookup_alter. case_decide; [subst|]; reflexivity.
Qed.
End cells.

Section fill.
Variables (ind route : string) (w : np_float).

Lemma cell_fill_ind (filled : list nat) series (ind' route' : string)
    (bin' : nat) :
  ind <> ind' ->
  cell (fold_left (fun s bin => add_weight ind route bin w s) filled series) ind' route' bin'
  = cell series ind' route' bin'.
Proof.
  intros Hne. revert series.
  induction filled as [|b l IH]; intros series; simpl; [reflexivity|].
  rewrite IH. apply cell_add_weight_ind, Hne.
Qed.

Lemma cell_fill_route (filled : list nat) series (ind' route' : string)
    (bin' : nat) :
  route <> route' ->
  cell (fold_left (fun s bin => add_weight ind route bin w s) filled series) ind' route' bin'
  = cell series ind' route' bin'.
Proof.
  intros Hne. revert series.
  induction filled as [|b l IH]; intros series; simpl; [reflexivity|].
  rewrite IH. apply cell_add_weight_route, Hne.
Qed.

Lemma cell_fill_eq (filled : list nat) series (bin' : nat) :
  NoDup filled ->
  cell (fold_left (fun s bin => add_weight ind route bin w s) filled series) ind route bin'
  = add_where (bin' ∈ filled) w (cell series ind route bin').
Proof.
  intros Hnd. revert series.
  induction Hnd as [|b l Hb Hnd IH]; intros series; simpl.
  - unfold add_where. case_decide as H; [inversion H|reflexivity].
  - rewrite IH. rewrite cell_add_weight_eq.
    unfold add_where. repeat case_decide; subst;
      try reflexivity; exfalso;
      repeat match goal with
             | H : _ ∈ _ :: _ |- _ => apply elem_of_cons in H as [H|H]
             | H : ¬ _ ∈ _ :: _ |- _ => rewrite elem_of_cons in H
             end; intuition congruence.
Qed.
End fill.

Lemma bin_trip_unfold (row : TripStats Z)
    (series : gmap string (gmap string (list np_float))) :
  let route := ts_route_id row in
  let start := bin_of (ts_start_time row) in
  let end_ := bin_of (ts_end_time row) in
  let filled := bins_to_fill start end_ in
  let fill (ind : string) (w : np_float) s :=
    fold_left (fun s bin => add_weight ind route bin w s) filled s in
  start <> end_ ->
  bin_trip row series
  = fill "service_distance"
      (fdiv (ts_distance row) (of_int (Z.of_nat (length filled))))
      (fill "service_duration" (fdiv (of_int 1) (of_int 60))
         (fill "num_trips" (of_int 1)
            (add_weight "num_trip_starts" route start (of_int 1) series))).
Proof.
  intros route start end_ filled fill Hne. unfold bin_trip.
  fold route start end_. rewrite bool_decide_eq_false_2 by exact Hne.
  reflexivity.
Qed.

Lemma add_where_ext (P Q : Prop) `{!Decision P, !Decision Q} (w : np_float)
    (x : option np_float) :
  (P <-> Q) -> add_where P w x = add_where Q w x.
Proof. intros H. unfold add_where. repeat case_decide; tauto. Qed.



(** ** Downsampling *)

Lemma elem_of_sortlevel (cols : list (ColKey * list np_float))
    (c : ColKey * list np_float) :
  c ∈ sortlevel cols <-> c ∈ cols.
Proof. unfold sortlevel. rewrite merge_sort_Permutation. reflexivity. Qed.

Lemma elem_of_enumerate {A} (values : list A) (s i : Z) (x : A) :
  (i, x) ∈ enumerate s values
  <-> exists n : nat, values !! n = Some x /\ i = s + Z.of_nat n.
Proof.
  revert s. induction values as [|y values IH]; intros s; simpl.
  - split; [intros H; inversion H|]. intros (n & Hn & _). discriminate.
  - rewrite elem_of_cons, IH. split.
    + intros [[= -> ->]|(n & Hn & ->)].
      * exists 0%nat. split; [reflexivity|lia].
      * exists (S n). split; [exact Hn|lia].
    + intros ([|n] & Hn & ->); simpl in Hn.
      * left. injection Hn as ->. f_equal. lia.
      * right. exists n. split; [exact Hn|lia].
Qed.

(** Window [j] holds the samples taken from minute [j * freq] up to, but
    without, minute [(j + 1) * freq]. *)
Lemma window_span (native freq : Z) (values : list np_float) (j : Z) :
  0 < freq ->
  window native freq values j
  = snd <$> filter (fun p : Z * np_float =>
                      j * freq <= p.1 * native < (j + 1) * freq)
              (enumerate 0 values).
Proof.
  intros Hf. unfold window. f_equal. apply list_filter_iff.
  intros [i x]. simpl. split.
  - intros <-. pose proof (Z.mul_div_le (i * native) freq Hf).
    pose proof (Z.mul_succ_div_gt (i * native) freq Hf). lia.
  - intros H. symmetry. apply Z.div_unique with (r := i * native - j * freq);
      lia.
Qed.

Lemma length_resample (native freq : Z) (how : list np_float -> np_float)
    (values : list np_float) :
  length (resample native freq how values)
  = Z.to_nat (num_windows native freq (length values)).
Proof. unfold resample. rewrite length_fmap, length_seqZ. reflexivity. Qed.

Lemma dropna_id (l : list np_float) : NaN ∉ l -> dropna l = l.
Proof.
  unfold dropna. induction l as [|x l IH]; intros H; [reflexivity|].
  rewrite filter_cons. rewrite not_elem_of_cons in H. destruct H as [Hx Hl].
  case_decide; [|congruence]. rewrite IH by exact Hl. reflexivity.
Qed.

(** Over values none of which is missing, the sum and the mean of a series
    are the plain ones. *)
Lemma series_sum_mean_plain (l : list np_float) :
  l <> [] -> NaN ∉ l ->
  series_sum l = np_sum l
  /\ series_mean l = fdiv (np_sum l) (of_int (Z.of_nat (length l))).
Proof.
  intros Hne Hnan. unfold series_sum, series_mean.
  rewrite dropna_id by exact Hnan. destruct l; [congruence|]. auto.
Qed.

Lemma elem_of_resample_sum_mean (native freq : Z)
    (cols : list (ColKey * list np_float)) (c : ColKey * list np_float) :
  c ∈ resample_sum_mean native freq cols <->
  exists values,
    (c.1, values) ∈ cols
    /\ ((indicator c.1 ∈ sum_indicators
         /\ c.2 = resample native freq series_sum values)
        \/ (indicator c.1 ∈ mean_indicators
            /\ c.2 = resample native freq series_mean values)).
Proof.
  destruct c as [k w]. simpl.
  unfold resample_sum_mean. rewrite elem_of_app, !list_elem_of_fmap. split.
  - intros [([k' v] & [= -> ->] & H)|([k' v] & [= -> ->] & H)];
      apply list_elem_of_filter in H as [Hi H]; simpl in *;
      exists v; auto.
  - intros (v & Hv & [[Hi ->]|[Hi ->]]); [left|right];
      exists (k, v); (split; [reflexivity|]);
      apply list_elem_of_filter; auto.
Qed.

Lemma sum_not_mean (ind : string) :
  ind ∈ sum_indicators -> ind ∉ mean_indicators.
Proof.
  unfold sum_indicators, mean_indicators. intros H Hm.
  apply list_elem_of_singleton in Hm. subst ind.
  repeat (apply elem_of_cons in H as [H|H]; [discriminate|]).
  inversion H.
Qed.

(** The speed column of a route and direction is the distance column
    divided by the duration column, after both were resampled. *)
Lemma elem_of_speed_columns (f : list (ColKey * list np_float))
    (kd kt : ColKey) (vd vt : list np_float) :
  (kd, vd) ∈ f -> (kt, vt) ∈ f ->
  indicator kd = "service_distance" -> indicator kt = "service_duration" ->
  same_entity kd kt ->
  (forall v, (kt, v) ∈ f -> v = vt) ->
  (speed_key kd, zip_with fdiv vd vt) ∈ speed_columns f.
Proof.
  intros Hd Ht Hid Hit Hsame Huniq. unfold speed_columns.
  apply elem_of_app. left. apply list_elem_of_fmap.
  exists (kd, vd). split.
  - simpl. f_equal.
    destruct (List.find _ (select "service_duration" f)) as [d|] eqn:Hfind.
    + apply find_some in Hfind as [Hin Hmatch].
      apply list_elem_of_In, list_elem_of_filter in Hin as [Hind Hin].
      apply bool_decide_eq_true_1 in Hmatch. destruct Hmatch as [He Hdir].
      simpl in He, Hdir. destruct d as [[i e dr] v]. simpl in *. subst.
      destruct kt as [i' e' d']. destruct Hsame as [He' Hd']. simpl in *.
      subst. rewrite (Huniq v Hin). reflexivity.
    + exfalso.
      assert (In (kt, vt) (select "service_duration" f)) as Hin.
      { apply list_elem_of_In, list_elem_of_filter.
        split; [exact Hit|exact Ht]. }
      pose proof (find_none _ _ Hfind _ Hin) as Hf.
      apply bool_decide_eq_false_1 in Hf. apply Hf. exact Hsame.
  - apply list_elem_of_filter. split; [exact Hid|exact Hd].
Qed.

Lemma NoDup_fst_unique {A B} (l : list (A * B)) (k : A) (v1 v2 : B) :
  NoDup (fst <$> l) -> (k, v1) ∈ l -> (k, v2) ∈ l -> v1 = v2.
Proof.
  induction l as [|[k' v'] l IH]; intros Hnd H1 H2; [inversion H1|].
  rewrite fmap_cons in Hnd. apply NoDup_cons in Hnd as [Hk Hnd].
  apply elem_of_cons in H1 as [H1|H1];
    apply elem_of_cons in H2 as [H2|H2].
  - congruence.
  - inversion H1; subst. exfalso. apply Hk.
    apply list_elem_of_fmap. exists (k', v2). auto.
  - inversion H2; subst. exfalso. apply Hk.
    apply list_elem_of_fmap. exists (k', v1). auto.
  - apply IH; assumption.
Qed.

(** The columns of a downsampled route or feed series: the resampled
    columns and the speed columns computed from them. *)
Lemma downsample_columns (time_series : TimeSeries) (freq native : Z) :
  ts_freq time_series = Some native ->
  native <= freq ->
  ts_empty time_series = false ->
  route_or_feed time_series ->
  exists res,
    downsample time_series freq = Ok res
    /\ ts_freq res = Some freq
    /\ ts_names res = ts_names time_series
    /\ forall c,
         c ∈ ts_columns res <->
         c ∈ resample_sum_mean native freq (ts_columns time_series)
         \/ c ∈ speed_columns
                 (resample_sum_mean native freq (ts_columns time_series)).
Proof.
  intros Hfreq Hle Hne Hkind. unfold downsample.
  rewrite Hne, Hfreq. simpl.
  destruct (Z.ltb_spec freq native) as [Hlt|_]; [lia|].
  eexists. split; [reflexivity|]. split; [reflexivity|].
  split; [reflexivity|]. intros c. simpl.
  case_bool_decide as Hr.
  - rewrite elem_of_sortlevel. apply elem_of_app.
  - case_bool_decide as Hs.
    + destruct Hkind as [Hk|Hk]; contradiction.
    + apply elem_of_app.
Qed.

(** The resampled values are what [resampled] says: one value for every
    window up to the one of the last sample, computed from the samples of
    the window. *)
Lemma resample_resampled (native freq : Z) (how : list np_float -> np_float)
    (values : list np_float) :
  0 < native -> 0 < freq ->
  resampled native freq how values (resample native freq how values).
Proof.
  intros Hn Hf. split.
  - intros j. rewrite length_resample. unfold num_windows.
    assert (0 <= Z.of_nat j * freq) by (apply Z.mul_nonneg_nonneg; lia).
    destruct (length values) as [|m].
    + change (Z.of_nat 0 - 1) with (-1). split; lia.
    + replace (Z.of_nat (S m) - 1) with (Z.of_nat m) by lia.
      assert (0 <= Z.of_nat m * native) by (apply Z.mul_nonneg_nonneg; lia).
      assert (0 <= Z.of_nat m * native / freq) by (apply Z.div_pos; lia).
      split.
      * intros Hj.
        assert (Z.of_nat j <= Z.of_nat m * native / freq) as Hle by lia.
        pose proof (Z.mul_div_le (Z.of_nat m * native) freq Hf).
        assert (freq * Z.of_nat j <= freq * (Z.of_nat m * native / freq))
          by (apply Z.mul_le_mono_nonneg_l; lia).
        lia.
      * intros Hj.
        assert (Z.of_nat j <= Z.of_nat m * native / freq)
          by (apply Z.div_le_lower_bound; lia).
        lia.
  - intros j v Hj. unfold resample in Hj.
    rewrite list_lookup_fmap in Hj.
    destruct (seqZ 0 _ !! j) as [i|] eqn:Hi; [|discriminate].
    apply lookup_seqZ in Hi as [-> _]. simpl in Hj. injection Hj as <-.
    rewrite Z.add_0_l. unfold samples_in. rewrite <- window_span by exact Hf.
    reflexivity.
Qed.

(** Where a speed column comes from: the distance column of its route and
    direction is divided by the duration column, value by value, and a
    column without its partner gives undefined speeds. *)
Lemma speed_columns_origin (f : list (ColKey * list np_float))
    (c : ColKey * list np_float) :
  c ∈ speed_columns f ->
  exists k v,
    (k, v) ∈ f /\ c.1 = speed_key k
    /\ ((indicator k = "service_distance"
         /\ exists kt vt,
              (kt, vt) ∈ f /\ indicator kt = "service_duration"
              /\ same_entity k kt /\ c.2 = zip_with fdiv v vt)
        \/ ((indicator k = "service_distance"
             \/ indicator k = "service_duration")
            /\ c.2 = nan_like v)).
Proof.
  unfold speed_columns. rewrite elem_of_app, !list_elem_of_fmap.
  intros [([k v] & -> & Hk)|([k v] & -> & Hk)].
  - apply list_elem_of_filter in Hk as [Hi Hk]. simpl in *.
    exists k, v. split; [exact Hk|]. split; [reflexivity|].
    destruct (List.find _ (select "service_duration" f)) as [[kt vt]|]
      eqn:Hfind.
    + left. split; [exact Hi|].
      apply find_some in Hfind as [Hin Hmatch].
      apply list_elem_of_In, list_elem_of_filter in Hin as [Hind Hin].
      apply bool_decide_eq_true_1 in Hmatch. simpl in *.
      exists kt, vt. auto.
    + right. auto.
  - apply list_elem_of_filter in Hk as [_ Hk].
    apply list_elem_of_filter in Hk as [Hi Hk]. simpl in *.
    exists k, v. split; [exact Hk|]. split; [reflexivity|]. right. auto.
Qed.

(** C5: downsampling.  A target frequency finer than the native one gives
    the series back unchanged.  Otherwise, for a non-empty route or feed
    series whose column keys are distinct, the result has the target
    frequency and one value for every window from the first sample to the
    last one, a window holding the samples taken from its start up to,
    without, the start of the next one.  Each column of trip-start counts,
    service durations and service distances holds, window by window, the
    sum of the fine values of the window; each column of concurrent-trip
    counts holds their mean; and the speed column of a route is the
    coarse distance divided by the coarse duration, window by window.  No
    speed column of the result is resampled: each is such a quotient, or
    undefined throughout for want of a distance or a duration.  Over
    values none of which is missing, the sum and the mean of a window are
    the plain ones. *)
Theorem downsample_coarsens (time_series : TimeSeries) (freq native : Z) :
  ts_freq time_series = Some native ->
  (freq < native -> downsample time_series freq = Ok time_series)
  /\ (0 < native -> native <= freq ->
      ts_empty time_series = false ->
      route_or_feed time_series ->
      NoDup (fst <$> ts_columns time_series) ->
      exists res,
        downsample time_series freq = Ok res
        /\ ts_freq res = Some freq
        /\ (forall k values,
              (k, values) ∈ ts_columns time_series ->
              indicator k ∈ sum_indicators ->
              exists coarse,
                (k, coarse) ∈ ts_columns res
                /\ resampled native freq series_sum values coarse)
        /\ (forall k values,
              (k, values) ∈ ts_columns time_series ->
              indicator k = "num_trips" ->
              exists coarse,
                (k, coarse) ∈ ts_columns res
                /\ resampled native freq series_mean values coarse)
        /\ (forall kd kt vd vt,
              (kd, vd) ∈ ts_columns time_series ->
              (kt, vt) ∈ ts_columns time_series ->
              indicator kd = "service_distance" ->
              indicator kt = "service_duration" ->
              same_entity kd kt ->
              exists dist dur,
                resampled native freq series_sum vd dist
                /\ resampled native freq series_sum vt dur
                /\ (kd, dist) ∈ ts_columns res
                /\ (kt, dur) ∈ ts_columns res
                /\ (speed_key kd, zip_with fdiv dist dur) ∈ ts_columns res)
        /\ (forall c,
              c ∈ ts_columns res ->
              indicator c.1 = "service_speed" ->
              exists k v,
                (k, v) ∈ ts_columns res /\ c.1 = speed_key k
                /\ ((indicator k = "service_distance"
                     /\ exists kt vt,
                          (kt, vt) ∈ ts_columns res
                          /\ indicator kt = "service_duration"
                          /\ same_entity k kt
                          /\ c.2 = zip_with fdiv v vt)
                    \/ ((indicator k = "service_distance"
                         \/ indicator k = "service_duration")
                        /\ c.2 = nan_like v))))
  /\ (forall l,
        l <> [] -> NaN ∉ l ->
        series_sum l = np_sum l
        /\ series_mean l = fdiv (np_sum l) (of_int (Z.of_nat (length l)))).
Proof.
  intros Hfreq. split; [|split].
  - intros Hlt. unfold downsample. destruct (ts_empty time_series);
      [reflexivity|]. rewrite Hfreq. simpl.
    destruct (Z.ltb_spec freq native); [reflexivity|lia].
  - intros Hpos Hle Hne Hkind Hnd.
    assert (0 < freq) as Hf by lia.
    destruct (downsample_columns time_series freq native Hfreq Hle Hne Hkind)
      as (res & Hres & Hfr & _ & Hcols).
    exists res. split; [exact Hres|]. split; [exact Hfr|].
    assert (forall k values,
              (k, values) ∈ ts_columns time_series ->
              indicator k ∈ sum_indicators ->
              (k, resample native freq series_sum values)
              ∈ resample_sum_mean native freq (ts_columns time_series))
      as Hsum.
    { intros k values Hk Hi. apply elem_of_resample_sum_mean.
      exists values. simpl. auto. }
    split; [|split; [|split]].
    + intros k values Hk Hi. exists (resample native freq series_sum values).
      split; [|apply resample_resampled; assumption].
      apply Hcols. left. apply Hsum; assumption.
    + intros k values Hk Hi. exists (resample native freq series_mean values).
      split; [|apply resample_resampled; assumption].
      apply Hcols. left.
      apply elem_of_resample_sum_mean. exists values. simpl.
      split; [exact Hk|]. right. split; [|reflexivity].
      rewrite Hi. unfold mean_indicators. left.
    + intros kd kt vd vt Hd Ht Hid Hit Hsame.
      exists (resample native freq series_sum vd),
        (resample native freq series_sum vt).
      assert ((kd, resample native freq series_sum vd)
              ∈ resample_sum_mean native freq (ts_columns time_series))
        as Hrd by (apply Hsum; [exact Hd|]; rewrite Hid; compute_done).
      assert ((kt, resample native freq series_sum vt)
              ∈ resample_sum_mean native freq (ts_columns time_series))
        as Hrt by (apply Hsum; [exact Ht|]; rewrite Hit; compute_done).
      split; [apply resample_resampled; assumption|].
      split; [apply resample_resampled; assumption|].
      split; [apply Hcols; left; exact Hrd|].
      split; [apply Hcols; left; exact Hrt|].
      apply Hcols. right.
      apply elem_of_speed_columns with (kt := kt); try assumption.
      intros v Hv. apply elem_of_resample_sum_mean in Hv. simpl in Hv.
      destruct Hv as (values & Hvalues & [[_ ->]|[Hm _]]).
      * rewrite (NoDup_fst_unique _ kt values vt Hnd Hvalues Ht).
        reflexivity.
      * exfalso. revert Hm. apply sum_not_mean. rewrite Hit. compute_done.
    + intros c Hc Hi. apply Hcols in Hc as [Hc|Hc].
      { exfalso. apply elem_of_resample_sum_mean in Hc.
        destruct Hc as (values & _ & [[Hm _]|[Hm _]]); rewrite Hi in Hm;
          revert Hm; compute_done. }
      destruct (speed_columns_origin _ c Hc) as (k & v & Hk & Hkey & Hval).
      exists k, v. split; [apply Hcols; left; exact Hk|].
      split; [exact Hkey|].
      destruct Hval as [(Hd & kt & vt & Ht & Hit & Hsame & Hq)|Hnan];
        [left|right; exact Hnan].
      split; [exact Hd|]. exists kt, vt.
      split; [apply Hcols; left; exact Ht|]. auto.
  - apply series_sum_mean_plain.
Qed.

(** The sample series, six minutes long, downsampled to 3 minutes has two
    windows: the distances 3, 3, 3 and 5, 5, 2 are summed to 9 and 12, the
    trip starts to 1 and 1, and the concurrent trips 1, 1, 1 and 2, 2, 1
    are averaged to 1 and 5/3. *)
Lemma downsample_coarsens_witness :
  ts_freq sample_series = Some 1
  /\ exists res,
       downsample sample_series 3 = Ok res
       /\ (route_key "service_distance" "r", of_int <$> [9; 12])
          ∈ ts_columns res
       /\ (route_key "num_trip_starts" "r", of_int <$> [1; 1])
          ∈ ts_columns res
       /\ (route_key "num_trips" "r",
           [of_int 1; fdiv (of_int 5) (of_int 3)]) ∈ ts_columns res.
Proof.
  split; [reflexivity|].
  destruct (proj1 (proj2 (downsample_coarsens sample_series 3 1 eq_refl)))
    as (res & Hres & _ & Hsum & Hmean & _).
  - lia.
  - lia.
  - reflexivity.
  - left. compute_done.
  - compute_done.
  - exists res. split; [exact Hres|].
    assert (forall how fine coarse,
              length fine = 6%nat ->
              resampled 1 3 how fine coarse ->
              coarse = [how (samples_in 1 3 fine 0);
                        how (samples_in 1 3 fine 1)]) as Hpin.
    { intros how fine coarse Hlen [Hwin Hval]. rewrite Hlen in Hwin.
      destruct coarse as [|a [|b [|c coarse]]].
      - exfalso. pose proof (proj2 (Hwin 0%nat)). simpl in *. lia.
      - exfalso. pose proof (proj2 (Hwin 1%nat)). simpl in *. lia.
      - rewrite (Hval 0%nat a eq_refl), (Hval 1%nat b eq_refl). reflexivity.
      - exfalso. pose proof (proj1 (Hwin 2%nat)). simpl in *. lia. }
    split; [|split].
    + destruct (Hsum (route_key "service_distance" "r")
                  (of_int <$> [3; 3; 3; 5; 5; 2]))
        as (coarse & Hc & Hr); [compute_done..|].
      apply Hpin in Hr; [|reflexivity]. rewrite Hr in Hc.
      replace (of_int <$> [9; 12])
        with [series_sum (samples_in 1 3 (of_int <$> [3; 3; 3; 5; 5; 2]) 0);
              series_sum (samples_in 1 3 (of_int <$> [3; 3; 3; 5; 5; 2]) 1)]
        by compute_done.
      exact Hc.
    + destruct (Hsum (route_key "num_trip_starts" "r")
                  (of_int <$> [1; 0; 0; 1; 0; 0]))
        as (coarse & Hc & Hr); [compute_done..|].
      apply Hpin in Hr; [|reflexivity]. rewrite Hr in Hc.
      replace (of_int <$> [1; 1])
        with [series_sum (samples_in 1 3 (of_int <$> [1; 0; 0; 1; 0; 0]) 0);
              series_sum (samples_in 1 3 (of_int <$> [1; 0; 0; 1; 0; 0]) 1)]
        by compute_done.
      exact Hc.
    + destruct (Hmean (route_key "num_trips" "r")
                  (of_int <$> [1; 1; 1; 2; 2; 1]))
        as (coarse & Hc & Hr); [compute_done..|].
      apply Hpin in Hr; [|reflexivity]. rewrite Hr in Hc.
      replace [of_int 1; fdiv (of_int 5) (of_int 3)]
        with [series_mean (samples_in 1 3 (of_int <$> [1; 1; 1; 2; 2; 1]) 0);
              series_mean (samples_in 1 3 (of_int <$> [1; 1; 1; 2; 2; 1]) 1)]
        by compute_done.
      exact Hc.
Defined.
(** * Further properties *)

(** ** Queries by date *)




(** ** Date strings

    The code compares dates as strings.  For strings that are dates this
    is the chronological order. *)
Lemma digit_val_range (c : ascii) : is_digit c = true -> 0 <= digit_val c <= 9.
Proof. unfold is_digit, digit_val. lia. Qed.

Lemma digits_number_range (s : string) :
  all_digits s = true ->
  0 <= digits_number s < 10 ^ Z.of_nat (String.length s).
Proof.
  induction s as [|c s IH]; [simpl; lia|].
  cbn [all_digits digits_number String.length].
  intros [Hc Hs]%andb_true_iff. specialize (IH Hs).
  pose proof (digit_val_range c Hc).
  rewrite Nat2Z.inj_succ, Z.pow_succ_r by lia. nia.
Qed.

Lemma ascii_compare_digit (c d : ascii) :
  Ascii.compare c d = (digit_val c ?= digit_val d).
Proof.
  unfold Ascii.compare, digit_val.
  destruct (N.compare_spec (N_of_ascii c) (N_of_ascii d));
    symmetry; [apply Z.compare_eq_iff|apply Z.compare_lt_iff
              |apply Z.compare_gt_iff]; lia.
Qed.

(** Strings of digits of one length compare as the numbers they write. *)
Lemma string_compare_digits (s t : string) :
  all_digits s = true -> all_digits t = true ->
  String.length s = String.length t ->
  String.compare s t = (digits_number s ?= digits_number t).
Proof.
  revert t. induction s as [|c s IH]; intros [|d t]; try discriminate.
  - reflexivity.
  - cbn [all_digits digits_number String.length String.compare].
    intros [Hc Hs]%andb_true_iff [Hd Ht]%andb_true_iff [= Hlen].
    rewrite ascii_compare_digit, (IH t Hs Ht Hlen), Hlen.
    pose proof (digits_number_range s Hs) as Rs.
    pose proof (digits_number_range t Ht) as Rt.
    rewrite Hlen in Rs.
    pose proof (digit_val_range c Hc). pose proof (digit_val_range d Hd).
    set (p := 10 ^ Z.of_nat (String.length t)) in *.
    destruct (Z.compare_spec (digit_val c) (digit_val d)) as [Heq|Hlt|Hgt].
    + rewrite Heq.
      destruct (Z.compare_spec (digits_number s) (digits_number t));
        symmetry; [apply Z.compare_eq_iff|apply Z.compare_lt_iff
                  |apply Z.compare_gt_iff]; lia.
    + symmetry. apply Z.compare_lt_iff. nia.
    + symmetry. apply Z.compare_gt_iff. nia.
Qed.

Lemma string_leb_digits (s t : string) :
  all_digits s = true -> all_digits t = true ->
  String.length s = String.length t ->
  String.leb s t = true <-> digits_number s <= digits_number t.
Proof.
  intros Hs Ht Hlen. unfold String.leb.
  rewrite (string_compare_digits s t Hs Ht Hlen).
  destruct (Z.compare_spec (digits_number s) (digits_number t));
    split; intros; try reflexivity; try discriminate; lia.
Qed.

Lemma days_in_month_le (y m : Z) : days_in_month y m <= 31.
Proof.
  unfold days_in_month.
  destruct (m =? 2); [destruct (is_leap y); lia|].
  destruct ((m =? 4) || (m =? 6) || (m =? 9) || (m =? 11)); lia.
Qed.

(** A string that parses as a date is made of eight digits that write the
    number YYYYMMDD. *)
Lemma datestr_to_date_number (x : string) (d : date) :
  datestr_to_date x = Ok d ->
  all_digits x = true /\ String.length x = 8%nat
  /\ digits_number x = year d * 10000 + month d * 100 + day d
  /\ 1 <= month d <= 12 /\ 1 <= day d <= 31.
Proof.
  unfold datestr_to_date. intros H.
  destruct x as [|c1 [|c2 [|c3 [|c4 [|c5 [|c6 [|c7 [|c8 [|c9 x]]]]]]]]];
    cbn [String.length Nat.eqb] in H; try discriminate H.
  cbn [substring digits_val] in H.
  cbn [String.length all_digits digits_number].
  destruct (is_digit c1); [|discriminate H].
  destruct (is_digit c2); [|discriminate H].
  destruct (is_digit c3); [|discriminate H].
  destruct (is_digit c4); [|discriminate H].
  destruct (is_digit c5); [|discriminate H].
  destruct (is_digit c6); [|discriminate H].
  destruct (is_digit c7); [|discriminate H].
  destruct (is_digit c8); [|discriminate H].
  match type of H with
  | (if ?b then _ else _) = _ => destruct b eqn:Hvalid; [|discriminate H]
  end.
  injection H as <-. cbn [year month day andb].
  repeat (apply andb_true_iff in Hvalid as [Hvalid ?]).
  match goal with
  | H : (_ <=? days_in_month ?y ?m) = true |- _ =>
      pose proof (days_in_month_le y m)
  end.
  change (Z.of_nat 7) with 7. change (Z.of_nat 6) with 6.
  change (Z.of_nat 5) with 5. change (Z.of_nat 4) with 4.
  change (Z.of_nat 3) with 3. change (Z.of_nat 2) with 2.
  change (Z.of_nat 1) with 1. change (Z.of_nat 0) with 0.
  repeat split; try reflexivity; lia.
Qed.

(** On date strings the order of strings is the order of dates. *)
Lemma date_string_order (x y : string) (a b : date) :
  datestr_to_date x = Ok a -> datestr_to_date y = Ok b ->
  String.leb x y = true <-> date_le a b.
Proof.
  intros Hx Hy.
  apply datestr_to_date_number in Hx as (Dx & Lx & Nx & Mx & Ax).
  apply datestr_to_date_number in Hy as (Dy & Ly & Ny & My & Ay).
  rewrite (string_leb_digits x y Dx Dy) by congruence.
  rewrite Nx, Ny. unfold date_le. lia.
Qed.

(** ** Service activity *)

(** X6: when the calendar decides, with a start and an end date that are
    dates, the trip is active exactly when the date lies chronologically
    between them, ends included, and the flag of its weekday is 1. *)
Theorem is_active_trip_chronological (d ds de : date) (feed : Feed)
    (trip date service : string) (row : CalendarRow) :
  service_of feed trip = Ok service ->
  exception_for feed service date = None ->
  calendar_entry feed service = Some row ->
  datestr_to_date date = Ok d ->
  datestr_to_date (start_date row) = Ok ds ->
  datestr_to_date (end_date row) = Ok de ->
  is_active_trip feed trip date = Ok true
  <-> date_le ds d /\ date_le d de /\ weekday_flag row (weekday d) = 1.
Proof.
  intros Hs Hex Hrow Hd Hds Hde.
  rewrite (is_active_trip_exception feed trip date service Hs), Hex.
  rewrite check_calendar_entry, Hrow, Hd. simpl. unfold date_in_range.
  rewrite <- (date_string_order _ _ _ _ Hds Hd).
  rewrite <- (date_string_order _ _ _ _ Hd Hde).
  split.
  - intros [= H]. apply andb_true_iff in H as [H1 H2].
    apply andb_true_iff in H1 as [H0 H1].
    apply bool_decide_eq_true_1 in H2. auto.
  - intros (H0 & H1 & H2). rewrite H0, H1. simpl.
    rewrite bool_decide_eq_true_2 by exact H2. reflexivity.
Qed.

(** Trip t1 of the sample feed on Tuesday 7 January 2020. *)
Lemma is_active_trip_chronological_witness :
  is_active_trip sample_feed "t1" "20200107" = Ok true
  <-> date_le {| year := 2020; month := 1; day := 1 |}
              {| year := 2020; month := 1; day := 7 |}
      /\ date_le {| year := 2020; month := 1; day := 7 |}
                 {| year := 2020; month := 1; day := 31 |}
      /\ weekday_flag weekdays_cal
           (weekday {| year := 2020; month := 1; day := 7 |}) = 1.
Proof.
  apply (is_active_trip_chronological _ _ _ sample_feed "t1" "20200107" "wk"
           weekdays_cal); reflexivity.
Defined.

(** When the function raises, on tables as they are modelled. *)
Lemma is_active_trip_raises (feed : Feed) (trip date : string) (e : exn) :
  is_active_trip feed trip date = Raise e <->
  (trips_i feed = None /\ e = AttributeError)
  \/ (exists ti, trips_i feed = Some ti
        /\ (forall t, t ∈ ti -> trip_id t <> trip) /\ e = KeyError)
  \/ (exists service row,
        service_of feed trip = Ok service
        /\ exception_for feed service date = None
        /\ calendar_entry feed service = Some row
        /\ datestr_to_date date = Raise e).
Proof.
  destruct (service_of feed trip) as [service|e'] eqn:Hs.
  - rewrite (is_active_trip_exception feed trip date service Hs).
    assert (trips_i feed <> None /\
            exists t, t ∈ default [] (trips_i feed) /\ trip_id t = trip)
      as [Hti (t & Ht & Hid)].
    { unfold service_of in Hs. destruct (trips_i feed) as [ti|]; [|discriminate].
      split; [discriminate|]. unfold at_key in Hs.
      destruct (List.find _ ti) as [t|] eqn:Hfind; [|discriminate].
      apply find_some in Hfind as [Hin Ht].
      apply bool_decide_eq_true_1 in Ht. apply list_elem_of_In in Hin.
      exists t. auto. }
    split.
    + intros H. right. right.
      destruct (exception_for feed service date) as [r|] eqn:Hex;
        [discriminate|].
      rewrite check_calendar_entry in H.
      destruct (calendar_entry feed service) as [row|] eqn:Hrow;
        [|discriminate].
      destruct (datestr_to_date date) as [d|e0] eqn:Hd; [discriminate|].
      simpl in H. injection H as <-. exists service, row.
      repeat split; first [assumption|reflexivity].
    + intros [[Hn _]|[(ti & Hsome & Hall & _)|(s & row & Hs' & Hex & Hrow & Hd)]].
      * contradiction.
      * rewrite Hsome in Ht. exfalso. apply (Hall t Ht Hid).
      * injection Hs' as <-. rewrite Hex, check_calendar_entry, Hrow, Hd.
        reflexivity.
  - assert (is_active_trip feed trip date = Raise e') as ->
      by (unfold is_active_trip; rewrite Hs; reflexivity).
    unfold service_of in Hs. destruct (trips_i feed) as [ti|] eqn:Hti.
    + unfold at_key in Hs.
      destruct (List.find _ ti) as [t|] eqn:Hfind; [discriminate|].
      injection Hs as <-. split.
      * intros [= <-]. right. left. exists ti. split; [reflexivity|].
        split; [|reflexivity]. intros t Ht Hid.
        apply list_elem_of_In in Ht.
        pose proof (find_none _ _ Hfind _ Ht) as Hno.
        apply bool_decide_eq_false_1 in Hno. contradiction.
      * intros [[Hn _]|[(ti' & _ & _ & ->)|(s & row & Hs' & _)]];
          [discriminate|reflexivity|discriminate].
    + injection Hs as <-. split.
      * intros [= <-]. left. auto.
      * intros [[_ ->]|[(ti' & Hn & _)|(s & row & Hs' & _)]];
          [reflexivity|discriminate|discriminate].
Qed.

(** X7: on a feed whose trip IDs and whose calendar service IDs are unique,
    the keys that the lookups of the function assume, [is_active_trip]
    raises in three situations only: the trips table is absent or empty
    (the lookup frame is [None]); the trip ID is not in the trips table; or
    the date does not parse, which is found out only when no exception row
    decides and the service has a calendar entry. *)
Theorem is_active_trip_errors (feed : Feed) (trip date : string) (e : exn) :
  NoDup (trip_id <$> default [] (trips feed)) ->
  NoDup (cal_service_id <$> default [] (calendar feed)) ->
  is_active_trip feed trip date = Raise e <->
  (trips_i feed = None /\ e = AttributeError)
  \/ (exists ti, trips_i feed = Some ti
        /\ (forall t, t ∈ ti -> trip_id t <> trip) /\ e = KeyError)
  \/ (exists service row,
        service_of feed trip = Ok service
        /\ exception_for feed service date = None
        /\ calendar_entry feed service = Some row
        /\ datestr_to_date date = Raise e).
Proof. intros _ _. apply is_active_trip_raises. Qed.

(** The sample feed has no trip t9: asking for it is a [KeyError] and no
    other error. *)
Lemma is_active_trip_errors_witness :
  is_active_trip sample_feed "t9" "20200107" = Raise KeyError
  /\ is_active_trip sample_feed "t9" "20200107" <> Raise AttributeError.
Proof.
  split; [reflexivity|].
  intros H.
  apply (is_active_trip_errors sample_feed "t9" "20200107" AttributeError)
    in H; [|compute_done..].
  destruct H as [[H _]|[(ti & _ & _ & H)|(service & row & H & _)]];
    discriminate.
Defined.

(** ** The peak count at any time of day *)

Lemma count_active_trips_nonneg (group : list (TripStats Z)) (t : Z) :
  0 <= count_active_trips group t.
Proof. unfold count_active_trips. lia. Qed.

Lemma length_filter_impl {A} (P Q : A -> Prop) `{!forall x, Decision (P x)}
    `{!forall x, Decision (Q x)} (l : list A) :
  (forall x, x ∈ l -> P x -> Q x) ->
  (length (filter P l) <= length (filter Q l))%nat.
Proof.
  induction l as [|x l IH]; intros Himp; [reflexivity|].
  rewrite !filter_cons.
  assert (length (filter P l) <= length (filter Q l))%nat as Hle
    by (apply IH; intros y Hy; apply Himp; right; exact Hy).
  destruct (decide (P x)) as [Hp|Hp]; destruct (decide (Q x)) as [Hq|Hq];
    simpl; try lia.
  exfalso. apply Hq, Himp; [left|exact Hp].
Qed.

(** The trips active at a time are all active at the latest of their start
    times, which is a sampled time. *)
Lemma count_le_sampled (group : list (TripStats Z)) (t : Z) :
  count_active_trips group t = 0
  \/ exists s, s ∈ np_unique (start_end_times group)
               /\ count_active_trips group t <= count_active_trips group s.
Proof.
  set (active := filter (fun r => ts_start_time r <= t /\ ts_end_time r > t)
                   group).
  destruct (list_max (ts_start_time <$> active)) as [s|] eqn:Hmax.
  - right. exists s. apply list_max_spec in Hmax as [Hin Hall].
    apply list_elem_of_fmap in Hin as (r & -> & Hr).
    apply list_elem_of_filter in Hr as [[Hs He] Hr]. split.
    + apply np_unique_spec. unfold start_end_times.
      apply list_elem_of_In, in_flat_map. exists r.
      split; [apply list_elem_of_In, Hr|left; reflexivity].
    + unfold count_active_trips. apply inj_le.
      apply length_filter_impl. intros x Hx [Hxs Hxe]. split.
      * apply Hall. apply list_elem_of_fmap. exists x. split; [reflexivity|].
        apply list_elem_of_filter. auto.
      * lia.
  - left. unfold count_active_trips. fold active.
    destruct active; [reflexivity|discriminate].
Qed.

Lemma StronglySorted_lt_lookup (l : list Z) (i j : nat) (x y : Z) :
  StronglySorted Z.lt l -> (i <= j)%nat ->
  l !! i = Some x -> l !! j = Some y -> x <= y.
Proof.
  intros Hs. revert i j. induction Hs as [|a l Hs IH Hall]; intros i j Hij Hi Hj.
  - discriminate.
  - destruct i as [|i], j as [|j]; simpl in Hi, Hj; try lia.
    + injection Hi as <-. injection Hj as <-. lia.
    + injection Hi as <-. rewrite Forall_forall in Hall.
      apply list_elem_of_lookup_2 in Hj. specialize (Hall y Hj). lia.
    + apply (IH i j); [lia|assumption..].
Qed.

Lemma peak_stats_bounds (group : list (TripStats Z)) (num t0 t1 : Z) :
  peak_stats group = Ok (num, t0, t1) ->
  (forall t, count_active_trips group t <= num)
  /\ count_active_trips group t0 = num
  /\ count_active_trips group t1 = num
  /\ t0 <= t1.
Proof.
  intros Hp.
  assert (group <> []) as Hne by (intros ->; discriminate).
  destruct (peak_stats_spec group Hne)
    as (i & j & num' & t0' & t1' & Hg & Hp' & Hi & Ht0 & Ht1).
  rewrite Hp in Hp'. injection Hp' as <- <- <-.
  set (times := np_unique (start_end_times group)) in *.
  set (counts := count_active_trips group <$> times) in *.
  assert (counts <> []) as Hc by (intros Hnil; rewrite Hnil in Hi; discriminate).
  destruct (get_peak_indices_spec times counts Hc)
    as (i2 & j2 & Hg2 & Hrun & _).
  rewrite Hg in Hg2. injection Hg2 as <- <-.
  destruct (is_max_run_lookup counts i j Hrun) as (m & Hm & Hmi & Hmj).
  rewrite Hi in Hmi. injection Hmi as <-.
  apply list_max_spec in Hm as [Hin Hall].
  split; [|split; [|split]].
  - intros t. destruct (count_le_sampled group t) as [->|(s & Hs & Hle)].
    + apply list_elem_of_fmap in Hin as (s & -> & _).
      apply count_active_trips_nonneg.
    + fold times in Hs. etrans; [exact Hle|]. apply Hall.
      apply list_elem_of_fmap. exists s. auto.
  - unfold counts in Hi. rewrite list_lookup_fmap, Ht0 in Hi.
    injection Hi as ->. reflexivity.
  - unfold counts in Hmj. rewrite list_lookup_fmap, Ht1 in Hmj.
    injection Hmj as ->. reflexivity.
  - destruct Hrun as (_ & _ & Hij & _).
    apply (StronglySorted_lt_lookup times i j); auto.
    apply np_unique_spec.
Qed.

(** X8: the peak number of trips of a route bounds the number of its trips in
    service at every time of day, not only at the sampled start and end
    times, and it is the number in service at both ends of the peak
    window; the window does not end before it starts.  The same holds
    with and without direction-splitting. *)
Theorem peak_bounds_every_time (headway_start headway_end : Z)
    (group : list (TripStats Z)) (d : RouteGroupStats) :
  compute_route_stats headway_start headway_end group = Ok d
  \/ compute_route_stats_split_directions headway_start headway_end group
     = Ok d ->
  (forall t, count_active_trips group t <= d_peak_num_trips d)
  /\ count_active_trips group (d_peak_start_time d) = d_peak_num_trips d
  /\ count_active_trips group (d_peak_end_time d) = d_peak_num_trips d
  /\ d_peak_start_time d <= d_peak_end_time d.
Proof.
  intros H.
  assert (exists num t0 t1,
            peak_stats group = Ok (num, t0, t1)
            /\ d_peak_num_trips d = num /\ d_peak_start_time d = t0
            /\ d_peak_end_time d = t1) as (num & t0 & t1 & Hp & -> & -> & ->).
  { destruct group as [|r rest]; [destruct H; discriminate|].
    unfold compute_route_stats, compute_route_stats_split_directions in H.
    destruct (peak_stats (r :: rest)) as [[[num t0] t1]|e];
      [|destruct H; discriminate].
    exists num, t0, t1. split; [reflexivity|].
    destruct H as [H|H]; simpl in H; injection H as <-; auto. }
  apply peak_stats_bounds, Hp.
Qed.

Lemma peak_bounds_every_time_witness :
  exists d,
    compute_route_stats 25200 68400 sample_group = Ok d
    /\ forall t, count_active_trips sample_group t <= d_peak_num_trips d.
Proof.
  destruct (compute_route_stats 25200 68400 sample_group) as [d|e] eqn:Hd;
    [|vm_compute in Hd; discriminate].
  exists d. split; [reflexivity|].
  apply (peak_bounds_every_time 25200 68400 sample_group d). left. exact Hd.
Defined.

(** ** Order of the headway statistics *)

Lemma np_diff_nonneg (l : list Z) :
  StronglySorted Z.le l -> forall x, x ∈ np_diff l -> 0 <= x.
Proof.
  induction 1 as [|a l Hs IH Hall]; intros x Hx; [inversion Hx|].
  destruct l as [|b l]; [inversion Hx|].
  cbn [np_diff] in Hx. apply elem_of_cons in Hx as [->|Hx]; [|auto].
  apply Forall_cons in Hall as [Hab _]. lia.
Qed.

Lemma headway_times_diff_nonneg (headway_start headway_end : Z)
    (times : list Z) (x : Z) :
  x ∈ np_diff (headway_times headway_start headway_end times) -> 0 <= x.
Proof. apply np_diff_nonneg, sorted_StronglySorted. Qed.

Lemma fold_left_min_spec (l : list Z) (x : Z) :
  let m := fold_left Z.min l x in
  (m = x \/ m ∈ l) /\ m <= x /\ forall y, y ∈ l -> m <= y.
Proof.
  revert x. induction l as [|a l IH]; intros x; simpl.
  - split; [auto|]. split; [lia|]. intros y Hy. inversion Hy.
  - destruct (IH (Z.min x a)) as (Hin & Hle & Hall).
    split; [|split].
    + destruct Hin as [Hm|Hm]; [|right; right; exact Hm].
      destruct (Z.min_spec x a) as [[_ Hx]|[_ Hx]]; rewrite Hx in Hm |- *.
      * left. exact Hm.
      * right. rewrite Hm. left.
    + lia.
    + intros y Hy. apply elem_of_cons in Hy as [->|Hy]; [lia|auto].
Qed.

Lemma list_min_spec (l : list Z) (m : Z) :
  list_min l = Some m -> m ∈ l /\ forall y, y ∈ l -> m <= y.
Proof.
  destruct l as [|x l]; simpl; [discriminate|]. intros [= <-].
  destruct (fold_left_min_spec l x) as (Hin & Hle & Hall). split.
  - destruct Hin as [->|Hin]; [left|right; exact Hin].
  - intros y Hy. apply elem_of_cons in Hy as [->|Hy]; auto.
Qed.

Lemma sum_between (h : list Z) (mn mx : Z) :
  (forall x, x ∈ h -> mn <= x <= mx) ->
  Z.of_nat (length h) * mn <= foldr Z.add 0 h <= Z.of_nat (length h) * mx.
Proof.
  induction h as [|x h IH]; intros H; [simpl; lia|].
  cbn [foldr length]. rewrite Nat2Z.inj_succ.
  assert (mn <= x <= mx) by (apply H; left).
  assert (Z.of_nat (length h) * mn <= foldr Z.add 0 h
          <= Z.of_nat (length h) * mx)
    by (apply IH; intros y Hy; apply H; right; exact Hy).
  lia.
Qed.

Lemma Qc_div_le_mono (a b : Z) (n : Z) :
  0 < n -> a <= b -> (Qc_of_Z a / Qc_of_Z n <= Qc_of_Z b / Qc_of_Z n)%Qc.
Proof.
  intros Hn Hab. unfold Qcdiv.
  assert (0 < / Qc_of_Z n)%Qc as Hpos.
  { apply Qcinv_pos. rewrite <- Z2Qc_inj_0. apply (proj1 (Z2Qc_inj_lt 0 n)).
    exact Hn. }
  apply (proj1 (Qcmult_le_mono_pos_r _ _ _ Hpos)).
  apply (proj1 (Z2Qc_inj_le a b)). exact Hab.
Qed.

Lemma Qc_mean_eq (s n : Z) :
  n <> 0 ->
  (Qc_of_Z s / Qc_of_Z n / Qc_of_Z 60 = Qc_of_Z s / Qc_of_Z (n * 60))%Qc.
Proof.
  intros Hn. rewrite Z2Qc_inj_mul.
  pose proof (Qc_of_Z_nonzero n Hn). 
  assert (Qc_of_Z 60 <> 0%Qc) by (apply Qc_of_Z_nonzero; lia).
  field. auto.
Qed.

Lemma Qc_scale_eq (a n : Z) :
  n <> 0 ->
  (Qc_of_Z a / Qc_of_Z 60 = Qc_of_Z (n * a) / Qc_of_Z (n * 60))%Qc.
Proof.
  intros Hn. rewrite !Z2Qc_inj_mul.
  pose proof (Qc_of_Z_nonzero n Hn).
  assert (Qc_of_Z 60 <> 0%Qc) by (apply Qc_of_Z_nonzero; lia).
  field. auto.
Qed.

(** Headways that are not negative have statistics in order. *)
Lemma headway_stats_ordered (h : list Z) :
  (forall x, x ∈ h -> 0 <= x) -> headways_ordered (headway_stats h).
Proof.
  intros Hpos. destruct (decide (h = [])) as [->|Hne]; [left; reflexivity|].
  right. destruct (headway_stats_nonempty h Hne) as (mx & mn & Hmx & Hmn & ->).
  apply list_max_spec in Hmx as [Hxin Hxall].
  apply list_min_spec in Hmn as [Hnin Hnall].
  rewrite !fdiv_of_int by lia.
  eexists _, _, _. split; [reflexivity|].
  assert (Z.of_nat (length h) <> 0) as Hlen
    by (destruct h; [congruence|cbn [length]; lia]).
  pose proof (sum_between h mn mx) as Hsum.
  destruct Hsum as [Hlo Hhi]; [intros x Hx; split; auto|].
  split; [|split].
  - replace 0%Qc with (Qc_of_Z 0 / Qc_of_Z 60)%Qc by (apply Qc_is_canon; reflexivity).
    apply Qc_div_le_mono; [lia|auto].
  - rewrite (Qc_mean_eq _ _ Hlen), (Qc_scale_eq mn _ Hlen).
    apply Qc_div_le_mono; lia.
  - rewrite (Qc_mean_eq _ _ Hlen), (Qc_scale_eq mx _ Hlen).
    apply Qc_div_le_mono; lia.
Qed.

(** X9: whenever headway statistics are defined they are in order: the minimum
    headway is not negative, the mean lies between the minimum and the
    maximum.  This holds for a route in one direction, for a route over
    both directions, and for a stop. *)
Theorem headways_in_order (headway_start headway_end : Z) :
  (forall group d,
     compute_route_stats_split_directions headway_start headway_end group
     = Ok d -> headways_ordered (d_headway d))
  /\ (forall group d,
        compute_route_stats headway_start headway_end group = Ok d ->
        headways_ordered (d_headway d))
  /\ (forall group,
        headways_ordered
          (sd_headway (compute_stop_stats headway_start headway_end group))).
Proof.
  split; [|split].
  - intros group d Hd.
    assert (group <> []) as Hne by (intros ->; discriminate).
    destruct (compute_route_stats_split_directions_Ok headway_start
                headway_end group Hne) as (d' & Hd' & Hh).
    rewrite Hd in Hd'. injection Hd' as <-. rewrite Hh.
    apply headway_stats_ordered. intros x.
    apply headway_times_diff_nonneg.
  - intros group d Hd.
    assert (group <> []) as Hne by (intros ->; discriminate).
    destruct (compute_route_stats_Ok headway_start headway_end group Hne)
      as (d' & Hd' & Hh).
    rewrite Hd in Hd'. injection Hd' as <-. rewrite Hh.
    apply headway_stats_ordered. intros x Hx.
    apply elem_of_app in Hx as [Hx|Hx];
      apply (headway_times_diff_nonneg _ _ _ _ Hx).
  - intros group. cbn [compute_stop_stats sd_headway].
    apply headway_stats_ordered. intros x.
    apply np_diff_nonneg, sorted_StronglySorted.
Qed.

Lemma headways_in_order_witness :
  exists d,
    compute_route_stats 25200 68400 uneven_group = Ok d
    /\ headways_ordered (d_headway d).
Proof.
  destruct (compute_route_stats 25200 68400 uneven_group) as [d|e] eqn:Hd;
    [|vm_compute in Hd; discriminate].
  exists d. split; [reflexivity|].
  apply (proj1 (proj2 (headways_in_order 25200 68400)) uneven_group d Hd).
Defined.

(** ** Routes and directions *)

Lemma filter_all {A} (P : A -> Prop) `{!forall x, Decision (P x)}
    (l : list A) :
  (forall x, x ∈ l -> P x) -> filter P l = l.
Proof.
  induction l as [|x l IH]; intros Hall; [reflexivity|].
  rewrite filter_cons, decide_True by (apply Hall; left).
  f_equal. apply IH. intros y Hy. apply Hall. right. exact Hy.
Qed.

Lemma filter_none {A} (P : A -> Prop) `{!forall x, Decision (P x)}
    (l : list A) :
  (forall x, x ∈ l -> ~ P x) -> filter P l = [].
Proof.
  induction l as [|x l IH]; intros Hall; [reflexivity|].
  rewrite filter_cons, decide_False by (apply Hall; left).
  apply IH. intros y Hy. apply Hall. right. exact Hy.
Qed.

Lemma remove_dups_const {A} `{EqDecision A} (x : A) (l : list A) :
  l <> [] -> (forall y, y ∈ l -> y = x) -> remove_dups l = [x].
Proof.
  induction l as [|a l IH]; intros Hne Hall; [congruence|].
  assert (a = x) as -> by (apply Hall; left).
  cbn [remove_dups]. destruct l as [|b l].
  - reflexivity.
  - destruct (decide_rel elem_of x (b :: l)) as [_|Hn].
    + apply IH; [discriminate|]. intros y Hy. apply Hall. right. exact Hy.
    + exfalso. apply Hn.
      assert (b = x) as -> by (apply Hall; right; left). left.
Qed.

Lemma direction_headways_all (headway_start headway_end : Z)
    (group : list (TripStats Z)) (dir : Z) :
  (forall r, r ∈ group -> ts_direction_id r = Some dir) ->
  direction_headways headway_start headway_end group dir
  = np_diff (headway_times headway_start headway_end
               (ts_start_time <$> group)).
Proof.
  intros Hall. unfold direction_headways. rewrite filter_all by exact Hall.
  reflexivity.
Qed.

Lemma direction_headways_none (headway_start headway_end : Z)
    (group : list (TripStats Z)) (dir : Z) :
  (forall r, r ∈ group -> ts_direction_id r <> Some dir) ->
  direction_headways headway_start headway_end group dir = [].
Proof.
  intros Hall. unfold direction_headways. rewrite filter_none by exact Hall.
  reflexivity.
Qed.

(** X10: for a route all of whose trips run in one direction, 0 or 1, the
    statistics without direction-splitting are those with
    direction-splitting, with [is_bidirectional] set to 0; the two
    functions also fail alike. *)
Theorem one_direction_same_stats (headway_start headway_end : Z)
    (group : list (TripStats Z)) (dir : Z) :
  dir = 0 \/ dir = 1 ->
  (forall r, r ∈ group -> ts_direction_id r = Some dir) ->
  compute_route_stats headway_start headway_end group
  = d ← compute_route_stats_split_directions headway_start headway_end group;
    Ok (with_bidirectional (Some 0) d).
Proof.
  intros Hdir Hall. destruct group as [|r rest]; [reflexivity|].
  unfold compute_route_stats, compute_route_stats_split_directions.
  destruct (peak_stats (r :: rest)) as [[[num t0] t1]|e]; [|reflexivity].
  cbn [mbind result_bind]. unfold with_bidirectional.
  cbn [d_route_short_name d_num_trips d_is_loop d_start_time d_end_time
       d_headway d_peak_num_trips d_peak_start_time d_peak_end_time
       d_service_distance d_service_duration fold_left].
  rewrite app_nil_l. f_equal. f_equal.
  - rewrite (remove_dups_const (Some dir)); [reflexivity|discriminate|].
    intros y Hy. apply list_elem_of_fmap in Hy as (x & -> & Hx). auto.
  - f_equal. destruct Hdir as [-> | ->].
    + rewrite (direction_headways_all _ _ _ 0 Hall).
      rewrite (direction_headways_none _ _ _ 1), app_nil_r; [reflexivity|].
      intros x Hx. rewrite (Hall x Hx). discriminate.
    + rewrite (direction_headways_all _ _ _ 1 Hall).
      rewrite (direction_headways_none _ _ _ 0); [reflexivity|].
      intros x Hx. rewrite (Hall x Hx). discriminate.
Qed.

Lemma one_direction_same_stats_witness :
  compute_route_stats 25200 68400 (direction_group sample_group 0)
  = d ← compute_route_stats_split_directions 25200 68400
          (direction_group sample_group 0);
    Ok (with_bidirectional (Some 0) d).
Proof.
  apply (one_direction_same_stats 25200 68400 _ 0); [left; reflexivity|].
  intros r Hr. apply list_elem_of_filter in Hr as [Hd _]. exact Hd.
Defined.

(** X11: without direction-splitting only the trips whose direction is 0 or 1
    give headways: a route whose trips have another direction, or none,
    has undefined headways whatever its timetable, although all of its
    trips are counted. *)
Theorem missing_direction_no_headway (headway_start headway_end : Z)
    (group : list (TripStats Z)) (d : RouteGroupStats) :
  (forall r, r ∈ group ->
     ts_direction_id r <> Some 0 /\ ts_direction_id r <> Some 1) ->
  compute_route_stats headway_start headway_end group = Ok d ->
  d_headway d = nan_headway
  /\ d_num_trips d = Z.of_nat (length group).
Proof.
  intros Hall Hd.
  assert (group <> []) as Hne by (intros ->; discriminate).
  destruct (compute_route_stats_Ok headway_start headway_end group Hne)
    as (d' & Hd' & Hh).
  rewrite Hd in Hd'. injection Hd' as <-. split.
  - rewrite Hh, !direction_headways_none; [reflexivity|..];
      intros r Hr; apply (Hall r Hr).
  - destruct group as [|r rest]; [congruence|].
    unfold compute_route_stats in Hd.
    destruct (peak_stats (r :: rest)) as [[[num t0] t1]|e]; [|discriminate].
    simpl in Hd. injection Hd as <-. reflexivity.
Qed.

Lemma missing_direction_no_headway_witness :
  exists d,
    compute_route_stats 25200 68400 undirected_group = Ok d
    /\ d_headway d = nan_headway
    /\ d_num_trips d = 3.
Proof.
  destruct (compute_route_stats 25200 68400 undirected_group) as [d|e] eqn:Hd;
    [|vm_compute in Hd; discriminate].
  exists d. split; [reflexivity|].
  apply (missing_direction_no_headway 25200 68400 undirected_group d);
    [|exact Hd].
  intros r Hr. cbn in Hr.
  repeat (apply elem_of_cons in Hr as [->|Hr]; [split; discriminate|]).
  inversion Hr.
Defined.

(** ** Rows of the route statistics *)

Lemma times_to_seconds_fields (r : TripStats string) (r' : TripStats Z) :
  times_to_seconds r = Ok r' ->
  ts_route_id r' = ts_route_id r /\ ts_direction_id r' = ts_direction_id r
  /\ ts_trip_id r' = ts_trip_id r.
Proof.
  unfold times_to_seconds.
  destruct (timestr_to_seconds (ts_start_time r)); simpl; [|discriminate].
  destruct (timestr_to_seconds (ts_end_time r)); simpl; [|discriminate].
  intros [= <-]. auto.
Qed.

Lemma Forall2_fmap_eq {A B C} (R : A -> B -> Prop) (f : A -> C) (g : B -> C)
    (l : list A) (k : list B) :
  Forall2 R l k -> (forall x y, R x y -> f x = g y) -> f <$> l = g <$> k.
Proof.
  intros HF Hfg. induction HF as [|x y l k Hxy _ IH]; [reflexivity|].
  rewrite !fmap_cons, IH, (Hfg x y Hxy). reflexivity.
Qed.

Lemma Forall2_filter_length {A B} (R : A -> B -> Prop) (P : A -> Prop)
    (Q : B -> Prop) `{!forall x, Decision (P x)} `{!forall y, Decision (Q y)}
    (l : list A) (k : list B) :
  Forall2 R l k -> (forall x y, R x y -> P x <-> Q y) ->
  length (filter P l) = length (filter Q k).
Proof.
  intros HF HPQ. induction HF as [|x y l k Hxy _ IH]; [reflexivity|].
  rewrite !filter_cons. specialize (HPQ x y Hxy).
  destruct (decide (P x)), (decide (Q y)); simpl; try tauto; congruence.
Qed.

(** Counting the rows of a frame group by group: each row with a key is in
    the group of its key and in no other. *)
Lemma count_by_key {A K} `{EqDecision K} (key : A -> option K)
    (ks : list K) (rows : list A) :
  NoDup ks ->
  (forall r k, r ∈ rows -> key r = Some k -> k ∈ ks) ->
  foldr Z.add 0
    ((fun k => Z.of_nat (length (filter (fun r => key r = Some k) rows)))
       <$> ks)
  = Z.of_nat (length (filter (fun r => is_Some (key r)) rows)).
Proof.
  intros Hnd. induction rows as [|r rows IH]; intros Hks.
  - clear Hnd Hks. induction ks as [|k ks IHk]; [reflexivity|].
    cbn [fmap list_fmap foldr]. cbn [fmap] in IHk. rewrite IHk. reflexivity.
  - assert (foldr Z.add 0
              ((fun k => Z.of_nat (length (filter (fun r0 => key r0 = Some k)
                                             (r :: rows)))) <$> ks)
            = foldr Z.add 0
                ((fun k => Z.of_nat (length (filter (fun r0 => key r0 = Some k)
                                               rows))) <$> ks)
              + (if decide (is_Some (key r)) then 1 else 0)) as ->.
    { assert (forall k, key r = Some k -> k ∈ ks) as Hin
        by (intros k Hk; apply (Hks r k); [left|exact Hk]).
      clear IH Hks. induction ks as [|k ks IHk].
      - simpl. destruct (key r) as [k|] eqn:Hk.
        + specialize (Hin k eq_refl). inversion Hin.
        + rewrite decide_False; [reflexivity|]. intros [? ?]. discriminate.
      - apply NoDup_cons in Hnd as [Hk Hnd]. cbn [fmap list_fmap foldr].
        rewrite filter_cons.
        destruct (decide (key r = Some k)) as [Heq|Hne].
        + cbn [length]. rewrite Nat2Z.inj_succ.
          assert (foldr Z.add 0
                    ((fun k0 => Z.of_nat (length (filter
                        (fun r0 => key r0 = Some k0) (r :: rows)))) <$> ks)
                  = foldr Z.add 0
                      ((fun k0 => Z.of_nat (length (filter
                          (fun r0 => key r0 = Some k0) rows))) <$> ks)) as ->.
          { clear IHk Hnd Hin. induction ks as [|k' ks IHk']; [reflexivity|].
            cbn [fmap list_fmap foldr]. rewrite filter_cons.
            rewrite decide_False.
            - f_equal. apply IHk'. intros Hk'. apply Hk. right. exact Hk'.
            - intros Heq'. apply Hk. rewrite Heq in Heq'.
              injection Heq' as ->. left. }
          rewrite decide_True by (rewrite Heq; eauto). lia.
        + rewrite IHk; [lia|exact Hnd|].
          intros k' Hk'. specialize (Hin k' Hk').
          apply elem_of_cons in Hin as [->|Hin]; [contradiction|exact Hin]. }
    rewrite IH by (intros r' k Hr'; apply Hks; right; exact Hr').
    rewrite filter_cons. destruct (decide (is_Some (key r))); cbn [length]; lia.
Qed.

Lemma groupby_keys {A K} `{EqDecision K} (le : relation K)
    `{!RelDecision le} (key : A -> option K) (rows : list A) :
  fst <$> groupby le key rows = merge_sort le (remove_dups (omap key rows)).
Proof.
  unfold groupby. rewrite <- list_fmap_compose. apply list_fmap_id.
Qed.

Lemma groupby_NoDup {A K} `{EqDecision K} (le : relation K)
    `{!RelDecision le} (key : A -> option K) (rows : list A) :
  NoDup (fst <$> groupby le key rows).
Proof.
  rewrite groupby_keys, merge_sort_Permutation. apply NoDup_remove_dups.
Qed.

Lemma elem_of_groupby_keys {A K} `{EqDecision K} (le : relation K)
    `{!RelDecision le} (key : A -> option K) (rows : list A) (k : K) :
  k ∈ fst <$> groupby le key rows <-> exists r, r ∈ rows /\ key r = Some k.
Proof.
  rewrite groupby_keys, merge_sort_Permutation, elem_of_remove_dups.
  apply list_elem_of_omap.
Qed.

Lemma groupby_total_length {A K} `{EqDecision K} (le : relation K)
    `{!RelDecision le} (key : A -> option K) (rows : list A) :
  foldr Z.add 0
    ((fun kg : K * list A => Z.of_nat (length kg.2)) <$> groupby le key rows)
  = Z.of_nat (length (filter (fun r => is_Some (key r)) rows)).
Proof.
  rewrite <- (count_by_key key (fst <$> groupby le key rows) rows).
  - f_equal. unfold groupby. rewrite <- !list_fmap_compose. reflexivity.
  - apply groupby_NoDup.
  - intros r k Hr Hk. apply elem_of_groupby_keys. eauto.
Qed.

Lemma mapM_groups {K} (F : list (TripStats Z) -> result RouteGroupStats)
    (groups : list (K * list (TripStats Z)))
    (g : list (K * RouteGroupStats)) :
  (forall grp d, F grp = Ok d -> d_num_trips d = Z.of_nat (length grp)) ->
  mapM (fun kg => d ← F kg.2; Ok (kg.1, d)) groups = Ok g ->
  fst <$> g = fst <$> groups
  /\ (fun kd : K * RouteGroupStats => d_num_trips kd.2) <$> g
     = (fun kg : K * list (TripStats Z) => Z.of_nat (length kg.2)) <$> groups.
Proof.
  intros HF Hm. apply mapM_Ok_inv in Hm. split; symmetry.
  - apply (Forall2_fmap_eq _ _ _ _ _ Hm). intros kg kd H.
    destruct (F kg.2); simpl in H; [|discriminate]. injection H as <-.
    reflexivity.
  - apply (Forall2_fmap_eq _ _ _ _ _ Hm). intros kg kd H.
    destruct (F kg.2) as [d|] eqn:Hd; simpl in H; [|discriminate].
    injection H as <-. symmetry. apply HF, Hd.
Qed.

Lemma compute_route_stats_num_trips (headway_start headway_end : Z)
    (group : list (TripStats Z)) (d : RouteGroupStats) :
  compute_route_stats headway_start headway_end group = Ok d ->
  d_num_trips d = Z.of_nat (length group).
Proof.
  destruct group as [|r rest]; [discriminate|]. unfold compute_route_stats.
  destruct (peak_stats (r :: rest)) as [[[num t0] t1]|e]; [|discriminate].
  intros [= <-]. reflexivity.
Qed.

Lemma compute_route_stats_split_num_trips (headway_start headway_end : Z)
    (group : list (TripStats Z)) (d : RouteGroupStats) :
  compute_route_stats_split_directions headway_start headway_end group = Ok d ->
  d_num_trips d = Z.of_nat (length group).
Proof.
  destruct group as [|r rest]; [discriminate|].
  unfold compute_route_stats_split_directions.
  destruct (peak_stats (r :: rest)) as [[[num t0] t1]|e]; [|discriminate].
  intros [= <-]. reflexivity.
Qed.

(** The rows, their keys and their trip numbers. *)
Lemma routes_stats_rows_all (trips_stats_subset : list (TripStats string))
    (split_directions : bool) (headway_start_time headway_end_time : string)
    (fr : Frame RouteStats) :
  compute_routes_stats_base trips_stats_subset split_directions
    headway_start_time headway_end_time = Ok fr ->
  let counted :=
    if split_directions
    then filter (fun r => is_Some (ts_direction_id r)) trips_stats_subset
    else trips_stats_subset in
  foldr Z.add 0 (rs_num_trips <$> rows fr) = Z.of_nat (length counted)
  /\ NoDup ((fun row => (rs_route_id row, rs_direction_id row)) <$> rows fr)
  /\ forall route dir,
       (route, dir)
         ∈ (fun row => (rs_route_id row, rs_direction_id row)) <$> rows fr
       <-> exists r, r ∈ counted /\ ts_route_id r = route
                     /\ (if split_directions then ts_direction_id r
                         else None) = dir.
Proof.
  unfold compute_routes_stats_base.
  destruct trips_stats_subset as [|r0 rest] eqn:Hsub.
  { intros [= <-]. simpl. split; [destruct split_directions; reflexivity|].
    split; [constructor|]. intros route dir. split.
    - intros H. inversion H.
    - intros (r & Hr & _). destruct split_directions; inversion Hr. }
  rewrite <- Hsub. clear Hsub r0 rest.
  destruct (mapM times_to_seconds trips_stats_subset) as [f|e] eqn:Hf;
    [|discriminate].
  cbn [mbind result_bind].
  destruct (timestr_to_seconds headway_start_time) as [hs|e];
    [|discriminate].
  destruct (timestr_to_seconds headway_end_time) as [he|e]; [|discriminate].
  cbn [mbind result_bind].
  apply mapM_Ok_inv in Hf.
  destruct split_directions.
  - set (key := fun r : TripStats Z =>
                  d ← ts_direction_id r; Some (ts_route_id r, d)).
    destruct (mapM _ (groupby key_le key f)) as [g|e] eqn:Hg; [|discriminate].
    cbn [mbind result_bind]. intros [= <-]. cbn [rows].
    destruct (mapM_groups _ _ _
                (compute_route_stats_split_num_trips hs he) Hg)
      as [Hkeys Hnum].
    assert (forall r : TripStats Z,
              is_Some (key r) <-> is_Some (ts_direction_id r)) as Hkey.
    { intros r. unfold key. destruct (ts_direction_id r); simpl.
      - split; eauto.
      - split; intros [? ?]; discriminate. }
    split; [|split].
    + rewrite <- list_fmap_compose.
      change (foldr Z.add 0
                ((fun kd : string * Z * RouteGroupStats => d_num_trips kd.2)
                   <$> g) = Z.of_nat (length (filter
                     (fun r => is_Some (ts_direction_id r))
                     trips_stats_subset))).
      rewrite Hnum, groupby_total_length. f_equal. symmetry.
      apply (Forall2_filter_length _ _ _ _ _ Hf). intros x y Hxy.
      apply times_to_seconds_fields in Hxy as (_ & Hd & _).
      rewrite Hkey, Hd. reflexivity.
    + rewrite <- list_fmap_compose.
      assert ((fun row => (rs_route_id row, rs_direction_id row))
                ∘ (fun kd : string * Z * RouteGroupStats =>
                     finish_route_row kd.1.1 (Some kd.1.2)
                       (Z.b2z (bool_decide (1 < length (remove_dups
                          (snd <$> filter (fun k => k.1 = kd.1.1)
                                     (fst <$> g))))%nat)) kd.2)
              = (fun k : string * Z => (k.1, Some k.2)) ∘ fst) as ->
        by reflexivity.
      rewrite list_fmap_compose, Hkeys.
      apply NoDup_fmap_2; [|apply groupby_NoDup].
      intros [a b] [a' b']. simpl. congruence.
    + intros route dir. rewrite <- list_fmap_compose.
      assert ((fun row => (rs_route_id row, rs_direction_id row))
                ∘ (fun kd : string * Z * RouteGroupStats =>
                     finish_route_row kd.1.1 (Some kd.1.2)
                       (Z.b2z (bool_decide (1 < length (remove_dups
                          (snd <$> filter (fun k => k.1 = kd.1.1)
                                     (fst <$> g))))%nat)) kd.2)
              = (fun k : string * Z => (k.1, Some k.2)) ∘ fst) as ->
        by reflexivity.
      rewrite list_fmap_compose, Hkeys, list_elem_of_fmap. split.
      * intros ([a b] & [= -> ->] & Hk).
        apply elem_of_groupby_keys in Hk as (y & Hy & Hky).
        destruct (Forall2_elem_of_r _ _ _ _ Hf Hy) as (x & Hx & Hxy).
        apply times_to_seconds_fields in Hxy as (Hr & Hd & _).
        unfold key in Hky. destruct (ts_direction_id y) as [dy|] eqn:Hdy;
          [|discriminate]. simpl in Hky. injection Hky as <- <-.
        exists x. split; [|split; congruence].
        apply list_elem_of_filter. split; [|exact Hx]. rewrite <- Hd. eauto.
      * intros (x & Hx & <- & <-).
        apply list_elem_of_filter in Hx as [[dx Hdx] Hx].
        assert (exists y, y ∈ f /\ times_to_seconds x = Ok y) as (y & Hy & Hxy).
        { clear -Hf Hx. induction Hf as [|a b l k Hab _ IH]; [inversion Hx|].
          apply elem_of_cons in Hx as [->|Hx].
          - exists b. split; [left|exact Hab].
          - destruct (IH Hx) as (y & Hy & Hxy). exists y. split; [right|]; auto. }
        apply times_to_seconds_fields in Hxy as (Hr & Hd & _).
        exists (ts_route_id x, dx). split; [simpl; congruence|].
        apply elem_of_groupby_keys. exists y. split; [exact Hy|].
        unfold key. rewrite Hd, Hdx, Hr. reflexivity.
  - set (key := fun r : TripStats Z => Some (ts_route_id r)).
    destruct (mapM _ (groupby str_le key f)) as [g|e] eqn:Hg; [|discriminate].
    cbn [mbind result_bind]. intros [= <-]. cbn [rows].
    destruct (mapM_groups _ _ _ (compute_route_stats_num_trips hs he) Hg)
      as [Hkeys Hnum].
    split; [|split].
    + rewrite <- list_fmap_compose.
      change (foldr Z.add 0
                ((fun kd : string * RouteGroupStats => d_num_trips kd.2) <$> g)
              = Z.of_nat (length trips_stats_subset)).
      rewrite Hnum, groupby_total_length.
      rewrite filter_all by (intros; unfold key; eauto).
      f_equal. symmetry. apply (Forall2_length _ _ _ Hf).
    + rewrite <- list_fmap_compose.
      assert ((fun row => (rs_route_id row, rs_direction_id row))
                ∘ (fun kd : string * RouteGroupStats =>
                     finish_route_row kd.1 None
                       (default 0 (d_is_bidirectional kd.2)) kd.2)
              = (fun k : string => (k, None)) ∘ fst) as -> by reflexivity.
      rewrite list_fmap_compose, Hkeys.
      apply NoDup_fmap_2; [|apply groupby_NoDup].
      intros a a'. congruence.
    + intros route dir. rewrite <- list_fmap_compose.
      assert ((fun row => (rs_route_id row, rs_direction_id row))
                ∘ (fun kd : string * RouteGroupStats =>
                     finish_route_row kd.1 None
                       (default 0 (d_is_bidirectional kd.2)) kd.2)
              = (fun k : string => (k, None)) ∘ fst) as -> by reflexivity.
      rewrite list_fmap_compose, Hkeys, list_elem_of_fmap. split.
      * intros (a & [= -> ->] & Hk).
        apply elem_of_groupby_keys in Hk as (y & Hy & Hky).
        destruct (Forall2_elem_of_r _ _ _ _ Hf Hy) as (x & Hx & Hxy).
        apply times_to_seconds_fields in Hxy as (Hr & _).
        unfold key in Hky. injection Hky as <-.
        exists x. split; [exact Hx|]. split; [congruence|reflexivity].
      * intros (x & Hx & <- & <-).
        assert (exists y, y ∈ f /\ times_to_seconds x = Ok y) as (y & Hy & Hxy).
        { clear -Hf Hx. induction Hf as [|a b l k Hab _ IH]; [inversion Hx|].
          apply elem_of_cons in Hx as [->|Hx].
          - exists b. split; [left|exact Hab].
          - destruct (IH Hx) as (y & Hy & Hxy). exists y. split; [right|]; auto. }
        apply times_to_seconds_fields in Hxy as (Hr & _).
        exists (ts_route_id x). split; [reflexivity|].
        apply elem_of_groupby_keys. exists y. split; [exact Hy|].
        unfold key. rewrite Hr. reflexivity.
Qed.

(** X12: the rows of the route statistics: one row for each route, or with
    direction-splitting for each route and direction, that occurs among the
    trips, and the trip numbers of the rows add up to the number of the
    trips.  With direction-splitting the trips without a direction are in
    no row. *)
Theorem routes_stats_rows (trips_stats_subset : list (TripStats string))
    (split_directions : bool) (headway_start_time headway_end_time : string)
    (fr : Frame RouteStats) :
  compute_routes_stats_base trips_stats_subset split_directions
    headway_start_time headway_end_time = Ok fr ->
  let counted :=
    if split_directions
    then filter (fun r => is_Some (ts_direction_id r)) trips_stats_subset
    else trips_stats_subset in
  foldr Z.add 0 (rs_num_trips <$> rows fr) = Z.of_nat (length counted)
  /\ NoDup ((fun row => (rs_route_id row, rs_direction_id row)) <$> rows fr)
  /\ forall route dir,
       (route, dir)
         ∈ (fun row => (rs_route_id row, rs_direction_id row)) <$> rows fr
       <-> exists r, r ∈ counted /\ ts_route_id r = route
                     /\ (if split_directions then ts_direction_id r
                         else None) = dir.
Proof. apply routes_stats_rows_all. Qed.

(** With direction-splitting, the trip without a direction of the sample
    is in no row: the rows count two trips. *)
Lemma routes_stats_rows_witness :
  exists fr,
    compute_routes_stats_base sample_trips_stats true "07:00:00" "19:00:00"
    = Ok fr
    /\ foldr Z.add 0 (rs_num_trips <$> rows fr) = 2.
Proof.
  destruct (compute_routes_stats_base sample_trips_stats true "07:00:00"
              "19:00:00") as [fr|e] eqn:H; [|vm_compute in H; discriminate].
  exists fr. split; [reflexivity|].
  exact (proj1 (routes_stats_rows _ _ _ _ fr H)).
Defined.

(** ** Binning and the time of day *)

Lemma bin_of_day (seconds k : Z) : bin_of (seconds + 86400 * k) = bin_of seconds.
Proof.
  unfold bin_of. f_equal.
  replace (seconds + 86400 * k) with (seconds + (1440 * k) * 60) by lia.
  rewrite Z.div_add by lia.
  change (24 * 60) with 1440. rewrite Z.mul_comm. apply Z_mod_plus_full.
Qed.

(** X13: only the time of day of the start and of the end of a trip matters to
    the binning: moving either by whole days changes nothing.  So a trip
    that runs for one hour and a trip that runs for twenty-five hours from
    the same start are binned alike. *)
Theorem bin_trip_time_of_day (row : TripStats Z) (k1 k2 : Z)
    (series : gmap string (gmap string (list np_float))) :
  bin_trip (with_times row (ts_start_time row + 86400 * k1)
              (ts_end_time row + 86400 * k2)) series
  = bin_trip row series.
Proof.
  unfold bin_trip.
  cbn [with_times ts_route_id ts_start_time ts_end_time ts_distance].
  rewrite !bin_of_day. reflexivity.
Qed.

(** ** Totals of the binned series *)

Lemma np_sum_cons (x : np_float) (l : list np_float) :
  np_sum (x :: l) = fadd x (np_sum l).
Proof. reflexivity. Qed.

Lemma qsum_cons (q : Qc) (l : list Qc) : qsum (q :: l) = (q + qsum l)%Qc.
Proof. reflexivity. Qed.

Lemma np_sum_fin (l : list np_float) :
  Forall is_fin l -> np_sum l = Fin (qsum (fin_value <$> l)).
Proof.
  induction 1 as [|x l [q ->] _ IH].
  - unfold np_sum, of_int. simpl. rewrite Z2Qc_inj_0. reflexivity.
  - rewrite np_sum_cons, IH. reflexivity.
Qed.

Lemma alter_fin (w : Qc) (bin : nat) (l : list np_float) :
  Forall is_fin l -> Forall is_fin (alter (fun x => fadd x (Fin w)) bin l).
Proof.
  intros H. revert bin. induction H as [|x l [q ->] Hl IH]; intros bin.
  - constructor.
  - destruct bin as [|bin]; simpl.
    + constructor; [eexists; reflexivity|assumption].
    + constructor; [eexists; reflexivity|apply IH].
Qed.

Lemma alter_total (w : Qc) (bin : nat) (l : list np_float) :
  Forall is_fin l -> (bin < length l)%nat ->
  qsum (fin_value <$> alter (fun x => fadd x (Fin w)) bin l)
  = (qsum (fin_value <$> l) + w)%Qc.
Proof.
  intros H. revert bin. induction H as [|x l [q ->] _ IH]; intros bin Hlt.
  - simpl in Hlt. lia.
  - destruct bin as [|bin].
    + change (alter (fun x => fadd x (Fin w)) 0%nat (Fin q :: l))
        with (Fin (q + w) :: l).
      rewrite !fmap_cons, !qsum_cons. cbn [fin_value]. ring.
    + change (alter (fun x => fadd x (Fin w)) (S bin) (Fin q :: l))
        with (Fin q :: alter (fun x => fadd x (Fin w)) bin l).
      simpl in Hlt. rewrite !fmap_cons, !qsum_cons, IH by lia. ring.
Qed.

Lemma fill_list (w : Qc) (filled : list nat) (l : list np_float) :
  Forall is_fin l -> (forall b, b ∈ filled -> (b < length l)%nat) ->
  let l' := fold_left (fun l b => alter (fun x => fadd x (Fin w)) b l)
              filled l in
  Forall is_fin l' /\ length l' = length l
  /\ qsum (fin_value <$> l')
     = (qsum (fin_value <$> l) + Qc_of_Z (Z.of_nat (length filled)) * w)%Qc.
Proof.
  revert l. induction filled as [|b filled IH]; intros l Hfin Hlt; simpl.
  - split; [assumption|]. split; [reflexivity|].
    change (Z.of_nat 0) with 0. rewrite Z2Qc_inj_0. ring.
  - destruct (IH (alter (fun x => fadd x (Fin w)) b l)) as (H1 & H2 & H3).
    + apply alter_fin, Hfin.
    + intros b' Hb'. rewrite length_alter. apply Hlt. right. exact Hb'.
    + split; [exact H1|]. split; [rewrite H2; apply length_alter|].
      rewrite H3, alter_total by (auto; apply Hlt; left).
      rewrite Nat2Z.inj_succ, <- Z.add_1_r, Z2Qc_inj_add, Z2Qc_inj_1.
      ring.
Qed.

Lemma values_add_weight (series : gmap string (gmap string (list np_float)))
    (ind route : string) (bin : nat) (w : np_float) (ind' route' : string) :
  series_values (add_weight ind route bin w series) ind' route'
  = if decide (ind' = ind /\ route' = route)
    then alter (fun x => fadd x w) bin (series_values series ind route)
    else series_values series ind' route'.
Proof.
  unfold series_values, add_weight.
  destruct (decide (ind = ind')) as [<-|Hi].
  - rewrite lookup_alter_eq.
    destruct (series !! ind) as [by_route|]; simpl.
    + destruct (decide (route = route')) as [<-|Hr].
      * rewrite lookup_alter_eq, decide_True by auto.
        destruct (by_route !! route); reflexivity.
      * rewrite lookup_alter_ne by exact Hr.
        rewrite decide_False; [reflexivity|]. intros [_ ?]. congruence.
    + case_decide; reflexivity.
  - rewrite lookup_alter_ne by exact Hi.
    rewrite decide_False; [reflexivity|]. intros [? _]. congruence.
Qed.

Lemma values_fill (filled : list nat)
    (series : gmap string (gmap string (list np_float)))
    (ind route : string) (w : np_float) (ind' route' : string) :
  series_values
    (fold_left (fun s bin => add_weight ind route bin w s) filled series)
    ind' route'
  = if decide (ind' = ind /\ route' = route)
    then fold_left (fun l b => alter (fun x => fadd x w) b l) filled
           (series_values series ind route)
    else series_values series ind' route'.
Proof.
  revert series. induction filled as [|b filled IH]; intros series.
  - simpl. case_decide as H; [destruct H as [-> ->]|]; reflexivity.
  - cbn [fold_left]. rewrite IH, !values_add_weight.
    rewrite (decide_True (P := ind = ind /\ route = route)) by auto.
    case_decide; reflexivity.
Qed.

Ltac decide_keys :=
  repeat first
    [ rewrite decide_True by auto
    | rewrite decide_False
        by (intros [? ?]; first [discriminate | congruence | tauto]) ].

(** The series of a route stay complete and finite through the loop. *)
Lemma bin_trip_values (row : TripStats Z)
    (series : gmap string (gmap string (list np_float)))
    (route ind : string) :
  ind ∈ indicators ->
  (forall i, i ∈ indicators ->
     Forall is_fin (series_values series i route)
     /\ length (series_values series i route) = num_bins) ->
  is_fin (ts_distance row) ->
  Forall is_fin (series_values (bin_trip row series) ind route)
  /\ length (series_values (bin_trip row series) ind route) = num_bins
  /\ qsum (fin_value <$> series_values (bin_trip row series) ind route)
     = (qsum (fin_value <$> series_values series ind route)
        + (if decide (ts_route_id row = route /\ binned row)
           then contribution ind row else 0))%Qc.
Proof.
  intros Hind Hinv [q Hq].
  destruct (Hinv ind Hind) as [Hfin Hlen].
  destruct (decide (binned row)) as [Hb|Hb].
  2:{ unfold bin_trip. rewrite bool_decide_eq_true_2
        by (unfold binned in Hb; destruct (decide (bin_of (ts_start_time row)
              = bin_of (ts_end_time row))); [assumption|contradiction]).
      split; [exact Hfin|]. split; [exact Hlen|].
      rewrite decide_False by tauto. ring. }
  rewrite (bin_trip_unfold row series Hb).
  pose proof (bin_of_lt (ts_start_time row)) as Hs.
  pose proof (bin_of_lt (ts_end_time row)) as He.
  pose proof (length_bins_to_fill _ _ Hs He) as Hfill.
  assert (forall b, b ∈ bins_to_fill (bin_of (ts_start_time row))
                          (bin_of (ts_end_time row)) -> (b < num_bins)%nat)
    as Hbins.
  { intros b Hin. apply elem_of_bins_to_fill in Hin; [|assumption..].
    unfold in_fill in Hin. case_bool_decide; lia. }
  assert (0 < minutes_filled row) as Hpos.
  { unfold minutes_filled, fill_size, binned, num_bins in *.
    case_bool_decide; lia. }
  set (filled := bins_to_fill (bin_of (ts_start_time row))
                   (bin_of (ts_end_time row))) in *.
  assert (Z.of_nat (length filled) = minutes_filled row) as Hmin
    by (unfold minutes_filled; rewrite Hfill; reflexivity).
  rewrite Hq.
  rewrite (fdiv_of_int 1 60) by lia.
  rewrite (fdiv_Fin_of_int q (Z.of_nat (length filled))) by lia.
  change (of_int 1) with (Fin (Qc_of_Z 1)).
  repeat first [rewrite values_fill | rewrite values_add_weight].
  destruct (decide (ts_route_id row = route)) as [Hr|Hr].
  2:{ decide_keys. split; [exact Hfin|]. split; [exact Hlen|]. ring. }
  subst route. unfold contribution.
  assert (Qc_of_Z 60 <> 0%Qc) as Q60 by (apply Qc_of_Z_nonzero; lia).
  assert (Qc_of_Z (Z.of_nat (length filled)) <> 0%Qc) as Qlen
    by (apply Qc_of_Z_nonzero; lia).
  unfold indicators in Hind.
  repeat (apply elem_of_cons in Hind as [->|Hind]);
    [| | | |inversion Hind]; decide_keys.
  - (* num_trip_starts *)
    split; [apply alter_fin, Hfin|]. split; [rewrite length_alter; exact Hlen|].
    rewrite alter_total by (auto; rewrite Hlen; exact Hs).
    rewrite bool_decide_eq_true_2 by reflexivity.
    rewrite Z2Qc_inj_1. reflexivity.
  - (* num_trips *)
    destruct (fill_list (Qc_of_Z 1) filled
                (series_values series "num_trips" (ts_route_id row)) Hfin)
      as (H1 & H2 & H3).
    { intros b Hin. rewrite Hlen. apply Hbins, Hin. }
    split; [exact H1|]. split; [rewrite H2; exact Hlen|].
    rewrite H3, Hmin. rewrite bool_decide_eq_false_2 by discriminate.
    rewrite bool_decide_eq_true_2 by reflexivity.
    rewrite Z2Qc_inj_1. ring.
  - (* service_duration *)
    destruct (fill_list (Qc_of_Z 1 / Qc_of_Z 60) filled
                (series_values series "service_duration" (ts_route_id row))
                Hfin) as (H1 & H2 & H3).
    { intros b Hin. rewrite Hlen. apply Hbins, Hin. }
    split; [exact H1|]. split; [rewrite H2; exact Hlen|].
    rewrite H3, Hmin. rewrite !bool_decide_eq_false_2 by discriminate.
    rewrite bool_decide_eq_true_2 by reflexivity.
    rewrite Z2Qc_inj_1. field. exact Q60.
  - (* service_distance *)
    destruct (fill_list (q / Qc_of_Z (Z.of_nat (length filled))) filled
                (series_values series "service_distance" (ts_route_id row))
                Hfin) as (H1 & H2 & H3).
    { intros b Hin. rewrite Hlen. apply Hbins, Hin. }
    split; [exact H1|]. split; [rewrite H2; exact Hlen|].
    rewrite H3. rewrite !bool_decide_eq_false_2 by discriminate.
    rewrite Hq. cbn [fin_value]. field. exact Qlen.
Qed.

Lemma list_to_map_keys {V} (f : string -> V) (ks : list string) (k : string) :
  k ∈ ks ->
  (list_to_map ((fun k => (k, f k)) <$> ks) : gmap string V) !! k
  = Some (f k).
Proof.
  induction ks as [|a ks IH]; intros Hk; [inversion Hk|].
  rewrite fmap_cons, list_to_map_cons.
  destruct (decide (a = k)) as [->|Hne].
  - apply lookup_insert_eq.
  - rewrite lookup_insert_ne by exact Hne. apply IH.
    apply elem_of_cons in Hk as [->|Hk]; [congruence|exact Hk].
Qed.

Lemma zero_series_values (routes : list string) (ind route : string) :
  ind ∈ indicators -> route ∈ routes ->
  series_values (zero_series routes) ind route
  = (fun _ => of_int 0) <$> bins.
Proof.
  intros Hi Hr. unfold series_values, zero_series.
  rewrite (list_to_map_keys
             (fun _ => list_to_map
                ((fun route => (route, (fun _ => of_int 0) <$> bins))
                   <$> routes)) indicators ind Hi).
  cbn [mbind option_bind].
  rewrite (list_to_map_keys (fun _ => (fun _ => of_int 0) <$> bins)
             routes route Hr).
  reflexivity.
Qed.

Lemma zeros_fin (l : list nat) :
  Forall is_fin ((fun _ => of_int 0) <$> l)
  /\ qsum (fin_value <$> ((fun _ => of_int 0) <$> l)) = 0%Qc.
Proof.
  induction l as [|x l [IH1 IH2]]; [split; [constructor|reflexivity]|].
  rewrite !fmap_cons, qsum_cons, IH2. split.
  - constructor; [eexists; reflexivity|exact IH1].
  - cbn [fin_value of_int]. rewrite Z2Qc_inj_0. ring.
Qed.

(** The totals after the loop over the trips: what the trips of the route
    that are binned contribute. *)
Lemma binning_totals (tss : list (TripStats Z))
    (series : gmap string (gmap string (list np_float))) (route : string) :
  (forall r, r ∈ tss -> is_fin (ts_distance r)) ->
  (forall i, i ∈ indicators ->
     Forall is_fin (series_values series i route)
     /\ length (series_values series i route) = num_bins) ->
  forall ind, ind ∈ indicators ->
    let series' := fold_left (fun s row => bin_trip row s) tss series in
    Forall is_fin (series_values series' ind route)
    /\ length (series_values series' ind route) = num_bins
    /\ qsum (fin_value <$> series_values series' ind route)
       = (qsum (fin_value <$> series_values series ind route)
          + qsum (contribution ind <$> binned_trips tss route))%Qc.
Proof.
  revert series. induction tss as [|row tss IH]; intros series Hfin Hinv ind Hind.
  - destruct (Hinv ind Hind) as [H1 H2]. cbn [fold_left].
    split; [exact H1|]. split; [exact H2|]. unfold binned_trips.
    rewrite filter_nil. change (qsum (contribution ind <$> [])) with 0%Qc.
    ring.
  - cbn [fold_left].
    assert (forall i, i ∈ indicators ->
              Forall is_fin (series_values (bin_trip row series) i route)
              /\ length (series_values (bin_trip row series) i route)
                 = num_bins) as Hinv'.
    { intros i Hi.
      destruct (bin_trip_values row series route i Hi Hinv) as (H1 & H2 & _);
        [apply Hfin; left|]. auto. }
    destruct (IH (bin_trip row series)
                (fun r Hr => Hfin r (list_elem_of_further _ _ _ Hr)) Hinv'
                ind Hind) as (H1 & H2 & H3).
    split; [exact H1|]. split; [exact H2|].
    rewrite H3.
    destruct (bin_trip_values row series route ind Hind Hinv) as (_ & _ & H4);
      [apply Hfin; left|].
    rewrite H4. unfold binned_trips. rewrite filter_cons.
    case_decide; [rewrite fmap_cons, qsum_cons|]; ring.
Qed.

Lemma qsum_ones {A} (l : list A) :
  qsum ((fun _ => 1%Qc) <$> l) = Qc_of_Z (Z.of_nat (length l)).
Proof.
  induction l as [|x l IH]; [symmetry; apply Z2Qc_inj_0|].
  rewrite fmap_cons, qsum_cons, IH. cbn [length].
  rewrite Nat2Z.inj_succ, <- Z.add_1_r, Z2Qc_inj_add, Z2Qc_inj_1. ring.
Qed.

Lemma qsum_of_Z {A} (f : A -> Z) (l : list A) :
  qsum ((fun x => Qc_of_Z (f x)) <$> l) = Qc_of_Z (foldr Z.add 0 (f <$> l)).
Proof.
  induction l as [|x l IH]; [symmetry; apply Z2Qc_inj_0|].
  rewrite !fmap_cons, qsum_cons, IH. cbn [foldr].
  rewrite Z2Qc_inj_add. reflexivity.
Qed.

(** X14: binning counts every trip that it bins once.  After the loop over the
    trip stats, the series of a route hold one value per minute of the day,
    and over the day the trip starts add up to the number of the binned
    trips of the route and the trips in service to the minutes that these
    trips fill.  Both are sums of whole numbers, which are exact in
    floating point too. *)
Theorem binning_conserves (tss : list (TripStats Z)) (routes : list string)
    (route : string) :
  route ∈ routes ->
  (forall r, r ∈ tss -> is_fin (ts_distance r)) ->
  let series :=
    fold_left (fun s row => bin_trip row s) tss (zero_series routes) in
  let mine := binned_trips tss route in
  (forall ind, ind ∈ indicators ->
     length (series_values series ind route) = num_bins)
  /\ np_sum (series_values series "num_trip_starts" route)
     = of_int (Z.of_nat (length mine))
  /\ np_sum (series_values series "num_trips" route)
     = of_int (foldr Z.add 0 (minutes_filled <$> mine)).
Proof.
  intros Hr Hfin series mine.
  assert (forall i, i ∈ indicators ->
            Forall is_fin (series_values (zero_series routes) i route)
            /\ length (series_values (zero_series routes) i route) = num_bins)
    as Hinv.
  { intros i Hi. rewrite (zero_series_values routes i route Hi Hr).
    split; [apply zeros_fin|]. rewrite length_fmap. apply length_seq. }
  assert (forall ind, ind ∈ indicators ->
            length (series_values series ind route) = num_bins
            /\ np_sum (series_values series ind route)
               = Fin (qsum (contribution ind <$> mine))) as Htot.
  { intros ind Hind. unfold series, mine.
    destruct (binning_totals tss (zero_series routes) route Hfin Hinv ind Hind)
      as (H1 & H2 & H3).
    split; [exact H2|]. rewrite (np_sum_fin _ H1). f_equal.
    rewrite H3.
    rewrite (zero_series_values routes ind route Hind Hr).
    rewrite (proj2 (zeros_fin bins)). ring. }
  split; [intros ind Hind; apply Htot, Hind|].
  assert ("num_trip_starts" ∈ indicators) as I1 by compute_done.
  assert ("num_trips" ∈ indicators) as I2 by compute_done.
  split.
  - rewrite (proj2 (Htot _ I1)).
    unfold of_int. f_equal. apply (qsum_ones mine).
  - rewrite (proj2 (Htot _ I2)).
    unfold of_int. f_equal. apply (qsum_of_Z minutes_filled mine).
Qed.

(** One trip from 23:55:00 to 24:05:00 of route r: it is in service for
    ten minutes of the day, five of them after midnight. *)
Lemma binning_conserves_witness :
  np_sum (series_values
            (fold_left (fun s row => bin_trip row s) [sample_trip_stats]
               (zero_series ["r"])) "num_trips" "r")
  = of_int 10.
Proof.
  destruct (binning_conserves [sample_trip_stats] ["r"] "r")
    as (_ & _ & H).
  - left.
  - intros r Hr. apply list_elem_of_singleton in Hr. subst r.
    eexists. reflexivity.
  - exact H.
Defined.

(** ** Totals under downsampling *)

Lemma enumerate_snd {A} (s : Z) (values : list A) :
  snd <$> enumerate s values = values.
Proof.
  revert s. induction values as [|x values IH]; intros s; [reflexivity|].
  cbn [enumerate]. rewrite fmap_cons, IH. reflexivity.
Qed.

(** A value is in one window only: over distinct window numbers that
    include the one of a sample, the sample is counted once. *)
Lemma qsum_one_window (f : Z -> Qc) (v : Qc) (k : Z) (js : list Z) :
  NoDup js -> k ∈ js ->
  qsum ((fun j => if decide (k = j) then (v + f j)%Qc else f j) <$> js)
  = (v + qsum (f <$> js))%Qc.
Proof.
  induction 1 as [|j js Hj Hnd IH]; intros Hk; [inversion Hk|].
  rewrite !fmap_cons, !qsum_cons.
  destruct (decide (k = j)) as [->|Hne].
  - assert (qsum ((fun j0 => if decide (j = j0) then (v + f j0)%Qc else f j0)
                    <$> js) = qsum (f <$> js)) as ->; [|ring].
    f_equal. apply list_fmap_ext. intros i x Hx.
    rewrite decide_False; [reflexivity|]. intros ->.
    apply Hj. eapply list_elem_of_lookup_2, Hx.
  - apply elem_of_cons in Hk as [Hk|Hk]; [contradiction|].
    rewrite (IH Hk). ring.
Qed.

Lemma qsum_windows (key : Z * np_float -> Z) (ps : list (Z * np_float))
    (js : list Z) :
  NoDup js -> (forall p, p ∈ ps -> key p ∈ js) ->
  qsum ((fun j => qsum (fin_value <$>
                          (snd <$> filter (fun p => key p = j) ps))) <$> js)
  = qsum (fin_value <$> (snd <$> ps)).
Proof.
  intros Hnd. induction ps as [|p ps IH]; intros Hkeys.
  - clear Hnd Hkeys. induction js as [|j js IHj]; [reflexivity|].
    rewrite fmap_cons, qsum_cons, IHj, filter_nil.
    change (qsum (fin_value <$> (snd <$> []))) with 0%Qc. ring.
  - rewrite !fmap_cons, qsum_cons.
    rewrite <- IH by (intros q Hq; apply Hkeys; right; exact Hq).
    rewrite <- (qsum_one_window _ (fin_value p.2) (key p) js Hnd)
      by (apply Hkeys; left).
    f_equal. apply list_fmap_ext. intros i j _.
    rewrite filter_cons.
    destruct (decide (key p = j)) as [Hk|Hk]; [|reflexivity].
    rewrite !fmap_cons, qsum_cons. reflexivity.
Qed.

Lemma window_key_step (native freq : Z) (i : Z) :
  0 < native -> native <= freq -> 0 <= i ->
  i * native / freq <= (i + 1) * native / freq <= i * native / freq + 1.
Proof.
  intros Hn Hf Hi. split.
  - apply Z.div_le_mono; lia.
  - replace (i * native / freq + 1) with ((i * native + 1 * freq) / freq)
      by (rewrite Z.div_add by lia; reflexivity).
    apply Z.div_le_mono; lia.
Qed.

(** When the windows are at least as long as the spacing of the samples,
    no window before the last is empty. *)
Lemma window_key_onto (native freq : Z) (i : nat) (j : Z) :
  0 < native -> native <= freq ->
  0 <= j <= Z.of_nat i * native / freq ->
  exists i' : nat, (i' <= i)%nat /\ Z.of_nat i' * native / freq = j.
Proof.
  intros Hn Hf. induction i as [|i IH]; intros Hj.
  - exists 0%nat. split; [lia|]. simpl in *. rewrite Z.div_0_l in *; lia.
  - pose proof (window_key_step native freq (Z.of_nat i) Hn Hf) as Hstep.
    rewrite Nat2Z.inj_succ, <- Z.add_1_r in Hj.
    destruct (decide (j <= Z.of_nat i * native / freq)) as [Hle|Hgt].
    + destruct IH as (i' & Hi' & Hk); [lia|]. exists i'. split; [lia|exact Hk].
    + exists (S i). split; [lia|].
      rewrite Nat2Z.inj_succ, <- Z.add_1_r. lia.
Qed.

Lemma window_fin (native freq : Z) (values : list np_float) (j : Z) :
  Forall is_fin values -> Forall is_fin (window native freq values j).
Proof.
  intros Hfin. unfold window. apply Forall_fmap, Forall_forall.
  intros [i x] Hp. apply list_elem_of_filter in Hp as [_ Hp]. simpl.
  rewrite Forall_forall in Hfin. apply Hfin.
  rewrite <- (enumerate_snd 0 values). apply list_elem_of_fmap.
  exists (i, x). auto.
Qed.

Lemma series_sum_fin (l : list np_float) :
  l <> [] -> Forall is_fin l -> series_sum l = Fin (qsum (fin_value <$> l)).
Proof.
  intros Hne Hfin.
  rewrite (proj1 (series_sum_mean_plain l Hne
                    ltac:(intros Hn; rewrite Forall_forall in Hfin;
                          destruct (Hfin _ Hn); discriminate))).
  apply np_sum_fin, Hfin.
Qed.

(** Resampling by sums keeps the total of a series of finite values. *)
Lemma resample_total (native freq : Z) (values : list np_float) :
  0 < native -> native <= freq -> Forall is_fin values ->
  np_sum (resample native freq series_sum values) = np_sum values.
Proof.
  intros Hn Hf Hfin.
  set (K := num_windows native freq (length values)).
  assert (forall j, j ∈ seqZ 0 K ->
            series_sum (window native freq values j)
            = Fin (qsum (fin_value <$> window native freq values j))) as Hw.
  { intros j Hj. apply elem_of_seqZ in Hj.
    apply series_sum_fin; [|apply window_fin, Hfin].
    unfold K, num_windows in Hj.
    destruct (length values) as [|m] eqn:Hlen; [lia|].
    destruct (window_key_onto native freq m j Hn Hf) as (i & Hi & Hk); [lia|].
    assert (is_Some (values !! i)) as [x Hx]
      by (apply lookup_lt_is_Some; lia).
    intros Hnil.
    assert (x ∈ window native freq values j) as Hin.
    { unfold window. apply list_elem_of_fmap. exists (Z.of_nat i, x).
      split; [reflexivity|]. apply list_elem_of_filter. split; [exact Hk|].
      apply elem_of_enumerate. exists i. split; [exact Hx|lia]. }
    rewrite Hnil in Hin. inversion Hin. }
  assert (resample native freq series_sum values
          = (fun j => Fin (qsum (fin_value <$> window native freq values j)))
              <$> seqZ 0 K) as ->.
  { unfold resample. fold K. apply list_fmap_ext.
    intros i j Hj. apply Hw. eapply list_elem_of_lookup_2, Hj. }
  rewrite np_sum_fin
    by (apply Forall_fmap, Forall_forall; intros; eexists; reflexivity).
  rewrite (np_sum_fin values Hfin). f_equal.
  rewrite <- list_fmap_compose.
  replace (qsum (fin_value <$> values))
    with (qsum (fin_value <$> (snd <$> enumerate 0 values)))
    by (rewrite enumerate_snd; reflexivity).
  rewrite <- (qsum_windows (fun p => p.1 * native / freq)
                (enumerate 0 values) (seqZ 0 K)).
  - reflexivity.
  - apply NoDup_seqZ.
  - intros [i x] Hp. apply elem_of_enumerate in Hp as (n & Hx & ->).
    simpl. apply elem_of_seqZ. unfold K, num_windows.
    apply lookup_lt_Some in Hx.
    destruct (length values) as [|m]; [lia|].
    assert (0 <= (0 + Z.of_nat n) * native / freq)
      by (apply Z.div_pos; lia).
    assert ((0 + Z.of_nat n) * native / freq <= Z.of_nat m * native / freq)
      by (apply Z.div_le_mono; nia).
    lia.
Qed.

(** X15: downsampling keeps the totals of the counts that it sums: a column of
    trip starts of a route or feed series, and every column of a stop
    series, whose values are whole numbers adds up over the day to the same
    number before and after.  Sums of whole numbers are exact in floating
    point too, in whatever order they are taken. *)
Theorem downsample_keeps_totals (time_series : TimeSeries) (freq native : Z)
    (res : TimeSeries) (k : ColKey) (values : list np_float) :
  ts_freq time_series = Some native ->
  0 < native -> native <= freq ->
  downsample time_series freq = Ok res ->
  (k, values) ∈ ts_columns time_series ->
  indicator k ∈ sum_indicators
  \/ (~ "route_id" ∈ ts_names time_series
      /\ "stop_id" ∈ ts_names time_series) ->
  Forall is_whole values ->
  exists values',
    (k, values') ∈ ts_columns res /\ np_sum values' = np_sum values.
Proof.
  intros Hfreq Hn Hf Hres Hk Hkind Hwhole.
  assert (Forall is_fin values) as Hfin.
  { eapply Forall_impl; [exact Hwhole|]. intros x [n ->]. eexists.
    reflexivity. }
  unfold downsample in Hres.
  destruct (ts_empty time_series).
  { injection Hres as <-. exists values. auto. }
  rewrite Hfreq in Hres. simpl in Hres.
  destruct (Z.ltb_spec freq native) as [Hlt|_]; [lia|].
  injection Hres as <-. cbn [ts_columns].
  exists (resample native freq series_sum values).
  split; [|apply resample_total; assumption].
  assert (indicator k ∈ sum_indicators ->
          (k, resample native freq series_sum values)
          ∈ resample_sum_mean native freq (ts_columns time_series)) as Hsum.
  { intros Hi. apply elem_of_resample_sum_mean. exists values. simpl. auto. }
  case_bool_decide as Hr.
  - apply elem_of_sortlevel, elem_of_app. left. apply Hsum.
    destruct Hkind as [Hi|[Hno _]]; [exact Hi|contradiction].
  - case_bool_decide as Hs.
    + apply elem_of_sortlevel, list_elem_of_fmap. exists (k, values). auto.
    + apply elem_of_app. left. apply Hsum.
      destruct Hkind as [Hi|[_ Hyes]]; [exact Hi|contradiction].
Qed.

(** The trip starts of the sample series, two in all, downsampled from one
    minute to three. *)
Lemma downsample_keeps_totals_witness :
  exists res values',
    downsample sample_series 3 = Ok res
    /\ (route_key "num_trip_starts" "r", values') ∈ ts_columns res
    /\ np_sum values' = of_int 2.
Proof.
  destruct (downsample sample_series 3) as [res|e] eqn:Hres;
    [|vm_compute in Hres; discriminate].
  destruct (downsample_keeps_totals sample_series 3 1 res
              (route_key "num_trip_starts" "r")
              (of_int <$> [1; 0; 0; 1; 0; 0]) eq_refl)
    as (values' & Hin & Htot); try lia.
  - exact Hres.
  - compute_done.
  - left. compute_done.
  - repeat constructor; eexists; reflexivity.
  - exists res, values'. split; [reflexivity|]. split; [exact Hin|].
    rewrite Htot. compute_done.
Defined.

(** ** Paths of archives *)

Lemma rstrip_spec (chars s : string) :
  exists tail,
    s = rstrip chars s +:+ tail
    /\ all_in_chars chars tail = true
    /\ ends_in_chars chars (rstrip chars s) = false.
Proof.
  induction s as [|c s (tail & Hs & Hall & Hend)].
  - exists "". auto.
  - cbn [rstrip]. destruct (rstrip chars s) as [|d r] eqn:Hr.
    + simpl in Hs. subst s.
      destruct (in_chars c chars) eqn:Hc.
      * exists (String c tail). simpl. rewrite Hc, Hall. auto.
      * exists tail. simpl. rewrite Hc. auto.
    + exists tail. split; [|split; [exact Hall|exact Hend]].
      change (String c s = String c (String d r +:+ tail)).
      f_equal. exact Hs.
Qed.

Lemma rstrip_all_in (chars s : string) :
  all_in_chars chars s = true -> rstrip chars s = "".
Proof.
  induction s as [|c s IH]; [reflexivity|]. simpl.
  intros [Hc Hs]%andb_true_iff. rewrite (IH Hs), Hc. reflexivity.
Qed.

Lemma rstrip_cons (chars : string) (c : ascii) (s : string) :
  rstrip chars (String c s)
  = match rstrip chars s with
    | EmptyString =>
        if in_chars c chars then EmptyString else String c EmptyString
    | r => String c r
    end.
Proof. reflexivity. Qed.

Lemma rstrip_unique (chars base tail : string) :
  all_in_chars chars tail = true ->
  ends_in_chars chars base = false ->
  rstrip chars (base +:+ tail) = base.
Proof.
  intros Htail. induction base as [|c base IH]; intros Hend.
  - apply rstrip_all_in, Htail.
  - change (String c base +:+ tail) with (String c (base +:+ tail)).
    rewrite rstrip_cons. destruct base as [|d base].
    + change ("" +:+ tail) with tail.
      rewrite (rstrip_all_in _ _ Htail). simpl in Hend. rewrite Hend.
      reflexivity.
    + rewrite IH by exact Hend. reflexivity.
Qed.

(** X16: [write_gtfs] strips from the path every trailing character among '.',
    'z', 'i' and 'p', not the extension '.zip': what is stripped is made of
    these characters and what is left does not end in one of them.  So the
    archive is written to the given path exactly when the path is a base
    name followed by '.zip' whose base name does not end in one of these
    four characters; the archive for 'trip.zip' is 'tr.zip'.  [read_gtfs]
    names the directory it extracts to in the same way. *)
Theorem write_gtfs_archive_path (path : string) :
  (exists tail,
     path = rstrip ".zip" path +:+ tail
     /\ all_in_chars ".zip" tail = true
     /\ ends_in_chars ".zip" (rstrip ".zip" path) = false)
  /\ (write_gtfs_archive path = path
      <-> exists base,
            path = base +:+ ".zip" /\ ends_in_chars ".zip" base = false)
  /\ write_gtfs_archive "trip.zip" = "tr.zip"
  /\ read_gtfs_extract_dir "trip.zip" = "tr/".
Proof.
  split; [apply rstrip_spec|]. split; [|split; reflexivity].
  unfold write_gtfs_archive. split.
  - intros H. exists (rstrip ".zip" path). split; [symmetry; exact H|].
    destruct (rstrip_spec ".zip" path) as (_ & _ & _ & Hend). exact Hend.
  - intros (base & -> & Hend).
    rewrite (rstrip_unique ".zip" base ".zip" eq_refl Hend). reflexivity.
Qed.

(** ** The first week of a feed *)

(** The dates of a feed are consecutive days. *)
Lemma get_dates_consecutive (feed : Feed) (dates : list Z) :
  get_dates feed = Ok dates ->
  exists start n, dates = (fun d => start + d) <$> seqZ 0 n.
Proof.
  unfold get_dates.
  destruct (match calendar feed with Some _ => _ | None => _ end)
    as [bounds|e]; simpl; [|discriminate].
  destruct (date_of_cell bounds.1) as [s|e]; simpl; [|discriminate].
  destruct (date_of_cell bounds.2) as [e'|e]; simpl; [|discriminate].
  intros [= <-]. eauto.
Qed.

Lemma consecutive_lookup (start n : Z) (i : nat) (d : Z) :
  ((fun d => start + d) <$> seqZ 0 n) !! i = Some d ->
  d = start + Z.of_nat i /\ Z.of_nat i < n.
Proof.
  rewrite list_lookup_fmap. intros H.
  destruct (seqZ 0 n !! i) as [x|] eqn:Hx; [|discriminate].
  injection H as <-. apply lookup_seqZ in Hx. lia.
Qed.

Lemma week_loop_lookup (dates : list Z) (m : nat) (a k : nat) (i : nat)
    (d : Z) :
  week_loop dates (Some m) (seq a k) !! i = Some d ->
  (i < k)%nat /\ dates !! (m + a + i)%nat = Some d.
Proof.
  revert a i. induction k as [|k IH]; intros a i H; [discriminate|].
  cbn [seq week_loop] in H.
  destruct (dates !! (m + a)%nat) as [x|] eqn:Hx; [|discriminate].
  destruct i as [|i]; simpl in H.
  - injection H as <-. split; [lia|]. rewrite Nat.add_0_r. exact Hx.
  - apply IH in H as [Hi Hd]. split; [lia|].
    replace (m + a + S i)%nat with (m + S a + i)%nat by lia. exact Hd.
Qed.

Lemma week_loop_length (dates : list Z) (m : nat) (a k : nat) :
  length (week_loop dates (Some m) (seq a k))
  = Nat.min k (length dates - (m + a)).
Proof.
  revert a. induction k as [|k IH]; intros a; [reflexivity|].
  cbn [seq week_loop].
  destruct (dates !! (m + a)%nat) as [x|] eqn:Hx.
  - apply lookup_lt_Some in Hx. cbn [length]. rewrite IH. lia.
  - apply lookup_ge_None in Hx. cbn [length]. lia.
Qed.

Lemma weekday_shift (m : Z) (i : nat) :
  date_weekday m = 0 -> (i < 7)%nat ->
  date_weekday (m + Z.of_nat i) = Z.of_nat i.
Proof.
  unfold date_weekday. intros Hm Hi.
  replace (m + Z.of_nat i + 6) with ((m + 6) + Z.of_nat i) by lia.
  rewrite Z.add_mod by lia. rewrite Hm, Z.add_0_l, Z.mod_mod by lia.
  apply Z.mod_small. lia.
Qed.

(** X18: [get_first_week] returns at most seven consecutive days of the feed's
    dates that begin with the first Monday among them: day number i of the
    result has weekday i.  It stops short of seven days only where the
    dates of the feed end, and it is empty exactly when no date of the feed
    is a Monday. *)
Theorem get_first_week_spec (feed : Feed) (dates : list Z) :
  get_dates feed = Ok dates ->
  exists week,
    get_first_week feed = Ok week
    /\ (length week <= 7)%nat
    /\ (forall i d, week !! i = Some d ->
          d ∈ dates /\ date_weekday d = Z.of_nat i
          /\ exists m, week !! 0%nat = Some m /\ d = m + Z.of_nat i)
    /\ (forall m, week !! 0%nat = Some m ->
          forall d, d ∈ dates -> d < m -> date_weekday d <> 0)
    /\ (week = [] <-> forall d, d ∈ dates -> date_weekday d <> 0)
    /\ ((length week < 7)%nat ->
        forall d w, d ∈ dates -> w ∈ week -> d <= w + 6
                    /\ (last week = Some w -> d <= w)).
Proof.
  intros Hdates.
  destruct (get_dates_consecutive feed dates Hdates) as (start & n & Hcons).
  unfold get_first_week. rewrite Hdates. cbn [mbind result_bind].
  eexists. split; [reflexivity|].
  destruct (list_find (fun date => date_weekday date = 0) dates)
    as [[m dm]|] eqn:Hfind; cbn [fmap option_fmap option_map fst].
  - apply list_find_Some in Hfind as (Hm & Hmon & Hfirst).
    assert (forall i d,
              week_loop dates (Some m) (seq 0 7) !! i = Some d ->
              (i < 7)%nat /\ dates !! (m + i)%nat = Some d
              /\ d = dm + Z.of_nat i) as Hweek.
    { intros i d Hi. apply week_loop_lookup in Hi as [Hi Hd].
      rewrite Nat.add_0_r in Hd. split; [exact Hi|]. split; [exact Hd|].
      rewrite Hcons in Hd, Hm.
      apply consecutive_lookup in Hd as [-> _].
      apply consecutive_lookup in Hm as [-> _]. lia. }
    assert (week_loop dates (Some m) (seq 0 7) !! 0%nat = Some dm) as Hhead.
    { cbn [seq week_loop]. rewrite Nat.add_0_r, Hm. reflexivity. }
    split; [rewrite week_loop_length; lia|].
    split; [|split; [|split; [|]]].
    + intros i d Hi. destruct (Hweek i d Hi) as (Hlt & Hd & ->).
      split; [eapply list_elem_of_lookup_2, Hd|].
      split; [apply weekday_shift; assumption|].
      exists dm. auto.
    + intros m' Hm'. rewrite Hhead in Hm'. injection Hm' as <-.
      intros d Hd Hlt.
      apply list_elem_of_lookup_1 in Hd as [j Hj].
      apply (Hfirst j d Hj).
      rewrite Hcons in Hj, Hm.
      apply consecutive_lookup in Hj as [-> _].
      apply consecutive_lookup in Hm as [-> _]. lia.
    + split.
      * intros Hnil. rewrite Hnil in Hhead. discriminate.
      * intros Hno. exfalso. apply (Hno dm); [|exact Hmon].
        eapply list_elem_of_lookup_2, Hm.
    + intros Hshort d w Hd Hw.
      rewrite week_loop_length in Hshort.
      apply list_elem_of_lookup_1 in Hd as [j Hj].
      pose proof (lookup_lt_Some _ _ _ Hj) as Hjlt.
      assert (d <= dm + (Z.of_nat (length dates) - Z.of_nat m - 1)) as Hdle.
      { rewrite Hcons in Hj, Hm.
        apply consecutive_lookup in Hj as [-> _].
        apply consecutive_lookup in Hm as [-> _]. lia. }
      apply list_elem_of_lookup_1 in Hw as [i Hi].
      destruct (Hweek i w Hi) as (Hlt & _ & Hwi).
      split; [lia|]. intros Hlast.
      rewrite last_lookup, week_loop_length in Hlast.
      destruct (Hweek _ w Hlast) as (_ & _ & Hw).
      lia.
  - apply list_find_None in Hfind. rewrite Forall_forall in Hfind.
    cbn [seq week_loop].
    split; [simpl; lia|]. split; [intros i d H; discriminate|].
    split; [intros m H; discriminate|].
    split; [split; [intros _; exact Hfind|reflexivity]|].
    intros _ d w _ Hw. inversion Hw.
Qed.

(** The calendar of the sample feed covers January 2020, which begins on a
    Wednesday: the first week runs from Monday the 6th to Sunday the
    12th. *)
Lemma get_first_week_spec_witness :
  exists week,
    get_first_week sample_feed = Ok week /\ (length week <= 7)%nat.
Proof.
  destruct (get_dates sample_feed) as [dates|e] eqn:Hd;
    [|vm_compute in Hd; discriminate].
  destruct (get_first_week_spec sample_feed dates Hd) as (week & Hw & Hlen & _).
  exists week. auto.
Defined.

(** ** Statistics of a date *)


(** X19: whatever frame the route-level and the stop-level statistics return,
    for a subset of trips that is empty or not, it carries the columns of
    the function's docstring, with direction_id exactly when
    direction-splitting is requested. *)
Theorem stats_frames_full_columns (split_directions : bool)
    (headway_start_time headway_end_time : string) :
  (forall subset fr,
     compute_routes_stats_base subset split_directions headway_start_time
       headway_end_time = Ok fr ->
     same_columns (columns fr) (routes_stats_cols split_directions))
  /\ (forall stop_times subset fr,
        compute_stops_stats_base stop_times subset split_directions
          headway_start_time headway_end_time = Ok fr ->
        same_columns (columns fr) (stops_stats_cols split_directions)).
Proof.
  split.
  - intros subset fr. apply compute_routes_stats_base_columns.
  - intros stop_times subset fr. apply compute_stops_stats_base_columns.
Qed.

(** The route statistics of the sample trip stats. *)
Lemma stats_frames_full_columns_witness :
  exists fr,
    compute_routes_stats_base sample_trips_stats false "07:00:00" "19:00:00"
    = Ok fr
    /\ same_columns (columns fr) (routes_stats_cols false).
Proof.
  destruct (compute_routes_stats_base sample_trips_stats false "07:00:00"
              "19:00:00") as [fr|e] eqn:H; [|vm_compute in H; discriminate].
  exists fr. split; [reflexivity|].
  apply (proj1 (stats_frames_full_columns false "07:00:00" "19:00:00")
           sample_trips_stats fr H).
Defined.
